(** * The number-image extraction pipeline of [extract_all_numbers.py]

    A shallow embedding of the hOCR scanner ([extract_number_from_text],
    the [parse_*] attribute parsers, [extract_numbers_from_hocr]), of the
    region extractor ([extract_and_save_numbers]), of the per-book driver
    ([process_book], [main]) and of the consumer-side file-name parser of
    [build_book.py] ([get_image_for_number]).

    Modelling conventions.
    - A Python [str] is a [string] whose characters are the code points
      U+0000..U+00FF (Latin-1).  The character classes below are the
      complete tables of CPython's Unicode database on that range.
    - Exceptions are values: a fallible function returns [result A].
    - [int] is the interpreter's with its settings at start: it refuses
      a digit string of more than 4300 characters with [ValueError].
    - [word2number] and [PIL] are external libraries; they are
      parameters of the development ([word_to_num], [raster]).
    - The file system is a finite map from paths to file contents. *)

From Stdlib Require Import ZArith Ascii String DecimalString DecimalPos.
From stdpp Require Import gmap strings list fin_maps.

(** ** Exceptions and results *)

Inductive exn : Type :=
| ValueError
| IndexError
| FileNotFoundError
| OtherError.

Inductive result (A : Type) : Type :=
| Ok (a : A)
| Raise (e : exn).

Arguments Ok {A} a.
Arguments Raise {A} e.

Definition rbind {A B : Type} (r : result A) (k : A -> result B) : result B :=
  match r with
  | Ok a => k a
  | Raise e => Raise e
  end.

Notation "'let!' x ':=' r 'in' k" := (rbind r (fun x => k))
  (at level 10, x name, r at level 100, k at level 200).

(** ** Python [str] on the Latin-1 range *)

Module PyStr.

Definition code (c : ascii) : N := N_of_ascii c.

Definition between (lo hi : N) (c : ascii) : bool :=
  ((lo <=? code c) && (code c <=? hi))%N.

(** [str.isspace] on one character: TAB..CR, FS..US, SPACE, NEL, NBSP. *)
Definition is_space (c : ascii) : bool :=
  between 9 13 c || between 28 32 c || between 133 133 c || between 160 160 c.

(** [str.isdecimal] on one character, also the class [\d] of [re]. *)
Definition is_decimal (c : ascii) : bool := between 48 57 c.

(** [str.isdigit] on one character: the decimal digits and the
    superscripts U+00B2, U+00B3, U+00B9. *)
Definition is_digit (c : ascii) : bool :=
  is_decimal c || between 178 179 c || between 185 185 c.

(** [str.lower] on one character: A..Z and U+00C0..U+00DE except the
    multiplication sign U+00D7. *)
Definition lower_char (c : ascii) : ascii :=
  if between 65 90 c || (between 192 222 c && negb (between 215 215 c))
  then ascii_of_N (code c + 32)
  else c.

Fixpoint lower (s : string) : string :=
  match s with
  | EmptyString => EmptyString
  | String c s' => String (lower_char c) (lower s')
  end.

Fixpoint lstrip (s : string) : string :=
  match s with
  | EmptyString => EmptyString
  | String c s' => if is_space c then lstrip s' else s
  end.

Fixpoint rstrip (s : string) : string :=
  match s with
  | EmptyString => EmptyString
  | String c s' =>
      match rstrip s' with
      | EmptyString => if is_space c then EmptyString else String c EmptyString
      | r => String c r
      end
  end.

(** [s.strip()] *)
Definition strip (s : string) : string := rstrip (lstrip s).

Fixpoint all_chars (p : ascii -> bool) (s : string) : bool :=
  match s with
  | EmptyString => true
  | String c s' => p c && all_chars p s'
  end.

(** [s.isdigit()]: at least one character, all of them digits. *)
Definition isdigit (s : string) : bool :=
  match s with
  | EmptyString => false
  | _ => all_chars is_digit s
  end.

(** [s.isdecimal()] *)
Definition isdecimal (s : string) : bool :=
  match s with
  | EmptyString => false
  | _ => all_chars is_decimal s
  end.

(** [s.startswith(p)]; [strip_prefix] also returns what follows. *)
Fixpoint strip_prefix (p s : string) : option string :=
  match p, s with
  | EmptyString, _ => Some s
  | String a p', String b s' =>
      if Ascii.eqb a b then strip_prefix p' s' else None
  | String _ _, EmptyString => None
  end.

Definition startswith (p s : string) : bool :=
  match strip_prefix p s with Some _ => true | None => false end.

(** [c in s] for one character. *)
Fixpoint has_char (c : ascii) (s : string) : bool :=
  match s with
  | EmptyString => false
  | String c' s' => Ascii.eqb c' c || has_char c s'
  end.

(** [p in s] *)
Fixpoint occurs (p s : string) : bool :=
  startswith p s
  || match s with
     | EmptyString => false
     | String _ s' => occurs p s'
     end.

Definition digit_value (c : ascii) : Z := Z.of_N (code c) - 48.

(** Base-10 value of a run of decimal digits, most significant first. *)
Fixpoint decimal_value_from (acc : Z) (s : string) : Z :=
  match s with
  | EmptyString => acc
  | String c s' => decimal_value_from (10 * acc + digit_value c) s'
  end.

Definition decimal_value (s : string) : Z := decimal_value_from 0 s.

(** [sys.get_int_max_str_digits()], as the interpreter starts with. *)
Definition int_max_str_digits : Z := 4300.

(** [int(s)] for the arguments the program passes to it: strings
    without blanks, sign or underscores.  Such a string converts when it
    is a non-empty run of decimal digits; any other character, the
    superscript digits included, is an invalid literal, and so is a run
    of more digits than [int_max_str_digits], leading zeros counted. *)
Definition int (s : string) : result Z :=
  match s with
  | EmptyString => Raise ValueError
  | _ => if all_chars is_decimal s then
           if (int_max_str_digits <? Z.of_nat (String.length s))%Z
           then Raise ValueError
           else Ok (decimal_value s)
         else Raise ValueError
  end.

(** [str(n)] and the f-string field for an integer.  The integers the
    program prints are candidate values, which are at most 50000, and
    numbers up to an [int] argument of the command line, which has gone
    through [int] and so has at most [int_max_str_digits] digits. *)
Definition str_of_int (n : Z) : string :=
  NilZero.string_of_int (Z.to_int n).

(** [s.replace(old, new)]: non-overlapping occurrences of [old], left
    to right.  [skip] counts the characters of an occurrence already
    replaced that are still to be passed over. *)
Fixpoint replace_from (skip : nat) (old new s : string) : string :=
  match s with
  | EmptyString => EmptyString
  | String c s' =>
      match skip with
      | S k => replace_from k old new s'
      | O =>
          if startswith old s
          then new +:+ replace_from (String.length old - 1) old new s'
          else String c (replace_from O old new s')
      end
  end.

Definition replace (old new s : string) : string := replace_from 0 old new s.

End PyStr.

(** ** 4.1 Numeric-text normalizer *)

(** What [w2n.word_to_num] hands back: an [int] or a [float]. *)
Inductive w2n_value : Type :=
| W2nInt (n : Z)
| W2nFloat.

Section Normalizer.

(** The external [word2number] conversion. *)
Variable word_to_num : string -> result w2n_value.

(** The [try]/[except (ValueError, IndexError)] block. *)
Definition try_word_to_num (text : string) : result (option Z) :=
  match word_to_num text with
  | Ok (W2nInt num) =>
      if (1 <=? num)%Z && (num <=? 50000)%Z then Ok (Some num) else Ok None
  | Ok W2nFloat => Ok None
  | Raise ValueError | Raise IndexError => Ok None
  | Raise e => Raise e
  end.

Definition extract_number_from_text (text : string) : result (option Z) :=
  let text := PyStr.lower (PyStr.strip text) in
  if String.eqb text "zero" then Ok (Some 0%Z)
  else if PyStr.isdigit text then
    if PyStr.startswith "0" text && (1 <? String.length text)%nat then Ok None
    else
      let! num := PyStr.int text in
      if (0 <=? num)%Z && (num <=? 50000)%Z then Ok (Some num)
      else try_word_to_num text
  else try_word_to_num text.

End Normalizer.

(** ** 4.2 Layout-attribute parser *)

(** The regular expressions of the [parse_*] functions, written out as
    matchers.  Every quantifier in them is greedy and is followed by a
    character outside its class (or by nothing), so giving characters
    back never turns a failed match into a successful one: the matcher
    takes the longest run and goes on. *)
Module Re.

(** Greedy [\d*]: the longest run of decimal digits, and the rest. *)
Fixpoint span_digits (s : string) : string * string :=
  match s with
  | EmptyString => (EmptyString, EmptyString)
  | String c s' =>
      if PyStr.is_decimal c
      then let (d, r) := span_digits s' in (String c d, r)
      else (EmptyString, s)
  end.

(** Greedy [\d+]. *)
Definition digits1 (s : string) : option (string * string) :=
  match span_digits s with
  | (EmptyString, _) => None
  | (d, r) => Some (d, r)
  end.

(** A literal piece of the pattern. *)
Definition lit (p s : string) : option string := PyStr.strip_prefix p s.

(** The string begins with a decimal digit. *)
Definition starts_with_digit (s : string) : bool :=
  match s with
  | EmptyString => false
  | String c _ => PyStr.is_decimal c
  end.

(** [re.search]: the match at the leftmost position that has one. *)
Fixpoint search {A : Type} (m : string -> option A) (s : string) : option A :=
  match m s with
  | Some a => Some a
  | None =>
      match s with
      | EmptyString => None
      | String _ s' => search m s'
      end
  end.

End Re.

Definition bbox : Type := Z * Z * Z * Z.

(** [bbox (\d+) (\d+) (\d+) (\d+)] at the head of [s]: the four groups. *)
Definition match_bbox (s : string) : option (string * string * string * string) :=
  r ← Re.lit "bbox " s;
  '(x0, r) ← Re.digits1 r;
  r ← Re.lit " " r;
  '(y0, r) ← Re.digits1 r;
  r ← Re.lit " " r;
  '(x1, r) ← Re.digits1 r;
  r ← Re.lit " " r;
  '(y1, _) ← Re.digits1 r;
  Some (x0, y0, x1, y1).

(** [map(int, match.groups())], unpacked: the groups are converted from
    left to right, and the first that [int] refuses raises. *)
Definition parse_bbox (title : string) : result (option bbox) :=
  match Re.search match_bbox title with
  | Some (x0, y0, x1, y1) =>
      let! x0 := PyStr.int x0 in
      let! y0 := PyStr.int y0 in
      let! x1 := PyStr.int x1 in
      let! y1 := PyStr.int y1 in
      Ok (Some (x0, y0, x1, y1))
  | None => Ok None
  end.

(** [ppageno (\d+)]: the group. *)
Definition match_ppageno (s : string) : option string :=
  r ← Re.lit "ppageno " s;
  '(n, _) ← Re.digits1 r;
  Some n.

Definition parse_ppageno (title : string) : result (option Z) :=
  match Re.search match_ppageno title with
  | Some n => let! n := PyStr.int n in Ok (Some n)
  | None => Ok None
  end.

(** The decimal literal [coefficient / 10 ^ exponent] that
    [parse_confidence] hands to [float]. *)
Record confidence : Type := Confidence { coefficient : Z; exponent : nat }.

(** [x_wconf (\d+(?:\.\d+)?)] *)
Definition match_confidence (s : string) : option confidence :=
  r ← Re.lit "x_wconf " s;
  '(i, r) ← Re.digits1 r;
  match Re.lit "." r ≫= Re.digits1 with
  | Some (f, _) => Some (Confidence (PyStr.decimal_value (i +:+ f)) (String.length f))
  | None => Some (Confidence (PyStr.decimal_value i) 0)
  end.

Definition parse_confidence (title : string) : option confidence :=
  Re.search match_confidence title.

(** [confidence <= 90] on the double [float(literal)].  [float] rounds
    the literal to the nearest double, ties to even.  90 is a double with
    an even significand and the next double is 90 + 2^-46, so the
    rounded value is at most 90 exactly when the literal is at most
    90 + 2^-47. *)
Definition float_le_90 (c : confidence) : bool :=
  (coefficient c * 2 ^ 47 <=? (90 * 2 ^ 47 + 1) * 10 ^ Z.of_nat (exponent c))%Z.

(** The exact value of the literal is above [n]. *)
Definition above (n : Z) (c : confidence) : Prop :=
  (n * 10 ^ Z.of_nat (exponent c) < coefficient c)%Z.

Definition dquote : ascii := ascii_of_N 34.

(** The greedy run of characters other than the double quote. *)
Fixpoint span_unquoted (s : string) : string * string :=
  match s with
  | EmptyString => (EmptyString, EmptyString)
  | String c s' =>
      if Ascii.eqb c dquote then (EmptyString, s)
      else let (p, r) := span_unquoted s' in (String c p, r)
  end.

(** [s.split(sep)] for a one-character separator. *)
Fixpoint split_on (sep : ascii) (s : string) : list string :=
  match s with
  | EmptyString => [EmptyString]
  | String c s' =>
      if Ascii.eqb c sep then EmptyString :: split_on sep s'
      else match split_on sep s' with
           | h :: t => String c h :: t
           | [] => [String c EmptyString]
           end
  end.

(** [Path(s).name] (POSIX flavour): the last component that is neither
    empty nor a single dot, the empty string when there is none. *)
Definition path_name (s : string) : string :=
  List.last
    (List.filter (fun c => negb (String.eqb c EmptyString || String.eqb c "."))
       (split_on "/" s))
    EmptyString.

(** The pattern of [parse_image_path]: the word image, a blank, and a
    non-empty run of characters between double quotes. *)
Definition match_image (s : string) : option string :=
  r ← Re.lit ("image " +:+ String dquote EmptyString) s;
  match span_unquoted r with
  | (EmptyString, _) => None
  | (_, EmptyString) => None
  | (p, String _ _) => Some p
  end.

Definition parse_image_path (title : string) : option string :=
  path_name <$> Re.search match_image title.

(** ** 4.3 Document scanner *)

(** The part of the parsed hOCR tree the scanner looks at: the
    [div.ocr_page] nodes in document order with their [title] attribute,
    and under each its [span.ocrx_word] nodes with text and [title]. *)
Record word : Type := Word { w_text : string; w_title : option string }.
Record page : Type := Page { p_title : option string; p_words : list word }.

(** [(number, x0, y0, x1, y1)] *)
Record candidate : Type := Candidate { number : Z; box : bbox }.

(** [numbers_by_image]: a [dict], which keeps its keys in insertion order. *)
Definition image_dict : Type := list (string * list candidate).

(** Lines 111-114: [d.setdefault(k, []).append(c)]. *)
Fixpoint dict_append (k : string) (c : candidate) (d : image_dict) : image_dict :=
  match d with
  | [] => [(k, [c])]
  | (k', l) :: d' =>
      if String.eqb k k' then (k', l ++ [c]) :: d'
      else (k', l) :: dict_append k c d'
  end.

(** [d.get(k, [])] *)
Fixpoint dict_get (k : string) (d : image_dict) : list candidate :=
  match d with
  | [] => []
  | (k', l) :: d' => if String.eqb k k' then l else dict_get k d'
  end.

(** A [for] loop whose body may raise. *)
Fixpoint for_each {S A : Type} (body : S -> A -> result S) (st : S) (l : list A)
  : result S :=
  match l with
  | [] => Ok st
  | a :: l' => let! st' := body st a in for_each body st' l'
  end.

(** A truthy [str | None]: present and not empty. *)
Definition truthy (o : option string) : option string :=
  match o with
  | Some (String c s) => Some (String c s)
  | _ => None
  end.

(** All the candidates of a dictionary. *)
Definition all_candidates (d : image_dict) : list candidate :=
  concat d.*2.

Section Scanner.

Variable word_to_num : string -> result w2n_value.

Definition scan_state : Type := image_dict * gset Z.

(** The body of the loop over the words of one page. *)
Definition scan_word (image_name : string) (st : scan_state) (w : word)
  : result scan_state :=
  let (numbers_by_image, seen_numbers) := st in
  match truthy (Some (w_text w)) with
  | None => Ok st
  | Some text =>
      let! number := extract_number_from_text word_to_num text in
      match number with
      | None => Ok st
      | Some number =>
          if decide (number ∈ seen_numbers) then Ok st
          else match truthy (w_title w) with
               | None => Ok st
               | Some word_title =>
                   match parse_confidence word_title with
                   | None => Ok st
                   | Some confidence =>
                       if float_le_90 confidence then Ok st
                       else
                         let! bbox := parse_bbox word_title in
                         match bbox with
                         | None => Ok st
                         | Some bbox =>
                             Ok (dict_append image_name
                                   (Candidate number bbox) numbers_by_image,
                                 {[number]} ∪ seen_numbers)
                         end
                   end
               end
      end
  end.

(** The body of the loop over the pages. *)
Definition scan_page (st : scan_state) (p : page) : result scan_state :=
  match truthy (p_title p) with
  | None => Ok st
  | Some page_title =>
      match parse_image_path page_title with
      | None => Ok st
      | Some image_name => for_each (scan_word image_name) st (p_words p)
      end
  end.

Definition extract_numbers_from_hocr (html : list page) : result image_dict :=
  let! st := for_each scan_page ([], ∅) html in
  Ok (fst st).

(** *** The traversal the scanner follows, for stating its properties *)

(** The raster file name of a page, when its [title] gives one. *)
Definition resolved_image (p : page) : option string :=
  truthy (p_title p) ≫= parse_image_path.

(** The word tokens in document traversal order, each with the raster
    file name of its page; the pages without one are passed over. *)
Definition traversal (html : list page) : list (string * word) :=
  p ← html;
  match resolved_image p with
  | Some image_name => pair image_name <$> p_words p
  | None => []
  end.

(** What a word token has to pass to be recorded for the value [v]: it
    normalizes to [v], its confidence is resolvable and not [<= 90],
    and its bounding box is resolvable ([parse_bbox] returns one). *)
Definition qualifies (v : Z) (e : string * word) : option (string * bbox) :=
  text ← truthy (Some (w_text e.2));
  match extract_number_from_text word_to_num text with
  | Ok (Some n) =>
      if decide (n = v) then
        word_title ← truthy (w_title e.2);
        confidence ← parse_confidence word_title;
        if float_le_90 confidence then None
        else match parse_bbox word_title with
             | Ok (Some bbox) => Some (e.1, bbox)
             | _ => None
             end
      else None
  | _ => None
  end.

(** The first qualifying occurrence of [v] in a traversal. *)
Fixpoint first_qualifying (v : Z) (es : list (string * word))
  : option (string * bbox) :=
  match es with
  | [] => None
  | e :: es' =>
      match qualifies v e with
      | Some r => Some r
      | None => first_qualifying v es'
      end
  end.

Definition scan_event (st : scan_state) (e : string * word) : result scan_state :=
  scan_word e.1 st e.2.

(** After the events [es]: the seen values are those with a qualifying
    occurrence, each image lists exactly the first qualifying
    occurrences found on it, and no key or value is repeated. *)
Record scan_inv (es : list (string * word)) (st : scan_state) : Prop := {
  inv_seen : forall v, v ∈ st.2 <-> is_Some (first_qualifying v es);
  inv_dict : forall i v b,
    Candidate v b ∈ dict_get i st.1 <-> first_qualifying v es = Some (i, b);
  inv_keys : NoDup st.1.*1;
  inv_values : NoDup (number <$> all_candidates st.1)
}.

End Scanner.

(** ** 4.4 Region extractor *)

(** A [Path] is the list of its components; [p / c] for a component [c]
    without separator that is neither empty nor a dot is [p ++ [c]]. *)
Definition path : Type := list string.

(** What the program prints. *)
Inductive message : Type :=
| Processing (book_name : string)
| WarningJp2NotFound (image_name : string)
| Completed (book_name : string) (count skipped : nat)
| NoHocrFound (book_name : string)
| NoJp2Found (book_name : string)
| FoundBooks (n : nat)
| ErrorProcessing (book_name : string) (e : exn)
| TotalExtracted (total : nat).

Section Extractor.

Variable word_to_num : string -> result w2n_value.

(** The PNG data of a cropped region. *)
Variable region : Type.

(** The files under the output directory, and the standard output. *)
Record world : Type := World {
  files : gmap path region;
  stdout : list message
}.

(** Code that reads and changes the world and may raise. *)
Definition io (A : Type) : Type := world -> world * result A.

Definition ret {A : Type} (a : A) : io A := fun w => (w, Ok a).

Definition bind {A B : Type} (m : io A) (k : A -> io B) : io B :=
  fun w =>
    match m w with
    | (w', Ok a) => k a w'
    | (w', Raise e) => (w', Raise e)
    end.

Notation "'io!' x ':=' m 'in' k" := (bind m (fun x => k))
  (at level 10, x pattern, m at level 100, k at level 200).

Definition lift {A : Type} (r : result A) : io A := fun w => (w, r).

Definition print (m : message) : io unit :=
  fun w => (World (files w) (stdout w ++ [m]), Ok tt).

(** [p.exists()] for a file of the output directory. *)
Definition path_exists (p : path) : io bool :=
  fun w => (w, Ok (bool_decide (is_Some (files w !! p)))).

(** [region.save(p, 'PNG')], after [p.parent.mkdir(exist_ok=True)]. *)
Definition save (p : path) (r : region) : io unit :=
  fun w => (World (<[p := r]> (files w)) (stdout w), Ok tt).

Fixpoint for_each_io {S A : Type} (body : S -> A -> io S) (st : S) (l : list A)
  : io S :=
  match l with
  | [] => ret st
  | a :: l' => io! st' := body st a in for_each_io body st' l'
  end.

(** A page image as [PIL] sees it: [Image.open] raises, or gives an
    image whose [crop] and PNG encoding give a region or raise. *)
Definition raster : Type := result (bbox -> result region).

(** A [*_jp2] directory: the page image stored under each file name. *)
Definition jp2_directory : Type := string -> option raster.

(** A [*_hocr.html] file: [read_text] and the HTML parser give the
    page nodes or raise. *)
Definition hocr_file : Type := result (list page).

(** Lines 152-153. *)
Definition output_path (output_dir : path) (book_name image_name : string)
           (number : Z) : path :=
  let number_dir := output_dir ++ [PyStr.str_of_int number] in
  number_dir ++
    [PyStr.str_of_int number +:+ "_" +:+ book_name +:+ "_"
       +:+ PyStr.replace ".jp2" ".png" image_name].

(** The body of the loop over the numbers of one page image. *)
Definition save_number (output_dir : path) (book_name image_name : string)
           (img : bbox -> result region) (acc : nat * nat) (c : candidate)
  : io (nat * nat) :=
  let (count, skipped) := acc in
  let p := output_path output_dir book_name image_name (number c) in
  io! present := path_exists p in
  if (present : bool) then ret (count, S skipped)
  else
    io! r := lift (img (box c)) in
    io! _ := save p r in
    ret (S count, skipped).

(** The body of the loop over [numbers_by_image.items()]. *)
Definition save_image (jp2_dir : jp2_directory) (output_dir : path)
           (book_name : string) (acc : nat * nat)
           (item : string * list candidate) : io (nat * nat) :=
  let (image_name, numbers) := item in
  match jp2_dir image_name with
  | None => io! _ := print (WarningJp2NotFound image_name) in ret acc
  | Some r =>
      io! img := lift r in
      for_each_io (save_number output_dir book_name image_name img) acc numbers
  end.

Definition extract_and_save_numbers (hocr_path : hocr_file)
           (jp2_dir : jp2_directory) (output_dir : path) (book_name : string)
  : io nat :=
  io! _ := print (Processing book_name) in
  io! numbers_by_image :=
    lift (let! html := hocr_path in extract_numbers_from_hocr word_to_num html) in
  io! acc := for_each_io (save_image jp2_dir output_dir book_name) (0, 0)
               numbers_by_image in
  io! _ := print (Completed book_name (fst acc) (snd acc)) in
  ret (fst acc).

(** ** 4.5 Document fan-out controller *)

(** A directory under [data/raw]: its name and what the two [glob]
    calls list, in the order they list it. *)
Record book_directory : Type := BookDirectory {
  name : string;
  hocr_files : list hocr_file;
  jp2_dirs : list jp2_directory
}.

Definition process_book (book_dir : book_directory) (output_dir : path)
  : io nat :=
  match hocr_files book_dir with
  | [] => io! _ := print (NoHocrFound (name book_dir)) in ret 0
  | hocr_path :: _ =>
      match jp2_dirs book_dir with
      | [] => io! _ := print (NoJp2Found (name book_dir)) in ret 0
      | jp2_dir :: _ =>
          extract_and_save_numbers hocr_path jp2_dir output_dir (name book_dir)
      end
  end.

(** [try: results.append(future.result())] with its [except Exception]
    clause, for one book. *)
Definition collect (output_dir : path) (results : list nat)
           (book_dir : book_directory) : io (list nat) :=
  fun w =>
    match process_book book_dir output_dir w with
    | (w', Ok n) => (w', Ok (results ++ [n]))
    | (w', Raise e) =>
        (World (files w') (stdout w' ++ [ErrorProcessing (name book_dir) e]),
         Ok (results ++ [0]))
    end.

(** [main], with the books in the order [as_completed] yields them and
    each worker's effects on the world taken as one step. *)
Definition main (book_dirs : list book_directory) : io unit :=
  let output_dir := ["data"; "numbers"] in
  io! _ := print (FoundBooks (length book_dirs)) in
  io! results := for_each_io (collect output_dir) [] book_dirs in
  let total := list_sum results in
  print (TotalExtracted total).

End Extractor.

Arguments World {region} files stdout.
Arguments files {region} w.
Arguments stdout {region} w.
Arguments BookDirectory {region} name hocr_files jp2_dirs.
Arguments name {region} b.
Arguments hocr_files {region} b.
Arguments jp2_dirs {region} b.
Arguments ret {region A} a w.
Arguments bind {region A B} m k w.
Arguments lift {region A} r w.
Arguments print {region} m w.
Arguments path_exists {region} p w.
Arguments save {region} p r w.
Arguments for_each_io {region S A} body st l.
Arguments save_number {region} output_dir book_name image_name img acc c.
Arguments save_image {region} jp2_dir output_dir book_name acc item.
Arguments extract_and_save_numbers word_to_num {region} hocr_path jp2_dir output_dir book_name.
Arguments process_book word_to_num {region} book_dir output_dir.
Arguments collect word_to_num {region} output_dir results book_dir.
Arguments main word_to_num {region} book_dirs.

(** ** The consumer of the file names: [get_image_for_number] *)

(** The end of the string, or the newline that ends it. *)
Definition at_end (s : string) : bool :=
  match s with
  | EmptyString => true
  | String c EmptyString => Ascii.eqb c (ascii_of_N 10)
  | _ => false
  end.

(** [_h(\d+)\.png$] at the head of [s]. *)
Definition match_height (s : string) : option Z :=
  r ← Re.lit "_h" s;
  '(h, r) ← Re.digits1 r;
  r ← Re.lit ".png" r;
  if at_end r then Some (PyStr.decimal_value h) else None.

(** Lines 21-26 of [build_book.py]: the height encoded in a file name.
    A file name is at most 255 bytes long, so the run of digits is far
    shorter than the limit of [int] and the conversion is its value. *)
Definition height_of_name (image_name : string) : result Z :=
  match Re.search match_height image_name with
  | Some height => Ok height
  | None => Raise ValueError
  end.

(** [glob_png] lists the names of the [*.png] files of a directory, in
    the order [glob] gives them. *)
Definition get_image_for_number (glob_png : path -> list string)
           (number : Z) (numbers_dir : path) : result (path * Z) :=
  let number_dir := numbers_dir ++ [PyStr.str_of_int number] in
  match glob_png number_dir with
  | [] => Raise FileNotFoundError
  | image_name :: _ =>
      let! height := height_of_name image_name in
      Ok (number_dir ++ [image_name], height)
  end.

(** ** Definitions for stating the properties *)

Definition has_dot (s : string) : bool := PyStr.has_char "." s.

(** The name up to its last dot: a file name without its extension. *)
Fixpoint without_extension (s : string) : string :=
  match s with
  | EmptyString => EmptyString
  | String c s' =>
      if has_dot s' then String c (without_extension s')
      else if Ascii.eqb c "." then EmptyString
      else String c s'
  end.

(** The path as C4 words it: the raster file name with its extension,
    whatever it is, replaced by [.png]. *)
Definition claimed_output_path (output_dir : path) (book_name image_name : string)
           (number : Z) : path :=
  output_dir ++
    [PyStr.str_of_int number;
     PyStr.str_of_int number +:+ "_" +:+ book_name +:+ "_"
       +:+ without_extension image_name +:+ ".png"].

(** What each book's [future.result()] does, in the order of [main]. *)
Fixpoint outcomes (word_to_num : string -> result w2n_value) {region : Type}
         (output_dir : path) (book_dirs : list (book_directory region))
         (w : world region) : list (result nat) :=
  match book_dirs with
  | [] => []
  | b :: bs =>
      (process_book word_to_num b output_dir w).2
        :: outcomes word_to_num output_dir bs
             (collect word_to_num output_dir [] b w).1
  end.

(** The counts of the books that were processed without an exception. *)
Definition created_counts (rs : list (result nat)) : list nat :=
  r ← rs; match r with Ok n => [n] | Raise _ => [] end.

(** The candidates of the images whose raster file is there. *)
Definition covered {region : Type} (jp2_dir : jp2_directory region)
           (d : image_dict) : nat :=
  list_sum ((fun item : string * list candidate =>
               match jp2_dir item.1 with
               | Some _ => length item.2
               | None => 0
               end) <$> d).

(** The file of a candidate is there. *)
Definition saved {region : Type} (output_dir : path) (book_name image_name : string)
           (w : world region) (c : candidate) : Prop :=
  is_Some (files w !! output_path output_dir book_name image_name (number c)).

(** Every file of [w] is a file of [w']. *)
Definition keeps_files {region : Type} (w w' : world region) : Prop :=
  forall p, is_Some (files w !! p) -> is_Some (files w' !! p).

(** The raster of an image opens and the files of its numbers are
    there, when there is a raster file at all. *)
Definition image_done {region : Type} (output_dir : path) (book_name : string)
           (jp2_dir : jp2_directory region) (w : world region)
           (item : string * list candidate) : Prop :=
  forall r, jp2_dir item.1 = Some r ->
            (exists img, r = Ok img)
            /\ Forall (saved output_dir book_name item.1 w) item.2.

(** Two raster directories that hold the same files, of which the same
    open; what cropping a page image gives, or whether it fails, may
    differ between them. *)
Definition same_rasters {region : Type} (jp2_dir jp2_dir' : jp2_directory region)
  : Prop :=
  forall image_name,
    match jp2_dir image_name, jp2_dir' image_name with
    | None, None => True
    | Some (Ok _), Some (Ok _) => True
    | Some (Raise e), Some (Raise e') => e = e'
    | _, _ => False
    end.

(** ** Examples to run the definitions on *)

(** A few rows of the behaviour of [word2number], enough to run the
    examples: a number word, the word that converts to 0, digit strings
    (returned as their value), and no number word at all. *)
Definition w2n_excerpt (s : string) : result w2n_value :=
  if String.eqb s "twelve" then Ok (W2nInt 12)
  else if String.eqb s "point" then Ok (W2nInt 0)
  else if PyStr.isdigit s then
    match PyStr.int s with
    | Ok n => Ok (W2nInt n)
    | Raise e => Raise e
    end
  else Raise ValueError.

Definition quoted (s : string) : string :=
  String dquote s +:+ String dquote EmptyString.

(** The two-page document of the end-to-end example: the word twelve
    on the page of [p1.jp2], the token 12 on the page of [p2.jp2]. *)
Definition example_html : list page :=
  [ Page (Some ("image " +:+ quoted "/scans/p1.jp2" +:+ "; ppageno 0"))
      [ Word "The" (Some "bbox 1 1 9 9; x_wconf 96");
        Word "twelve" (Some "bbox 10 10 50 30; x_wconf 95") ];
    Page (Some ("image " +:+ quoted "/scans/p2.jp2" +:+ "; ppageno 1"))
      [ Word "12" (Some "bbox 5 5 20 20; x_wconf 99");
        Word "7" (Some "bbox 30 5 40 20");
        Word "8" (Some "bbox 50 5 60 20; x_wconf 90");
        Word "9" (Some "bbox 70 5 80 20; x_wconf 91.5") ] ].

Definition example_dict : image_dict :=
  [ ("p1.jp2", [Candidate 12 (10, 10, 50, 30)%Z]);
    ("p2.jp2", [Candidate 9 (70, 5, 80, 20)%Z]) ].

(** A run of 4301 digits: one more than [int] converts. *)
Definition long_run : string :=
  Nat.iter 4301 (String "9") EmptyString.

(** The token made of the one character U+00B2, superscript two. *)
Definition superscript_two : string := String (ascii_of_N 178) EmptyString.

(** The raster directory of the example: [p1.jp2] is there and every
    box can be cropped from it, [p2.jp2] is missing.  A cropped region
    is stood for by its box. *)
Definition example_jp2 : jp2_directory bbox :=
  fun image_name =>
    if String.eqb image_name "p1.jp2" then Some (Ok (fun b => Ok b)) else None.

(** The same raster directory with a page image that opens but from
    which nothing can be cropped any more. *)
Definition example_jp2_uncroppable : jp2_directory bbox :=
  fun image_name =>
    if String.eqb image_name "p1.jp2" then Some (Ok (fun _ => Raise OtherError))
    else None.

Definition example_run (w : world bbox) : world bbox * result nat :=
  extract_and_save_numbers w2n_excerpt (Ok example_html) example_jp2
    ["data"; "numbers"] "book1" w.

(** Three books: the example, a book whose text holds a superscript
    two, and a directory without hOCR file. *)
Definition example_books : list (book_directory bbox) :=
  [ BookDirectory "book1" [Ok example_html] [example_jp2];
    BookDirectory "book2"
      [Ok [Page (Some ("image " +:+ quoted "p1.jp2"))
             [Word "12" (Some "bbox 1 1 9 9; x_wconf 96");
              Word superscript_two (Some "bbox 9 1 12 5; x_wconf 93")]]]
      [example_jp2];
    BookDirectory "book3" [] [] ].

(** ** Definitions for stating further properties *)

(** A string that [lstrip] leaves alone: empty, or no blank in front. *)
Definition no_blank_in_front (s : string) : bool :=
  match s with
  | EmptyString => true
  | String c _ => negb (PyStr.is_space c)
  end.

(** The exception a word token ends the scan with, when [before] are
    the tokens visited before it: that of the normalizer on its text,
    or that of [parse_bbox] on its metadata when the token gets as far:
    its value has no qualifying occurrence before it, and its
    confidence is resolvable and not [<= 90]. *)
Definition word_error (word_to_num : string -> result w2n_value)
           (before : list (string * word)) (e : string * word) : option exn :=
  text ← truthy (Some (w_text e.2));
  match extract_number_from_text word_to_num text with
  | Raise err => Some err
  | Ok None => None
  | Ok (Some number) =>
      match first_qualifying word_to_num number before with
      | Some _ => None
      | None =>
          word_title ← truthy (w_title e.2);
          confidence ← parse_confidence word_title;
          if float_le_90 confidence then None
          else match parse_bbox word_title with
               | Raise err => Some err
               | Ok _ => None
               end
      end
  end.

(** The first exception of the tokens [es] that come after [before]. *)
Fixpoint first_error (word_to_num : string -> result w2n_value)
         (before es : list (string * word)) : option exn :=
  match es with
  | [] => None
  | e :: es' =>
      match word_error word_to_num before e with
      | Some err => Some err
      | None => first_error word_to_num (before ++ [e]) es'
      end
  end.

(** No image is listed without a candidate. *)
Definition lists_nonempty (d : image_dict) : Prop :=
  Forall (fun item : string * list candidate => item.2 <> []) d.

(** The warnings of a run: one for each image of the dictionary that
    has no raster file, in the order of the dictionary. *)
Definition missing_warnings {region : Type} (jp2_dir : jp2_directory region)
           (d : image_dict) : list message :=
  item ← d;
  match jp2_dir item.1 with
  | Some _ => []
  | None => [WarningJp2NotFound item.1]
  end.

(** [p] is a file of [w'] that [w] does not have. *)
Definition created {region : Type} (w w' : world region) (p : path) (x : region)
  : Prop :=
  files w' !! p = Some x /\ files w !! p = None.

(** ** The page layout of [build_book.py]

    [build_book.py] is embedded from [get_image_for_number] (above) to
    [main]: the distribution of the numbers of a page over its columns,
    the HTML of a page, and the loop that makes the pages and the book.
    The listing of a number directory ([glob]) and [Path.absolute] are
    parameters, and so are the browser ([playwright]) and [pypdf], which
    give a document or raise.  The [while] loop of [main] is run on
    fuel; it is shown below that [max_number] rounds are enough.
    [make_pi.py] is not embedded: it is built on [mpmath] and on a
    module [compose_missing_numbers] that is not among the sources. *)

Definition GRID_COLUMNS : Z := 5.
Definition COLUMN_TARGET_HEIGHT_PX : Z := 672.

(** The local variables of [distribute_numbers_to_columns].  The column
    index starts at 0 and is only ever incremented, so it is a natural
    number and [columns[current_column_idx]] never counts from the end. *)
Record distribution : Type := Distribution {
  columns : list (list (Z * path));
  current_column_idx : nat;
  current_height : Z;
  numbers_used : nat
}.

(** How the body of a [for] loop ends: at its end, or in [break]. *)
Inductive flow (S : Type) : Type :=
| Next (s : S)
| Break (s : S).
Arguments Next {S} s.
Arguments Break {S} s.

Fixpoint for_each_break {S A : Type} (body : S -> A -> result (flow S))
         (st : S) (l : list A) : result S :=
  match l with
  | [] => Ok st
  | a :: l' =>
      let! f := body st a in
      match f with
      | Next st' => for_each_break body st' l'
      | Break st' => Ok st'
      end
  end.

(** The body of the loop, lines 59-72.  [moved] is the column and its
    height after lines 61-67: the current ones when the item fits, the
    next column when it does not, and [None] for the [break] of line 64. *)
Definition place (num_columns target_height : Z) (st : distribution)
           (item : Z * Z * path) : result (flow distribution) :=
  let '(number, height, image_path) := item in
  let moved :=
    if (target_height <? current_height st + height)%Z then
      if (num_columns - 1 <=? Z.of_nat (current_column_idx st))%Z then None
      else Some (S (current_column_idx st), 0%Z)
    else Some (current_column_idx st, current_height st) in
  match moved with
  | None => Ok (Break st)
  | Some (idx, height_so_far) =>
      match columns st !! idx with
      | None => Raise IndexError
      | Some column =>
          Ok (Next {| columns := <[idx := column ++ [(number, image_path)]]> (columns st);
                      current_column_idx := idx;
                      current_height := height_so_far + height;
                      numbers_used := S (numbers_used st) |})
      end
  end.

Definition distribute_numbers_to_columns
           (numbers_with_heights : list (Z * Z * path))
           (num_columns target_height : Z)
  : result (list (list (Z * path)) * nat) :=
  let init := Distribution (replicate (Z.to_nat num_columns) []) 0 0 0 in
  let! st := for_each_break (place num_columns target_height) init
               numbers_with_heights in
  Ok (columns st, numbers_used st).

(** What a column keeps of an item, and the height of a run of items. *)
Definition without_height (item : Z * Z * path) : Z * path := (item.1.1, item.2).

Definition without_heights (items : list (Z * Z * path)) : list (Z * path) :=
  without_height <$> items.

Definition height_of (item : Z * Z * path) : Z := item.1.2.

Definition heights (items : list (Z * Z * path)) : Z :=
  foldr (fun item acc => height_of item + acc)%Z 0%Z items.

(** The state after the items [placed]: the columns are the runs
    [filled ++ [current]] without their heights, then [free] empty
    columns. *)
Record layout (num_columns target_height : Z)
       (placed : list (Z * Z * path)) (st : distribution)
       (filled : list (list (Z * Z * path))) (current : list (Z * Z * path))
       (free : nat) : Prop := Layout {
  layout_columns :
    columns st = (without_heights <$> filled)
                   ++ without_heights current :: replicate free [];
  layout_idx : current_column_idx st = length filled;
  layout_count : Z.of_nat (length filled + 1 + free) = num_columns;
  layout_height : current_height st = heights current;
  layout_used : numbers_used st = length placed;
  layout_placed : concat filled ++ current = placed;
  layout_fits :
    Forall (fun run => (heights run <= target_height)%Z \/ length run <= 1)
           (filled ++ [current]);
  layout_greedy :
    forall k run run',
      (filled ++ [current]) !! k = Some run ->
      (filled ++ [current]) !! S k = Some run' ->
      exists item rest,
        run' = item :: rest /\ (target_height < heights run + height_of item)%Z
}.

(** ** The pages of [build_book.py] *)

Definition get_html_style : list string :=
  [ "<!DOCTYPE html>";
    "<html lang=" +:+ quoted "en" +:+ ">";
    "<head>";
    "    <meta charset=" +:+ quoted "UTF-8" +:+ ">";
    "    <meta name=" +:+ quoted "viewport" +:+ " content="
      +:+ quoted "width=device-width, initial-scale=1.0" +:+ ">";
    "    <title>The Numbers</title>";
    "    <style>";
    "        @page {";
    "            margin: 2in;";
    "        }";
    "        html, body {";
    "            height: 100%;";
    "        }";
    "        body {";
    "            font-family: Georgia, serif;";
    "            margin: 0;";
    "            padding: 0;";
    "            display: flex;";
    "            min-height: 100%;";
    "        }";
    "        .container {";
    "            flex: 1;";
    "            display: flex;";
    "            gap: 10px;";
    "            box-sizing: border-box;";
    "            height: 100%;";
    "        }";
    "        .column {";
    "            display: flex;";
    "            flex-direction: column;";
    "            flex: 1 1 0;";
    "        }";
    "        .number-item {";
    "            display: flex;";
    "            align-items: flex-start;";
    "            justify-content: center;";
    "        }";
    "        .number-image {";
    "            width: auto;";
    "            height: auto;";
    "            max-width: 100%;";
    "        }";
    "    </style>";
    "</head>";
    "<body>" ].

(** [range(start, stop)] *)
Definition range (start stop : Z) : list Z :=
  (fun i : nat => (start + Z.of_nat i)%Z) <$> seq 0 (Z.to_nat (stop - start)).

(** [sep.join(parts)] *)
Fixpoint join (sep : string) (parts : list string) : string :=
  match parts with
  | [] => EmptyString
  | [part] => part
  | part :: parts' => part +:+ sep +:+ join sep parts'
  end.

Section Pages.

(** The listing of the [*.png] files of a directory, and
    [image_path.absolute()] as the f-string prints it. *)
Variable glob_png : path -> list string.
Variable absolute : path -> string.

(** The body of the loop of lines 142-144. *)
Definition collect_height (numbers_dir : path)
           (numbers_with_heights : list (Z * Z * path)) (number : Z)
  : result (list (Z * Z * path)) :=
  let! found := get_image_for_number glob_png number numbers_dir in
  let '(image_path, height) := found in
  Ok (numbers_with_heights ++ [(number, height, image_path)]).

(** The three lines of one number, lines 159-161. *)
Definition item_html (html_parts : list string) (item : Z * path) : list string :=
  let '(number, image_path) := item in
  html_parts ++
    [ "            <div class=" +:+ quoted "number-item" +:+ ">";
      "                <img src=" +:+ quoted ("file://" +:+ absolute image_path)
        +:+ " alt=" +:+ quoted (PyStr.str_of_int number)
        +:+ " class=" +:+ quoted "number-image" +:+ ">";
      "            </div>" ].

(** The body of the loop over the columns, lines 152-163. *)
Definition column_html (html_parts : list string) (column : list (Z * path))
  : list string :=
  match column with
  | [] => html_parts
  | _ :: _ =>
      let html_parts :=
        html_parts ++ ["        <div class=" +:+ quoted "column" +:+ ">"] in
      let html_parts := foldl item_html html_parts column in
      html_parts ++ ["        </div>"]
  end.

(** [build_page_html] up to the final [join]: the lines of the page. *)
Definition build_page_parts (numbers_dir : path) (start_number max_count : Z)
  : result (list string * nat) :=
  let html_parts := get_html_style in
  let html_parts :=
    html_parts ++ ["    <div class=" +:+ quoted "container" +:+ ">"] in
  let! numbers_with_heights :=
    for_each (collect_height numbers_dir) []
      (range start_number (start_number + max_count)) in
  let! distributed :=
    distribute_numbers_to_columns numbers_with_heights GRID_COLUMNS
      COLUMN_TARGET_HEIGHT_PX in
  let '(columns, numbers_used) := distributed in
  let html_parts := foldl column_html html_parts columns in
  let html_parts := html_parts ++ ["    </div>"; "</body>"; "</html>"] in
  Ok (html_parts, numbers_used).

Definition build_page_html (numbers_dir : path) (start_number max_count : Z)
  : result (string * nat) :=
  let! page := build_page_parts numbers_dir start_number max_count in
  Ok (join (String (ascii_of_N 10) EmptyString) page.1, page.2).

End Pages.

(** The exception of the first number of [numbers] whose image cannot
    be taken. *)
Fixpoint first_image_error (glob_png : path -> list string) (numbers_dir : path)
         (numbers : list Z) : option exn :=
  match numbers with
  | [] => None
  | number :: numbers' =>
      match get_image_for_number glob_png number numbers_dir with
      | Raise e => Some e
      | Ok _ => first_image_error glob_png numbers_dir numbers'
      end
  end.

(** The line of an image in a page. *)
Definition is_image_line (line : string) : bool :=
  PyStr.startswith "                <img " line.

Definition image_line (absolute : path -> string) (item : Z * Z * path) : string :=
  "                <img src=" +:+ quoted ("file://" +:+ absolute item.2)
    +:+ " alt=" +:+ quoted (PyStr.str_of_int item.1.1)
    +:+ " class=" +:+ quoted "number-image" +:+ ">".

(** What the loop of lines 142-144 collects for [numbers]: the image
    and the height of each number, in order. *)
Definition collected (glob_png : path -> list string) (numbers_dir : path)
           (numbers : list Z) (items : list (Z * Z * path)) : Prop :=
  Forall2 (fun number item =>
             item.1.1 = number
             /\ get_image_for_number glob_png number numbers_dir
                = Ok (item.2, item.1.2))
          numbers items.

(** ** The book: [main] of [build_book.py] *)

(** What [build_book.py] prints. *)
Inductive book_message : Type :=
| Generating (numbers_per_page : Z)
| NoNumbersFit (current_number : Z)
| PageNumbers (page : nat) (current_number end_number : Z)
| Merging (pages : nat)
| CleaningUp
| PdfCreated
| HtmlKept.

(** The local variables of the loop of [main]. *)
Record pagination : Type := Pagination {
  page_pdfs : list nat;
  current_number : Z;
  page_num : nat
}.

Section Book.

Variable glob_png : path -> list string.
Variable absolute : path -> string.

(** A PDF document; what the browser makes of an HTML page (the
    document, or an exception such as a timeout); what [pypdf] makes of
    a list of documents. *)
Variable pdf : Type.
Variable chromium : string -> result pdf.
Variable pypdf : list pdf -> result pdf.

(** The files under [output] and the standard output.  A page file of
    [temp_pages] is kept under its page number: the names
    [page_NNNN.html] and [page_NNNN.pdf] of different page numbers are
    different. *)
Record book_world : Type := BookWorld {
  html_pages : gmap nat string;
  pdf_pages : gmap nat pdf;
  the_numbers : option pdf;
  printed : list book_message
}.

Definition book_print (m : book_message) (w : book_world) : book_world :=
  BookWorld (html_pages w) (pdf_pages w) (the_numbers w) (printed w ++ [m]).

(** [html_path.write_text(html_content)] *)
Definition write_text (page : nat) (html_content : string) (w : book_world)
  : book_world :=
  BookWorld (<[page := html_content]> (html_pages w)) (pdf_pages w)
            (the_numbers w) (printed w).

(** [html_to_pdf]: the browser loads the page file and prints it. *)
Definition html_to_pdf (page : nat) (w : book_world) : book_world * result unit :=
  match html_pages w !! page with
  | None => (w, Raise OtherError)
  | Some html_content =>
      match chromium html_content with
      | Raise e => (w, Raise e)
      | Ok document =>
          (BookWorld (html_pages w) (<[page := document]> (pdf_pages w))
                     (the_numbers w) (printed w),
           Ok tt)
      end
  end.

(** [merge_pdfs]: the page files are read in the order of the list. *)
Definition merge_pdfs (pdf_paths : list nat) (w : book_world)
  : book_world * result unit :=
  match mapM (fun page => pdf_pages w !! page) pdf_paths with
  | None => (w, Raise FileNotFoundError)
  | Some documents =>
      match pypdf documents with
      | Raise e => (w, Raise e)
      | Ok book =>
          (BookWorld (html_pages w) (pdf_pages w) (Some book) (printed w), Ok tt)
      end
  end.

(** The [while] loop of [main], lines 223-248.  [None]: the loop has
    not ended within [fuel] rounds. *)
Fixpoint page_loop (max_number numbers_per_page : Z) (numbers_dir : path)
         (fuel : nat) (st : pagination) (w : book_world)
  : option (book_world * result pagination) :=
  if (current_number st <=? max_number)%Z then
    match fuel with
    | 0 => None
    | S fuel' =>
        let remaining := (max_number - current_number st + 1)%Z in
        let max_count := Z.min numbers_per_page remaining in
        match build_page_html glob_png absolute numbers_dir
                (current_number st) max_count with
        | Raise e => Some (w, Raise e)
        | Ok (html_content, numbers_used) =>
            if Nat.eqb numbers_used 0 then
              Some (book_print (NoNumbersFit (current_number st)) w, Ok st)
            else
              let end_number :=
                (current_number st + Z.of_nat numbers_used - 1)%Z in
              let w :=
                book_print (PageNumbers (page_num st + 1) (current_number st)
                              end_number) w in
              let w := write_text (page_num st) html_content w in
              match html_to_pdf (page_num st) w with
              | (w, Raise e) => Some (w, Raise e)
              | (w, Ok _) =>
                  page_loop max_number numbers_per_page numbers_dir fuel'
                    {| page_pdfs := page_pdfs st ++ [page_num st];
                       current_number :=
                         (current_number st + Z.of_nat numbers_used)%Z;
                       page_num := page_num st + 1 |}
                    w
              end
        end
    end
  else Some (w, Ok st).

Definition book_main (max_number numbers_per_page : Z) (fuel : nat)
           (w : book_world) : option (book_world * result unit) :=
  let numbers_dir := ["data"; "numbers"] in
  let w := book_print (Generating numbers_per_page) w in
  match page_loop max_number numbers_per_page numbers_dir fuel
          (Pagination [] 1 0) w with
  | None => None
  | Some (w, Raise e) => Some (w, Raise e)
  | Some (w, Ok st) =>
      let w := book_print (Merging (length (page_pdfs st))) w in
      match merge_pdfs (page_pdfs st) w with
      | (w, Raise e) => Some (w, Raise e)
      | (w, Ok _) =>
          let w := book_print CleaningUp w in
          let w := BookWorld (html_pages w) ∅ (the_numbers w) (printed w) in
          let w := book_print PdfCreated w in
          let w := book_print HtmlKept w in
          Some (w, Ok tt)
      end
  end.

End Book.

(** The page lines of an output: page, first and last number. *)
Definition page_ranges (out : list book_message) : list (nat * Z * Z) :=
  omap (fun m => match m with
                 | PageNumbers page a b => Some (page, a, b)
                 | _ => None
                 end) out.

(** Pages numbered from [page] on whose ranges are not empty and follow
    one another from [first] up to [next - 1]. *)
Fixpoint consecutive (page : nat) (first : Z) (ranges : list (nat * Z * Z))
         (next : Z) : Prop :=
  match ranges with
  | [] => next = first
  | (p, a, b) :: ranges' =>
      p = page /\ a = first /\ (a <= b)%Z
      /\ consecutive (S page) (b + 1) ranges' next
  end.

(** ** Examples for [build_book.py] *)

(** The number directories of the examples: the numbers 1 to 4 have one
    image each, 300, 300, 300 and 700 pixels high; number 5 has a file
    without height in its name; no other number has a file. *)
Definition example_listing (number_dir : path) : list string :=
  match number_dir with
  | [data; numbers; number] =>
      if String.eqb number "1" then ["1_book1_p1_h300.png"; "1_book2_p7_h20.png"]
      else if String.eqb number "2" then ["2_book1_p1_h300.png"]
      else if String.eqb number "3" then ["3_book1_p2_h300.png"]
      else if String.eqb number "4" then ["4_book1_p2_h700.png"]
      else if String.eqb number "5" then ["5_book1_p3.png"]
      else []
  | _ => []
  end.

(** The absolute path of a file under the directory [/book]. *)
Definition example_absolute (p : path) : string :=
  foldl (fun s component => s +:+ "/" +:+ component) "/book" p.

(** Four items for two columns: three that fill the first column and
    one higher than the target. *)
Definition example_items : list (Z * Z * path) :=
  [ (1, 300, ["1"; "a.png"]); (2, 300, ["2"; "b.png"]);
    (3, 300, ["3"; "c.png"]); (4, 700, ["4"; "d.png"]) ]%Z.

(** A browser that prints every page, a PDF being stood for by the
    lines it shows, and a merge that puts the documents one after the
    other. *)
Definition example_chromium (html_content : string) : result (list string) :=
  Ok [html_content].

Definition example_pypdf (documents : list (list string)) : result (list string) :=
  Ok (concat documents).

Definition example_book_world : book_world (list string) :=
  BookWorld (list string) ∅ ∅ None [].

(** The book of the numbers 1 to 4, at most three tried for a page. *)
Definition example_book (fuel : nat)
  : option (book_world (list string) * result unit) :=
  book_main example_listing example_absolute (list string) example_chromium
    example_pypdf 4 3 fuel example_book_world.

Definition example_book_end : book_world (list string) :=
  match example_book 4 with
  | Some (w, _) => w
  | None => example_book_world
  end.

(** * Properties *)

(** ** Loops *)

Lemma for_each_app {S A : Type} (body : S -> A -> result S) (l1 l2 : list A) (st : S) :
  for_each body st (l1 ++ l2)
  = let! st' := for_each body st l1 in for_each body st' l2.
Proof.
  revert st. induction l1 as [|a l1 IH]; intros st; simpl; [done|].
  destruct (body st a) as [st'|e]; simpl; [apply IH | done].
Qed.

(** ** The scanner visits the words of the resolved pages in order *)

Section ScannerFacts.

Variable word_to_num : string -> result w2n_value.

Abbreviation normalize := (extract_number_from_text word_to_num).

Lemma scan_words_events (image_name : string) (ws : list word) (st : scan_state) :
  for_each (scan_word word_to_num image_name) st ws
  = for_each (scan_event word_to_num) st (pair image_name <$> ws).
Proof.
  revert st. induction ws as [|w ws IH]; intros st; simpl; [done|].
  unfold scan_event at 1; simpl.
  destruct (scan_word word_to_num image_name st w); simpl; [apply IH | done].
Qed.

Lemma scan_pages_events (html : list page) (st : scan_state) :
  for_each (scan_page word_to_num) st html
  = for_each (scan_event word_to_num) st (traversal html).
Proof.
  revert st. induction html as [|p html IH]; intros st; [done|].
  change (traversal (p :: html))
    with (match resolved_image p with
          | Some image_name => pair image_name <$> p_words p
          | None => []
          end ++ traversal html).
  rewrite for_each_app. simpl.
  unfold scan_page at 1, resolved_image.
  destruct (truthy (p_title p)) as [t|]; simpl; [|apply IH].
  destruct (parse_image_path t) as [i|]; simpl; [|apply IH].
  rewrite scan_words_events.
  destruct (for_each (scan_event word_to_num) st (pair i <$> p_words p)); simpl;
    [apply IH | done].
Qed.

Lemma first_qualifying_snoc (v : Z) (es : list (string * word)) (e : string * word) :
  first_qualifying word_to_num v (es ++ [e])
  = match first_qualifying word_to_num v es with
    | Some r => Some r
    | None => qualifies word_to_num v e
    end.
Proof.
  induction es as [|e' es IH]; simpl.
  - by destruct (qualifies word_to_num v e).
  - by destruct (qualifies word_to_num v e').
Qed.

Lemma first_qualifying_elem (v : Z) (es : list (string * word)) (r : string * bbox) :
  first_qualifying word_to_num v es = Some r ->
  exists e, e ∈ es /\ qualifies word_to_num v e = Some r.
Proof.
  induction es as [|e es IH]; simpl; [done|].
  destruct (qualifies word_to_num v e) as [r'|] eqn:Hq.
  - intros [= <-]. exists e. split; [left | done].
  - intros H. destruct (IH H) as (e' & Hin & Hq'). exists e'. split; [by right | done].
Qed.

(** *** The dictionary of candidates *)

Lemma dict_get_append (k k' : string) (c : candidate) (d : image_dict) :
  dict_get k' (dict_append k c d)
  = if decide (k' = k) then dict_get k d ++ [c] else dict_get k' d.
Proof.
  induction d as [|[k0 l] d IH]; simpl.
  - destruct (String.eqb_spec k' k); case_decide; done.
  - destruct (String.eqb_spec k k0) as [->|Hk]; simpl.
    + destruct (String.eqb_spec k' k0); case_decide; done.
    + destruct (String.eqb_spec k' k0) as [->|Hk']; [|done].
      case_decide; [congruence | done].
Qed.

Lemma dict_append_keys (k : string) (c : candidate) (d : image_dict) :
  (dict_append k c d).*1 = if decide (k ∈ d.*1) then d.*1 else d.*1 ++ [k].
Proof.
  induction d as [|[k0 l] d IH]; csimpl.
  - done.
  - destruct (String.eqb_spec k k0) as [->|Hk]; csimpl.
    + by rewrite decide_True by left.
    + rewrite IH. case_decide.
      * by rewrite decide_True by by right.
      * rewrite decide_False; [done|]. by intros [?|?]%elem_of_cons.
Qed.

Lemma dict_append_candidates (k : string) (c : candidate) (d : image_dict) :
  all_candidates (dict_append k c d) ≡ₚ c :: all_candidates d.
Proof.
  unfold all_candidates.
  induction d as [|[k0 l] d IH]; csimpl; [done|].
  destruct (String.eqb k k0); csimpl.
  - rewrite <- (assoc_L (++)). simpl. by rewrite <- Permutation_middle.
  - rewrite IH. by rewrite <- Permutation_middle.
Qed.

Lemma dict_get_elem (c : candidate) (d : image_dict) :
  NoDup d.*1 -> c ∈ all_candidates d -> exists k, c ∈ dict_get k d.
Proof.
  unfold all_candidates.
  induction d as [|[k0 l] d IH]; csimpl; [by intros _ ?%elem_of_nil|].
  intros [Hk0 Hd]%NoDup_cons [Hc|Hc]%elem_of_app.
  - exists k0. by rewrite String.eqb_refl.
  - destruct (IH Hd Hc) as [k Hk]. exists k.
    destruct (String.eqb_spec k k0) as [->|]; [|done].
    exfalso. apply Hk0. clear -Hk.
    induction d as [|[k1 l1] d IH]; csimpl in *; [by apply elem_of_nil in Hk|].
    destruct (String.eqb_spec k0 k1) as [->|]; [left | right; auto].
Qed.

(** *** The invariant of the scan *)

Lemma scan_inv_init : scan_inv word_to_num [] ([], ∅).
Proof.
  split; simpl.
  - intros v. split; [by intros ?%not_elem_of_empty | by intros [? ?]].
  - intros i v b. split; [by intros ?%elem_of_nil | done].
  - constructor.
  - constructor.
Qed.

(** A skipped word leaves the invariant alone when it qualifies word_to_num for no
    value that is still unseen. *)
Lemma scan_inv_skip (es : list (string * word)) (e : string * word) (st : scan_state) :
  scan_inv word_to_num es st ->
  (forall v, v ∉ st.2 -> qualifies word_to_num v e = None) ->
  scan_inv word_to_num (es ++ [e]) st.
Proof.
  intros [Hs Hd Hk Hv] Hq.
  assert (Hsame : forall v, first_qualifying word_to_num v (es ++ [e])
                            = first_qualifying word_to_num v es).
  { intros v. rewrite first_qualifying_snoc.
    destruct (first_qualifying word_to_num v es) eqn:Hf; [done|].
    apply Hq. rewrite Hs, Hf. by intros [? ?]. }
  split; [| | done | done].
  - intros v. by rewrite Hsame.
  - intros i v b. by rewrite Hsame.
Qed.

Lemma scan_inv_record (es : list (string * word)) (i : string) (w : word)
      (d : image_dict) (seen : gset Z) (n : Z) (b : bbox) :
  scan_inv word_to_num es (d, seen) ->
  n ∉ seen ->
  (forall v, qualifies word_to_num v (i, w) = if decide (n = v) then Some (i, b) else None) ->
  scan_inv word_to_num (es ++ [(i, w)]) (dict_append i (Candidate n b) d, {[n]} ∪ seen).
Proof.
  intros [Hs Hd Hk Hv] Hn Hq. simpl in *.
  assert (Hnone : first_qualifying word_to_num n es = None).
  { destruct (first_qualifying word_to_num n es) eqn:Hf; [|done].
    exfalso. apply Hn, Hs. by rewrite Hf. }
  assert (Hnew : forall v, first_qualifying word_to_num v (es ++ [(i, w)])
                   = if decide (n = v) then Some (i, b) else first_qualifying word_to_num v es).
  { intros v. rewrite first_qualifying_snoc, Hq.
    case_decide as Hv'; [subst v; by rewrite Hnone|].
    by destruct (first_qualifying word_to_num v es). }
  split; simpl.
  - intros v. rewrite Hnew, elem_of_union, elem_of_singleton, Hs.
    case_decide as Hv'; [subst v; split; [by eexists | by left]|].
    split; [by intros [?|?] | by right].
  - intros i' v b'. rewrite Hnew, dict_get_append.
    case_decide as Hi; [subst i'|]; case_decide as Hv'; try subst v.
    + rewrite elem_of_app, list_elem_of_singleton, Hd, Hnone.
      split; [intros [?|[= ->]]; done | intros [= ->]; by right].
    + rewrite elem_of_app, list_elem_of_singleton, Hd.
      split; [intros [?|[= ? ?]]; done | by left].
    + rewrite Hd, Hnone. split; [done | intros [= ? ?]; done].
    + apply Hd.
  - rewrite dict_append_keys. case_decide; [done|].
    apply NoDup_app. split; [done|]. split; [|apply NoDup_singleton].
    intros k Hin ->%list_elem_of_singleton. done.
  - rewrite dict_append_candidates. csimpl. apply NoDup_cons. split; [|done].
    intros (c & Hc & Hin)%list_elem_of_fmap.
    destruct (dict_get_elem c d Hk Hin) as [k Hget].
    destruct c as [v b']. simpl in Hc. subst v.
    apply Hd in Hget. by rewrite Hnone in Hget.
Qed.

(** One word keeps the invariant. *)
Lemma scan_event_inv (es : list (string * word)) (e : string * word)
      (st st' : scan_state) :
  scan_inv word_to_num es st ->
  scan_event word_to_num st e = Ok st' ->
  scan_inv word_to_num (es ++ [e]) st'.
Proof.
  destruct st as [d seen], e as [i w]. intros Hinv.
  assert (Hskip : (forall v, v ∉ seen -> qualifies word_to_num v (i, w) = None) ->
                  Ok (d, seen) = Ok st' -> scan_inv word_to_num (es ++ [(i, w)]) st').
  { intros Hq [= <-]. by apply scan_inv_skip. }
  assert (Hrec : forall n b, n ∉ seen ->
    (forall v, qualifies word_to_num v (i, w) = if decide (n = v) then Some (i, b) else None) ->
    Ok (dict_append i (Candidate n b) d, {[n]} ∪ seen) = Ok st' ->
    scan_inv word_to_num (es ++ [(i, w)]) st').
  { intros n b Hn Hq [= <-]. by apply scan_inv_record. }
  revert Hskip Hrec.
  unfold scan_event, scan_word, qualifies. cbn [fst snd].
  destruct (truthy (Some (w_text w))) as [text|]; cbn [mbind option_bind];
    [|by auto].
  destruct (normalize text) as [[n|]|err]; cbn [rbind];
    [| by auto | done].
  intros Hskip Hrec.
  destruct (decide (n ∈ seen)) as [Hn|Hn].
  { apply Hskip. intros v Hv. case_decide; [by subst v | done]. }
  destruct (truthy (w_title w)) as [t|]; cbn [mbind option_bind] in *;
    [| apply Hskip; intros v _; by case_decide].
  destruct (parse_confidence t) as [c|]; cbn [mbind option_bind] in *;
    [| apply Hskip; intros v _; by case_decide].
  destruct (float_le_90 c);
    [apply Hskip; intros v _; by case_decide |].
  destruct (parse_bbox t) as [[b|]|err]; cbn [rbind] in *;
    [| apply Hskip; intros v _; by case_decide | done].
  apply Hrec; [done|]. intros v. by case_decide.
Qed.

Lemma scan_events_inv (es1 es2 : list (string * word)) (st st' : scan_state) :
  scan_inv word_to_num es1 st ->
  for_each (scan_event word_to_num) st es2 = Ok st' ->
  scan_inv word_to_num (es1 ++ es2) st'.
Proof.
  revert es1 st. induction es2 as [|e es2 IH]; intros es1 st Hinv; simpl.
  - intros [= <-]. by rewrite app_nil_r.
  - destruct (scan_event word_to_num st e) as [st1|err] eqn:He; simpl; [|done].
    intros Hrest. rewrite cons_middle, (assoc_L (++)).
    eapply IH; [|done]. by eapply scan_event_inv.
Qed.

(** The invariant holds of what [extract_numbers_from_hocr] returns. *)
Lemma scan_result_inv (html : list page) (d : image_dict) :
  extract_numbers_from_hocr word_to_num html = Ok d ->
  exists seen, scan_inv word_to_num (traversal html) (d, seen).
Proof.
  unfold extract_numbers_from_hocr. rewrite scan_pages_events.
  destruct (for_each (scan_event word_to_num) ([], ∅) (traversal html))
    as [[d' seen]|err] eqn:Hscan;
    simpl; [|done].
  intros [= <-]. exists seen.
  apply (scan_events_inv [] _ _ _ scan_inv_init Hscan).
Qed.

Lemma dict_get_all (i : string) (c : candidate) (d : image_dict) :
  c ∈ dict_get i d -> c ∈ all_candidates d.
Proof.
  unfold all_candidates.
  induction d as [|[k l] d IH]; csimpl; [done|].
  rewrite elem_of_app. destruct (String.eqb i k); auto.
Qed.

Lemma traversal_elem (html : list page) (i : string) (w : word) :
  (i, w) ∈ traversal html ->
  exists p, p ∈ html /\ resolved_image p = Some i /\ w ∈ p_words p.
Proof.
  unfold traversal. intros (p & Hin & Hp)%list_elem_of_bind.
  exists p. split; [done|].
  destruct (resolved_image p) as [i'|]; [|by apply elem_of_nil in Hin].
  apply list_elem_of_fmap in Hin as (w' & [= -> ->] & Hw). done.
Qed.

Lemma float_le_90_above (c : confidence) :
  float_le_90 c = false -> above 90 c.
Proof.
  unfold float_le_90, above. intros H%Z.leb_gt.
  assert (0 < 10 ^ Z.of_nat (exponent c))%Z by (apply Z.pow_pos_nonneg; lia).
  change (2 ^ 47)%Z with 140737488355328%Z in H. lia.
Qed.

(** What a token that qualifies has passed. *)
Lemma qualifies_gates (v : Z) (i i' : string) (w : word) (b : bbox) :
  qualifies word_to_num v (i, w) = Some (i', b) ->
  i' = i /\
  normalize (w_text w) = Ok (Some v) /\
  exists word_title c,
    truthy (w_title w) = Some word_title /\
    parse_confidence word_title = Some c /\
    float_le_90 c = false /\
    parse_bbox word_title = Ok (Some b).
Proof.
  unfold qualifies. cbn [fst snd].
  destruct (w_text w) as [|a text] eqn:Htext; cbn [truthy mbind option_bind]; [done|].
  destruct (normalize (String a text)) as [[n|]|err] eqn:Hn; [|done|done].
  case_decide as Hv; [subst n|done].
  destruct (truthy (w_title w)) as [t|] eqn:Ht; cbn [mbind option_bind]; [|done].
  destruct (parse_confidence t) as [c|] eqn:Hc; cbn [mbind option_bind]; [|done].
  destruct (float_le_90 c) eqn:Hle; [done|].
  destruct (parse_bbox t) as [[b'|]|err] eqn:Hb; [|done|done].
  intros [= <- <-]. split; [done|]. split; [done|]. by exists t, c.
Qed.

(** A word without a resolvable confidence never changes the state. *)
Lemma scan_word_no_confidence (image_name : string) (st st' : scan_state) (w : word) :
  truthy (w_title w) ≫= parse_confidence = None ->
  scan_word word_to_num image_name st w = Ok st' -> st' = st.
Proof.
  destruct st as [d seen]. unfold scan_word.
  destruct (truthy (Some (w_text w))) as [text|]; [|by intros _ [= <-]].
  destruct (normalize text) as [[n|]|err]; cbn [rbind];
    [| by intros _ [= <-] | done].
  destruct (decide (n ∈ seen)); [by intros _ [= <-]|].
  destruct (truthy (w_title w)) as [t|]; cbn [mbind option_bind];
    [|by intros _ [= <-]].
  intros ->. by intros [= <-].
Qed.

(** The scan returns when the normalizer raises on no token and
    [parse_bbox] on no metadata string. *)
Lemma scan_event_returns (st : scan_state) (e : string * word) :
  (exists r, normalize (w_text e.2) = Ok r) ->
  (forall t, w_title e.2 = Some t -> exists b, parse_bbox t = Ok b) ->
  exists st', scan_event word_to_num st e = Ok st'.
Proof.
  destruct st as [d seen], e as [i w]. intros [r Hr] Hb. simpl in Hr, Hb.
  unfold scan_event, scan_word. cbn [fst snd].
  destruct (w_text w) as [|a text]; cbn [truthy]; [by eexists|].
  rewrite Hr. cbn [rbind].
  destruct r as [n|]; [|by eexists].
  destruct (decide (n ∈ seen)); [by eexists|].
  destruct (w_title w) as [t|]; [|by eexists].
  destruct (Hb t eq_refl) as [b Hbox].
  destruct (truthy (Some t)) as [t'|] eqn:Ht; [|by eexists].
  assert (t' = t) as -> by (destruct t; simpl in Ht; congruence).
  destruct (parse_confidence t) as [c|]; [|by eexists].
  destruct (float_le_90 c); [by eexists|].
  rewrite Hbox. cbn [rbind]. destruct b; by eexists.
Qed.

Lemma extract_numbers_from_hocr_returns (html : list page) :
  (forall p w, p ∈ html -> w ∈ p_words p ->
               (exists r, normalize (w_text w) = Ok r)
               /\ forall t, w_title w = Some t -> exists b, parse_bbox t = Ok b) ->
  exists d, extract_numbers_from_hocr word_to_num html = Ok d.
Proof.
  intros Hall. unfold extract_numbers_from_hocr. rewrite scan_pages_events.
  assert (Hev : forall e, e ∈ traversal html ->
                  (exists r, normalize (w_text e.2) = Ok r)
                  /\ forall t, w_title e.2 = Some t -> exists b, parse_bbox t = Ok b).
  { intros [i w] (p & Hp & _ & Hw)%traversal_elem. by eapply Hall. }
  clear Hall. generalize (([], ∅) : scan_state).
  induction (traversal html) as [|e es IH]; intros st; simpl; [by eexists|].
  destruct (Hev e) as [Hn Hb]; [left|].
  destruct (scan_event_returns st e Hn Hb) as [st' ->].
  simpl. apply IH. intros e' He'. apply Hev. by right.
Qed.

End ScannerFacts.


Lemma example_scan :
  extract_numbers_from_hocr w2n_excerpt example_html = Ok example_dict.
Proof. vm_compute. reflexivity. Qed.

(** ** C2, C3: the document scanner *)

(** C2. Within one document the scanner keeps at most one candidate per
    integer value: over the whole dictionary no value is repeated, and
    the candidates listed under an image are exactly the first
    qualifying occurrences, in document traversal order, of their
    values; whatever comes after the first qualifying occurrence of a
    value, of any confidence, is not recorded. *)
Theorem first_occurrence_per_document
    (word_to_num : string -> result w2n_value) (html : list page) (d : image_dict) :
  extract_numbers_from_hocr word_to_num html = Ok d ->
  NoDup (number <$> all_candidates d) /\
  (forall c, c ∈ all_candidates d <-> exists i, c ∈ dict_get i d) /\
  (forall i v b,
     Candidate v b ∈ dict_get i d
     <-> first_qualifying word_to_num v (traversal html) = Some (i, b)).
Proof.
  intros [seen [Hs Hd Hk Hv]]%scan_result_inv. simpl in *.
  split; [done|]. split; [|done].
  intros c. split.
  - by apply dict_get_elem.
  - intros [i Hi]. by eapply dict_get_all.
Qed.

Lemma first_occurrence_per_document_witness :
  extract_numbers_from_hocr w2n_excerpt example_html = Ok example_dict /\
  NoDup (number <$> all_candidates example_dict) /\
  (forall c, c ∈ all_candidates example_dict <-> exists i, c ∈ dict_get i example_dict) /\
  (forall i v b,
     Candidate v b ∈ dict_get i example_dict
     <-> first_qualifying w2n_excerpt v (traversal example_html) = Some (i, b)).
Proof.
  split; [vm_compute; reflexivity|].
  apply (first_occurrence_per_document w2n_excerpt example_html example_dict).
  vm_compute. reflexivity.
Defined.

(** C3. A candidate comes from a word token of a page whose raster file
    name is resolvable, whose confidence is resolvable from its metadata
    and, as a double, not [<= 90] (so above 90), and whose bounding box
    is resolvable.  A token whose metadata has no confidence marker
    leaves the scanner's state as it was: it is never recorded. *)
Theorem candidate_needs_confidence
    (word_to_num : string -> result w2n_value) (html : list page) (d : image_dict) :
  extract_numbers_from_hocr word_to_num html = Ok d ->
  (forall i v b,
     Candidate v b ∈ dict_get i d ->
     exists p w page_title word_title c,
       p ∈ html /\ w ∈ p_words p /\
       truthy (p_title p) = Some page_title /\
       parse_image_path page_title = Some i /\
       extract_number_from_text word_to_num (w_text w) = Ok (Some v) /\
       truthy (w_title w) = Some word_title /\
       parse_confidence word_title = Some c /\
       float_le_90 c = false /\ above 90 c /\
       parse_bbox word_title = Ok (Some b)) /\
  (forall image_name st st' w,
     truthy (w_title w) ≫= parse_confidence = None ->
     scan_word word_to_num image_name st w = Ok st' -> st' = st).
Proof.
  intros [seen [Hs Hd Hk Hv]]%scan_result_inv. simpl in *. split.
  - intros i v b Hc%Hd.
    apply first_qualifying_elem in Hc as ([i' w] & Hin & Hq).
    apply qualifies_gates in Hq as (Hi' & Hn & t & c & Ht & Hc & Hle & Hb).
    subst i'.
    apply traversal_elem in Hin as (p & Hp & Hi & Hw).
    unfold resolved_image in Hi.
    destruct (truthy (p_title p)) as [pt|] eqn:Hpt; [|done]. simpl in Hi.
    exists p, w, pt, t, c. repeat split; try done.
    by apply float_le_90_above.
  - intros image_name st st' w. apply scan_word_no_confidence.
Qed.

Lemma candidate_needs_confidence_witness :
  extract_numbers_from_hocr w2n_excerpt example_html = Ok example_dict /\
  (forall image_name st st',
     scan_word w2n_excerpt image_name st (Word "7" (Some "bbox 30 5 40 20")) = Ok st' ->
     st' = st).
Proof.
  split; [vm_compute; reflexivity|].
  intros image_name st st'.
  apply (candidate_needs_confidence w2n_excerpt example_html example_dict);
    [vm_compute; reflexivity | reflexivity].
Defined.

(** ** Strings, digits and the pattern matchers *)

Lemma strip_prefix_app (p s r : string) :
  PyStr.strip_prefix p s = Some r -> s = p +:+ r.
Proof.
  revert s. induction p as [|a p IH]; intros [|b s]; simpl; try done.
  - by intros [= <-].
  - by intros [= <-].
  - destruct (Ascii.eqb_spec a b) as [->|]; [|done].
    intros H. by rewrite (IH _ H).
Qed.

Lemma span_digits_app (s d r : string) :
  Re.span_digits s = (d, r) ->
  s = d +:+ r /\ PyStr.all_chars PyStr.is_decimal d = true.
Proof.
  revert d r. induction s as [|c s IH]; intros d r; simpl.
  - by intros [= <- <-].
  - destruct (PyStr.is_decimal c) eqn:Hc.
    + destruct (Re.span_digits s) as [d' r']. intros [= <- <-].
      destruct (IH d' r' eq_refl) as [-> Hd]. simpl. by rewrite Hc.
    + by intros [= <- <-].
Qed.

Lemma digits1_app (s d r : string) :
  Re.digits1 s = Some (d, r) -> s = d +:+ r /\ PyStr.isdecimal d = true.
Proof.
  unfold Re.digits1.
  destruct (Re.span_digits s) as [d' r'] eqn:Hs.
  apply span_digits_app in Hs as [-> Hd].
  destruct d' as [|c d']; [done|]. by intros [= <- <-].
Qed.

Lemma search_app {A : Type} (m : string -> option A) (s : string) (a : A) :
  Re.search m s = Some a -> exists pre suf, s = pre +:+ suf /\ m suf = Some a.
Proof.
  induction s as [|c s IH]; simpl.
  - destruct (m EmptyString) eqn:Hm; [|done].
    intros [= ->]. by exists EmptyString, EmptyString.
  - destruct (m (String c s)) eqn:Hm.
    + intros [= ->]. by exists EmptyString, (String c s).
    + intros (pre & suf & -> & Hsuf)%IH. by exists (String c pre), suf.
Qed.

Lemma digit_value_range (c : ascii) :
  PyStr.is_decimal c = true -> (0 <= PyStr.digit_value c <= 9)%Z.
Proof.
  unfold PyStr.is_decimal, PyStr.between, PyStr.digit_value.
  intros [H1%N.leb_le H2%N.leb_le]%andb_true_iff. lia.
Qed.

Lemma decimal_value_from_ge (acc : Z) (s : string) :
  PyStr.all_chars PyStr.is_decimal s = true ->
  (0 <= acc)%Z -> (acc <= PyStr.decimal_value_from acc s)%Z.
Proof.
  revert acc. induction s as [|c s IH]; intros acc; simpl; [lia|].
  intros [Hc Hs]%andb_true_iff Hacc.
  apply digit_value_range in Hc.
  specialize (IH (10 * acc + PyStr.digit_value c)%Z Hs). lia.
Qed.

Lemma decimal_value_nonneg (s : string) :
  PyStr.isdecimal s = true -> (0 <= PyStr.decimal_value s)%Z.
Proof.
  intros H. apply decimal_value_from_ge; [|done].
  by destruct s.
Qed.

(** A match of the bounding-box pattern, taken apart. *)
Lemma match_bbox_app (s d0 d1 d2 d3 : string) :
  match_bbox s = Some (d0, d1, d2, d3) ->
  exists post,
    s = "bbox " +:+ d0 +:+ " " +:+ d1 +:+ " " +:+ d2 +:+ " " +:+ d3 +:+ post /\
    PyStr.isdecimal d0 = true /\ PyStr.isdecimal d1 = true /\
    PyStr.isdecimal d2 = true /\ PyStr.isdecimal d3 = true.
Proof.
  unfold match_bbox, Re.lit. intros H.
  destruct (PyStr.strip_prefix "bbox " s) as [r0|] eqn:H0; [|done]. cbn [mbind option_bind] in H.
  destruct (Re.digits1 r0) as [[g0 r1]|] eqn:Hd0; [|done]. cbn [mbind option_bind] in H.
  destruct (PyStr.strip_prefix " " r1) as [r2|] eqn:H1; [|done]. cbn [mbind option_bind] in H.
  destruct (Re.digits1 r2) as [[g1 r3]|] eqn:Hd1; [|done]. cbn [mbind option_bind] in H.
  destruct (PyStr.strip_prefix " " r3) as [r4|] eqn:H2; [|done]. cbn [mbind option_bind] in H.
  destruct (Re.digits1 r4) as [[g2 r5]|] eqn:Hd2; [|done]. cbn [mbind option_bind] in H.
  destruct (PyStr.strip_prefix " " r5) as [r6|] eqn:H3; [|done]. cbn [mbind option_bind] in H.
  destruct (Re.digits1 r6) as [[g3 r7]|] eqn:Hd3; [|done]. cbn [mbind option_bind] in H.
  injection H as <- <- <- <-.
  apply strip_prefix_app in H0 as ->, H1 as ->, H2 as ->, H3 as ->.
  apply digits1_app in Hd0 as [-> ?], Hd1 as [-> ?], Hd2 as [-> ?], Hd3 as [-> ?].
  by exists r7.
Qed.

(** [int] on a run of decimal digits: its value, unless the run is
    longer than the limit. *)
Lemma int_decimal (d : string) :
  PyStr.isdecimal d = true ->
  PyStr.int d
  = if (PyStr.int_max_str_digits <? Z.of_nat (String.length d))%Z
    then Raise ValueError else Ok (PyStr.decimal_value d).
Proof.
  unfold PyStr.isdecimal, PyStr.int. destruct d as [|c d]; [done|]. by intros ->.
Qed.

Lemma int_decimal_Ok (d : string) (n : Z) :
  PyStr.isdecimal d = true -> PyStr.int d = Ok n ->
  n = PyStr.decimal_value d /\ (0 <= n)%Z
  /\ (Z.of_nat (String.length d) <= PyStr.int_max_str_digits)%Z.
Proof.
  intros Hd. rewrite (int_decimal d Hd).
  destruct (Z.ltb_spec PyStr.int_max_str_digits (Z.of_nat (String.length d)));
    [done|].
  intros [= <-]. split; [done|]. split; [by apply decimal_value_nonneg | done].
Qed.

Lemma int_decimal_Raise (d : string) (e : exn) :
  PyStr.isdecimal d = true -> PyStr.int d = Raise e ->
  e = ValueError /\ (PyStr.int_max_str_digits < Z.of_nat (String.length d))%Z.
Proof.
  intros Hd. rewrite (int_decimal d Hd).
  destruct (Z.ltb_spec PyStr.int_max_str_digits (Z.of_nat (String.length d)));
    [|done].
  by intros [= <-].
Qed.

(** What [parse_bbox] does with a title, by the leftmost match. *)
Lemma parse_bbox_cases (title : string) :
  (Re.search match_bbox title = None /\ parse_bbox title = Ok None)
  \/ exists pre d0 d1 d2 d3 post,
       title = pre +:+ "bbox " +:+ d0 +:+ " " +:+ d1 +:+ " " +:+ d2 +:+ " "
                   +:+ d3 +:+ post /\
       PyStr.isdecimal d0 = true /\ PyStr.isdecimal d1 = true /\
       PyStr.isdecimal d2 = true /\ PyStr.isdecimal d3 = true /\
       parse_bbox title
       = (let! x0 := PyStr.int d0 in
          let! y0 := PyStr.int d1 in
          let! x1 := PyStr.int d2 in
          let! y1 := PyStr.int d3 in
          Ok (Some (x0, y0, x1, y1))).
Proof.
  unfold parse_bbox.
  destruct (Re.search match_bbox title) as [[[[d0 d1] d2] d3]|] eqn:Hs; [|by left].
  right. apply search_app in Hs as (pre & suf & -> & Hm).
  apply match_bbox_app in Hm as (post & -> & H0 & H1 & H2 & H3).
  by exists pre, d0, d1, d2, d3, post.
Qed.

Lemma parse_bbox_nonneg (title : string) (x0 y0 x1 y1 : Z) :
  parse_bbox title = Ok (Some (x0, y0, x1, y1)) ->
  (0 <= x0 /\ 0 <= y0 /\ 0 <= x1 /\ 0 <= y1)%Z.
Proof.
  destruct (parse_bbox_cases title)
    as [[_ ->]|(pre & d0 & d1 & d2 & d3 & post & _ & H0 & H1 & H2 & H3 & ->)];
    [done|].
  destruct (PyStr.int d0) as [n0|] eqn:E0; [|done].
  destruct (PyStr.int d1) as [n1|] eqn:E1; [|done].
  destruct (PyStr.int d2) as [n2|] eqn:E2; [|done].
  destruct (PyStr.int d3) as [n3|] eqn:E3; [|done].
  cbn [rbind]. intros [= <- <- <- <-].
  apply int_decimal_Ok in E0 as (_ & ? & _), E1 as (_ & ? & _),
    E2 as (_ & ? & _), E3 as (_ & ? & _); done.
Qed.

(** ** C10: [parse_bbox] *)

(** C10, as stated, fails: a marker with a negative first coordinate does
    not stop a later marker from matching; what follows the fourth run
    of digits is not looked at, so a last coordinate that is not a
    number is cut at its leading digits; and a coordinate of more
    digits than [int] converts makes [parse_bbox] raise, where the
    claim has [None] or a box. *)
Lemma parse_bbox_later_marker_and_trailing_text :
  parse_bbox "bbox -1 2 3 4 bbox 5 6 7 8" = Ok (Some (5, 6, 7, 8)%Z) /\
  parse_bbox "bbox 1 2 3 4x" = Ok (Some (1, 2, 3, 4)%Z) /\
  parse_bbox ("bbox " +:+ long_run +:+ " 2 3 4") = Raise ValueError.
Proof. split; [reflexivity|]. split; [reflexivity|]. vm_compute. reflexivity. Qed.

Lemma digits1_none (s : string) :
  Re.starts_with_digit s = false -> Re.digits1 s = None.
Proof.
  destruct s as [|c s]; [done|]. unfold Re.digits1. simpl. by intros ->.
Qed.

(** A marker that no digit follows gives no match, neither where it
    stands nor inside it. *)
Lemma parse_bbox_skips_marker (rest : string) :
  Re.starts_with_digit rest = false ->
  parse_bbox ("bbox " +:+ rest) = parse_bbox rest.
Proof.
  intros H. unfold parse_bbox.
  change ("bbox " +:+ rest)
    with (String "b" (String "b" (String "o" (String "x" (String " " rest))))).
  cbn [Re.search].
  assert (match_bbox
            (String "b" (String "b" (String "o" (String "x" (String " " rest)))))
          = None) as ->.
  { unfold match_bbox, Re.lit. cbn [PyStr.strip_prefix].
    rewrite !Ascii.eqb_refl. cbn [mbind option_bind]. by rewrite (digits1_none rest H). }
  by destruct rest.
Qed.

(** C10, amended.  [parse_bbox] gives [None], or four non-negative
    integers, or raises [ValueError].  The integers are the values of
    four runs of decimal digits, none longer than [int] converts, that
    stand, one blank apart, right after a marker in the string; it
    raises only [ValueError], and only when such runs stand after a
    marker and one of them is longer than [int] converts.  A marker
    that no digit follows (a minus sign, a letter, the end of the
    string) gives no match: the result is that of the rest of the
    string, and [None] when the title holds nothing else. *)
Theorem parse_bbox_digit_runs :
  parse_bbox "bbox -1 2 3 4" = Ok None /\
  (forall (title : string) (x0 y0 x1 y1 : Z),
     parse_bbox title = Ok (Some (x0, y0, x1, y1)) ->
     (0 <= x0 /\ 0 <= y0 /\ 0 <= x1 /\ 0 <= y1)%Z /\
     exists pre d0 d1 d2 d3 post,
       title = pre +:+ "bbox " +:+ d0 +:+ " " +:+ d1 +:+ " " +:+ d2 +:+ " "
                   +:+ d3 +:+ post /\
       PyStr.isdecimal d0 = true /\ PyStr.isdecimal d1 = true /\
       PyStr.isdecimal d2 = true /\ PyStr.isdecimal d3 = true /\
       Forall (fun d => (Z.of_nat (String.length d) <= PyStr.int_max_str_digits)%Z)
              [d0; d1; d2; d3] /\
       x0 = PyStr.decimal_value d0 /\ y0 = PyStr.decimal_value d1 /\
       x1 = PyStr.decimal_value d2 /\ y1 = PyStr.decimal_value d3) /\
  (forall (title : string) (e : exn),
     parse_bbox title = Raise e ->
     e = ValueError /\
     exists pre d0 d1 d2 d3 post,
       title = pre +:+ "bbox " +:+ d0 +:+ " " +:+ d1 +:+ " " +:+ d2 +:+ " "
                   +:+ d3 +:+ post /\
       PyStr.isdecimal d0 = true /\ PyStr.isdecimal d1 = true /\
       PyStr.isdecimal d2 = true /\ PyStr.isdecimal d3 = true /\
       Exists (fun d => (PyStr.int_max_str_digits < Z.of_nat (String.length d))%Z)
              [d0; d1; d2; d3]) /\
  (forall rest : string,
     Re.starts_with_digit rest = false ->
     parse_bbox ("bbox " +:+ rest) = parse_bbox rest).
Proof.
  split; [reflexivity|]. split; [|split; [|apply parse_bbox_skips_marker]].
  - intros title x0 y0 x1 y1 Hbox.
    split; [by eapply parse_bbox_nonneg|]. revert Hbox.
    destruct (parse_bbox_cases title)
      as [[_ ->]|(pre & d0 & d1 & d2 & d3 & post & -> & H0 & H1 & H2 & H3 & ->)];
      [done|].
    destruct (PyStr.int d0) as [n0|] eqn:E0; [|done].
    destruct (PyStr.int d1) as [n1|] eqn:E1; [|done].
    destruct (PyStr.int d2) as [n2|] eqn:E2; [|done].
    destruct (PyStr.int d3) as [n3|] eqn:E3; [|done].
    cbn [rbind]. intros [= <- <- <- <-].
    apply int_decimal_Ok in E0 as (? & _ & ?), E1 as (? & _ & ?),
      E2 as (? & _ & ?), E3 as (? & _ & ?); try done.
    exists pre, d0, d1, d2, d3, post. repeat split; try done.
    by repeat constructor.
  - intros title e.
    destruct (parse_bbox_cases title)
      as [[_ ->]|(pre & d0 & d1 & d2 & d3 & post & -> & H0 & H1 & H2 & H3 & ->)];
      [done|].
    intros Hraise.
    assert (Hsome : e = ValueError /\
              Exists (fun d => (PyStr.int_max_str_digits
                                < Z.of_nat (String.length d))%Z) [d0; d1; d2; d3]).
    { revert Hraise.
      destruct (PyStr.int d0) as [n0|e0] eqn:E0; cbn [rbind];
        [|intros [= <-]; apply int_decimal_Raise in E0 as [-> ?]; [|done];
          split; [done|]; by apply Exists_cons_hd].
      destruct (PyStr.int d1) as [n1|e1] eqn:E1; cbn [rbind];
        [|intros [= <-]; apply int_decimal_Raise in E1 as [-> ?]; [|done];
          split; [done|]; by apply Exists_cons_tl, Exists_cons_hd].
      destruct (PyStr.int d2) as [n2|e2] eqn:E2; cbn [rbind];
        [|intros [= <-]; apply int_decimal_Raise in E2 as [-> ?]; [|done];
          split; [done|]; by do 2 apply Exists_cons_tl; apply Exists_cons_hd].
      destruct (PyStr.int d3) as [n3|e3] eqn:E3; cbn [rbind]; [done|].
      intros [= <-]. apply int_decimal_Raise in E3 as [-> ?]; [|done].
      split; [done|]. by do 3 apply Exists_cons_tl; apply Exists_cons_hd. }
    destruct Hsome as [-> Hlong]. split; [done|].
    by exists pre, d0, d1, d2, d3, post.
Qed.

Lemma parse_bbox_digit_runs_witness :
  parse_bbox "x_wconf 95; bbox 10 10 50 30" = Ok (Some (10, 10, 50, 30)%Z) /\
  (0 <= 10 /\ 0 <= 10 /\ 0 <= 50 /\ 0 <= 30)%Z /\
  parse_bbox ("bbox " +:+ "-1 2 3 4 bbox 5 6 7 8") = parse_bbox "-1 2 3 4 bbox 5 6 7 8".
Proof.
  split; [reflexivity|]. split.
  - apply (proj1 (proj2 parse_bbox_digit_runs) "x_wconf 95; bbox 10 10 50 30").
    reflexivity.
  - apply (proj2 (proj2 (proj2 parse_bbox_digit_runs))). reflexivity.
Defined.

(** ** C4: the artifact path *)

Lemma string_app_cons (c : ascii) (s t : string) :
  String c s +:+ t = String c (s +:+ t).
Proof. reflexivity. Qed.

Lemma string_app_nil (t : string) : EmptyString +:+ t = t.
Proof. reflexivity. Qed.

Lemma startswith_jp2_app (s : string) :
  PyStr.startswith ".jp2" (s +:+ ".jp2") = true ->
  s = EmptyString \/ PyStr.startswith ".jp2" s = true.
Proof.
  unfold PyStr.startswith.
  destruct s as [|c0 [|c1 [|c2 [|c3 s]]]];
    rewrite ?string_app_cons, ?string_app_nil; cbn -[Ascii.eqb]; auto;
    repeat (match goal with
            | |- context [Ascii.eqb ?a ?b] =>
                destruct (Ascii.eqb_spec a b); try subst; try done
            end);
    auto.
Qed.

Lemma replace_jp2_suffix (stem : string) :
  PyStr.occurs ".jp2" stem = false ->
  PyStr.replace ".jp2" ".png" (stem +:+ ".jp2") = stem +:+ ".png".
Proof.
  unfold PyStr.replace.
  induction stem as [|c stem IH]; [done|].
  cbn [PyStr.occurs]. intros [Hc Hs]%orb_false_iff.
  change (String c stem +:+ ".jp2") with (String c (stem +:+ ".jp2")).
  cbn [PyStr.replace_from].
  destruct (PyStr.startswith ".jp2" (String c (stem +:+ ".jp2"))) eqn:Hp.
  - apply (startswith_jp2_app (String c stem)) in Hp as [?|Hp]; [done|].
    by rewrite Hp in Hc.
  - simpl. by rewrite IH.
Qed.

(** C4, as stated, fails for a raster file name with another extension:
    the name goes into the file name of the artifact as it is. *)
Lemma output_path_keeps_other_extension :
  output_path ["data"; "numbers"] "book1" "p1.tif" 12
  = ["data"; "numbers"; "12"; "12_book1_p1.tif"] /\
  claimed_output_path ["data"; "numbers"] "book1" "p1.tif" 12
  = ["data"; "numbers"; "12"; "12_book1_p1.png"].
Proof. split; reflexivity. Qed.

(** C4, amended.  For a raster file name [stem.jp2] whose stem holds no
    further [.jp2], the artifact path is
    [output_root/value/value_document_stem.png]. *)
Theorem output_path_of_jp2
    (output_dir : path) (book_name stem : string) (number : Z) :
  PyStr.occurs ".jp2" stem = false ->
  output_path output_dir book_name (stem +:+ ".jp2") number
  = output_dir ++
      [PyStr.str_of_int number;
       PyStr.str_of_int number +:+ "_" +:+ book_name +:+ "_" +:+ stem +:+ ".png"].
Proof.
  intros H. unfold output_path.
  by rewrite (replace_jp2_suffix stem H), <- (assoc_L (++)).
Qed.

Lemma output_path_of_jp2_witness :
  PyStr.occurs ".jp2" "p1" = false /\
  output_path ["data"; "numbers"] "book1" ("p1" +:+ ".jp2") 12
  = ["data"; "numbers"; "12"; "12_book1_p1.png"].
Proof.
  split; [reflexivity|].
  apply (output_path_of_jp2 ["data"; "numbers"] "book1" "p1" 12).
  reflexivity.
Defined.

(** ** C1, C7: the normalizer *)

(** C1.  [str.isdigit] holds of the superscript two, [int] does not take
    it, and the conversion is outside the [try]: the normalizer raises
    [ValueError] where the claim has a number or no match. *)
Theorem normalizer_raises_on_superscript (word_to_num : string -> result w2n_value) :
  PyStr.isdigit superscript_two = true /\
  PyStr.int superscript_two = Raise ValueError /\
  extract_number_from_text word_to_num superscript_two = Raise ValueError.
Proof. repeat split. Qed.

(** C7.  The superscript two is neither of the two tokens that give 0,
    and the normalizer returns for it neither a positive integer nor no
    match. *)
Theorem superscript_neither_number_nor_none (word_to_num : string -> result w2n_value) :
  PyStr.lower (PyStr.strip superscript_two) = superscript_two /\
  String.eqb superscript_two "0" = false /\
  String.eqb superscript_two "zero" = false /\
  extract_number_from_text word_to_num superscript_two <> Ok None /\
  forall n, extract_number_from_text word_to_num superscript_two <> Ok (Some n).
Proof. repeat split; intros; discriminate. Qed.

Section NormalizerFacts.

Variable word_to_num : string -> result w2n_value.

Lemma try_word_to_num_range (text : string) (n : Z) :
  try_word_to_num word_to_num text = Ok (Some n) -> (1 <= n <= 50000)%Z.
Proof.
  unfold try_word_to_num.
  destruct (word_to_num text) as [[num|]|[]]; try done.
  destruct (1 <=? num)%Z eqn:H1; [|done].
  destruct (num <=? 50000)%Z eqn:H2; [|done].
  intros [= <-]. lia.
Qed.

(** What the normalizer returns, when it returns a number, is within
    0..50000. *)
Lemma extract_number_from_text_range (text : string) (n : Z) :
  extract_number_from_text word_to_num text = Ok (Some n) -> (0 <= n <= 50000)%Z.
Proof.
  unfold extract_number_from_text.
  set (t := PyStr.lower (PyStr.strip text)).
  destruct (String.eqb t "zero"); [intros [= <-]; lia|].
  assert (Hw : try_word_to_num word_to_num t = Ok (Some n) -> (0 <= n <= 50000)%Z).
  { intros H%try_word_to_num_range. lia. }
  destruct (PyStr.isdigit t); [|done].
  destruct (PyStr.startswith "0" t && (1 <? String.length t)%nat); [done|].
  destruct (PyStr.int t) as [num|e]; cbn [rbind]; [|done].
  destruct (0 <=? num)%Z eqn:H1; [|done].
  destruct (num <=? 50000)%Z eqn:H2; [|done].
  intros [= <-]. lia.
Qed.

(** The tokens of the claim that never reach [word2number]. *)
Lemma extract_number_from_text_literals :
  extract_number_from_text word_to_num "00" = Ok None /\
  extract_number_from_text word_to_num "007" = Ok None /\
  extract_number_from_text word_to_num "0" = Ok (Some 0%Z) /\
  extract_number_from_text word_to_num "zero" = Ok (Some 0%Z).
Proof. repeat split. Qed.

(** The other two go through [word2number]: [-5] is no number word, and
    50001 comes back as the integer it spells, which is out of range. *)
Lemma extract_number_from_text_rejects :
  word_to_num "-5" = Raise ValueError ->
  word_to_num "50001" = Ok (W2nInt 50001) ->
  extract_number_from_text word_to_num "-5" = Ok None /\
  extract_number_from_text word_to_num "50001" = Ok None.
Proof.
  intros H5 H50001. split.
  - change (extract_number_from_text word_to_num "-5")
      with (try_word_to_num word_to_num "-5").
    unfold try_word_to_num. by rewrite H5.
  - change (extract_number_from_text word_to_num "50001")
      with (try_word_to_num word_to_num "50001").
    unfold try_word_to_num. by rewrite H50001.
Qed.

Lemma int_zero (t : string) :
  PyStr.int t = Ok 0%Z ->
  PyStr.startswith "0" t && (1 <? String.length t)%nat = false ->
  t = "0".
Proof.
  destruct t as [|c t]; [done|]. unfold PyStr.int.
  destruct (PyStr.all_chars PyStr.is_decimal (String c t)) eqn:Hd; [|done].
  destruct (PyStr.int_max_str_digits <? Z.of_nat (String.length (String c t)))%Z;
    [done|].
  intros [= Hv]. cbn [PyStr.all_chars] in Hd.
  apply andb_true_iff in Hd as [Hc Ht].
  unfold PyStr.decimal_value in Hv. cbn [PyStr.decimal_value_from] in Hv.
  pose proof (digit_value_range c Hc) as Hr.
  pose proof (decimal_value_from_ge (10 * 0 + PyStr.digit_value c) t Ht) as Hge.
  assert (Hzero : PyStr.digit_value c = 0%Z) by lia.
  assert (c = "0"%char) as ->.
  { unfold PyStr.digit_value, PyStr.code in Hzero.
    rewrite <- (ascii_N_embedding c).
    replace (N_of_ascii c) with 48%N by lia. done. }
  destruct t as [|c' t]; [done|]. done.
Qed.

(** On the modelled range of characters, the normalizer returns 0 for
    the two tokens 0 and zero, trimmed and in lower case, and for no
    other token. *)
Lemma extract_number_from_text_zero (text : string) :
  extract_number_from_text word_to_num text = Ok (Some 0%Z)
  <-> PyStr.lower (PyStr.strip text) = "0"
      \/ PyStr.lower (PyStr.strip text) = "zero".
Proof.
  unfold extract_number_from_text. cbv zeta.
  generalize (PyStr.lower (PyStr.strip text)). intros t. split.
  - destruct (String.eqb_spec t "zero") as [->|_]; [by right|].
    assert (Hw : try_word_to_num word_to_num t = Ok (Some 0%Z) -> t = "0" \/ t = "zero").
    { intros H%try_word_to_num_range. lia. }
    destruct (PyStr.isdigit t); [|done].
    destruct (PyStr.startswith "0" t && (1 <? String.length t)%nat) eqn:Hlead; [done|].
    destruct (PyStr.int t) as [num|e] eqn:Hint; cbn [rbind]; [|done].
    destruct ((0 <=? num)%Z && (num <=? 50000)%Z); [|done].
    intros [= ->]. left. by apply int_zero.
  - by intros [-> | ->].
Qed.

End NormalizerFacts.

(** ** C9: [process_book] takes the first match of each [glob] *)

(** C9.  With more than one hOCR file or more than one raster directory
    in a book directory, [process_book] does what it does when only the
    first of each is there: same result, same files, same output, so
    nothing is said about the others. *)
Theorem process_book_first_match
    (word_to_num : string -> result w2n_value) (region : Type)
    (book_name : string) (hocr_path : hocr_file) (more_hocr : list hocr_file)
    (jp2_dir : jp2_directory region) (more_jp2 : list (jp2_directory region))
    (output_dir : path) (w : world region) :
  process_book word_to_num
    (BookDirectory book_name (hocr_path :: more_hocr) (jp2_dir :: more_jp2))
    output_dir w
  = process_book word_to_num (BookDirectory book_name [hocr_path] [jp2_dir])
      output_dir w
  /\ process_book word_to_num
       (BookDirectory book_name (hocr_path :: more_hocr) (jp2_dir :: more_jp2))
       output_dir w
     = extract_and_save_numbers word_to_num hocr_path jp2_dir output_dir book_name w.
Proof. split; reflexivity. Qed.

(** ** C6: the fan-out *)

Section FanOutFacts.

Variable word_to_num : string -> result w2n_value.
Variable region : Type.

Lemma collect_world (output_dir : path) (results : list nat)
      (b : book_directory region) (w : world region) :
  (collect word_to_num output_dir results b w).1
  = (collect word_to_num output_dir [] b w).1.
Proof.
  unfold collect. by destruct (process_book word_to_num b output_dir w) as [w' [n|e]].
Qed.

Lemma collect_results (output_dir : path) (results : list nat)
      (b : book_directory region) (w : world region) :
  (collect word_to_num output_dir results b w).2
  = Ok (results ++ [match (process_book word_to_num b output_dir w).2 with
                    | Ok n => n
                    | Raise _ => 0
                    end]).
Proof.
  unfold collect.
  by destruct (process_book word_to_num b output_dir w) as [w' [n|e]].
Qed.

Lemma created_counts_cons (r : result nat) (rs : list (result nat)) :
  list_sum (created_counts (r :: rs))
  = match r with Ok n => n | Raise _ => 0 end + list_sum (created_counts rs).
Proof.
  unfold created_counts. csimpl. rewrite list_sum_app. by destruct r; simpl; lia.
Qed.

Lemma collect_all (output_dir : path) (book_dirs : list (book_directory region))
      (results : list nat) (w : world region) :
  exists w' rs,
    for_each_io (collect word_to_num output_dir) results book_dirs w = (w', Ok rs) /\
    list_sum rs
    = list_sum results
      + list_sum (created_counts (outcomes word_to_num output_dir book_dirs w)).
Proof.
  revert results w. induction book_dirs as [|b bs IH]; intros results w.
  - exists w, results. split; [done|]. simpl. lia.
  - cbn [for_each_io]. unfold bind.
    pose proof (collect_world output_dir results b w) as Hw.
    pose proof (collect_results output_dir results b w) as Hr.
    destruct (collect word_to_num output_dir results b w) as [w1 r1].
    simpl in Hw, Hr. subst r1.
    destruct (IH (results ++ [match (process_book word_to_num b output_dir w).2 with
                              | Ok n => n
                              | Raise _ => 0
                              end]) w1) as (w' & rs & Hloop & Hsum).
    exists w', rs. split; [done|].
    rewrite Hsum, Hw. cbn [outcomes].
    rewrite created_counts_cons, list_sum_app. simpl. lia.
Qed.

End FanOutFacts.

(** C6.  [main] runs to its end whatever the books do, and the total it
    reports is the sum of the counts of the books that were processed
    without an exception; a book that raised adds nothing, and a book
    without hOCR file or without raster directory is processed to the
    count 0 with the files left as they were. *)
Theorem main_total_of_processed_books
    (word_to_num : string -> result w2n_value) (region : Type)
    (book_dirs : list (book_directory region)) (w : world region) :
  (exists w',
     main word_to_num book_dirs w = (w', Ok tt) /\
     last (stdout w')
     = Some (TotalExtracted
               (list_sum (created_counts
                            (outcomes word_to_num ["data"; "numbers"] book_dirs
                               (print (FoundBooks (length book_dirs)) w).1))))) /\
  (forall (b : book_directory region) (output_dir : path) (w0 : world region),
     hocr_files b = [] \/ jp2_dirs b = [] ->
     exists w1, process_book word_to_num b output_dir w0 = (w1, Ok 0)
                /\ files w1 = files w0).
Proof.
  split.
  - unfold main, bind.
    destruct (print (FoundBooks (length book_dirs)) w) as [w0 r0] eqn:Hp.
    assert (r0 = Ok tt) as -> by (by injection Hp as <- <-).
    destruct (collect_all word_to_num region ["data"; "numbers"] book_dirs [] w0)
      as (w1 & rs & -> & Hsum).
    eexists. split; [reflexivity|].
    simpl. by rewrite last_snoc, Hsum.
  - intros b output_dir w0 [H|H]; unfold process_book; rewrite H.
    + by eexists.
    + destruct (hocr_files b); by eexists.
Qed.

(** ** C5: the region extractor is idempotent *)

Section ExtractorFacts.

Variable region : Type.
Variable output_dir : path.
Variable book_name : string.

Lemma save_number_eq (image_name : string) (img : bbox -> result region)
      (count skipped : nat) (c : candidate) (w : world region) :
  save_number output_dir book_name image_name img (count, skipped) c w
  = if bool_decide (saved output_dir book_name image_name w c) then (w, Ok (count, S skipped))
    else match img (box c) with
         | Ok r =>
             (World (<[output_path output_dir book_name image_name (number c) := r]>
                       (files w)) (stdout w),
              Ok (S count, skipped))
         | Raise e => (w, Raise e)
         end.
Proof.
  unfold save_number, saved, bind, path_exists, lift, save, ret.
  case_bool_decide; [done|]. by destruct (img (box c)).
Qed.

(** A first pass over the numbers of an image: every file is there
    afterwards, and each number was either counted or skipped. *)
Lemma save_numbers_first (image_name : string) (img : bbox -> result region)
      (numbers : list candidate) (acc acc' : nat * nat) (w w' : world region) :
  for_each_io (save_number output_dir book_name image_name img) acc numbers w
  = (w', Ok acc') ->
  keeps_files w w' /\
  Forall (saved output_dir book_name image_name w') numbers /\
  acc'.1 + acc'.2 = acc.1 + acc.2 + length numbers.
Proof.
  revert acc w. induction numbers as [|c numbers IH]; intros [count skipped] w.
  - intros [= <- <-]. split; [by intros p|]. split; [constructor | simpl; lia].
  - cbn [for_each_io]. unfold bind at 1. rewrite save_number_eq.
    case_bool_decide as Hc.
    + intros (Hk & Hs & Hn)%IH. split; [done|]. split.
      * constructor; [by apply Hk | done].
      * simpl in *. lia.
    + destruct (img (box c)) as [r|e]; [|done].
      intros (Hk & Hs & Hn)%IH. simpl in *. split; [|split].
      * intros p Hp. apply Hk. simpl.
        destruct (decide (output_path output_dir book_name image_name (number c) = p))
          as [<-|Hne]; [by rewrite lookup_insert_eq | by rewrite lookup_insert_ne].
      * constructor; [|done]. apply Hk. simpl. by rewrite lookup_insert_eq.
      * lia.
Qed.

(** A pass over numbers whose files are all there skips each of them
    and changes nothing. *)
Lemma save_numbers_again (image_name : string) (img : bbox -> result region)
      (numbers : list candidate) (count skipped : nat) (w : world region) :
  Forall (saved output_dir book_name image_name w) numbers ->
  for_each_io (save_number output_dir book_name image_name img) (count, skipped)
    numbers w
  = (w, Ok (count, skipped + length numbers)).
Proof.
  revert skipped. induction numbers as [|c numbers IH]; intros skipped.
  - intros _. simpl. unfold ret. by rewrite Nat.add_0_r.
  - intros [Hc Hs]%Forall_cons. cbn [for_each_io]. unfold bind.
    rewrite save_number_eq, bool_decide_true by done.
    rewrite (IH _ Hs). do 3 f_equal. simpl. lia.
Qed.

Variable jp2_dir : jp2_directory region.

Lemma image_done_keeps (w w' : world region) (item : string * list candidate) :
  keeps_files w w' ->
  image_done output_dir book_name jp2_dir w item ->
  image_done output_dir book_name jp2_dir w' item.
Proof.
  intros Hk Hd r Hr. destruct (Hd r Hr) as [Himg Hs]. split; [done|].
  eapply Forall_impl; [done|]. intros c. apply Hk.
Qed.

Lemma save_images_first (d : image_dict) (acc acc' : nat * nat) (w w' : world region) :
  for_each_io (save_image jp2_dir output_dir book_name) acc d w = (w', Ok acc') ->
  keeps_files w w' /\
  Forall (image_done output_dir book_name jp2_dir w') d /\
  acc'.1 + acc'.2 = acc.1 + acc.2 + covered jp2_dir d.
Proof.
  revert acc w. induction d as [|[image_name numbers] d IH]; intros acc w.
  - intros [= <- <-]. split; [by intros p|].
    split; [constructor | unfold covered; simpl; lia].
  - cbn [for_each_io]. unfold bind at 1, save_image at 1, covered. csimpl.
    destruct (jp2_dir image_name) as [[img|e]|] eqn:Hr.
    + unfold bind at 1, lift at 1.
      destruct (for_each_io (save_number output_dir book_name image_name img)
                  acc numbers w) as [w1 [acc1|e1]] eqn:Hfirst; [|done].
      apply save_numbers_first in Hfirst as (Hk1 & Hs1 & Hn1).
      intros (Hk & Hs & Hn)%IH. split; [|split].
      * intros p Hp. by apply Hk, Hk1.
      * constructor; [|done]. apply (image_done_keeps w1); [done|].
        intros r. simpl. rewrite Hr. intros [= <-]. split; [by eexists | done].
      * unfold covered in Hn. lia.
    + unfold bind at 1, lift at 1. done.
    + unfold bind at 1, print at 1, ret at 1.
      intros (Hk & Hs & Hn)%IH. split; [|split].
      * intros p Hp. by apply Hk.
      * constructor; [|done]. intros r. simpl. by rewrite Hr.
      * unfold covered in Hn. simpl in *. lia.
Qed.

Lemma save_images_again (d : image_dict) (count skipped : nat) (w : world region) :
  Forall (image_done output_dir book_name jp2_dir w) d ->
  exists w',
    for_each_io (save_image jp2_dir output_dir book_name) (count, skipped) d w
    = (w', Ok (count, skipped + covered jp2_dir d)) /\
    files w' = files w.
Proof.
  revert skipped w. induction d as [|[image_name numbers] d IH]; intros skipped w.
  - intros _. exists w. split; [|done]. simpl. unfold ret, covered. simpl.
    by rewrite Nat.add_0_r.
  - intros [Hd Hs]%Forall_cons.
    cbn [for_each_io]. unfold bind at 1, save_image at 1, covered. csimpl.
    destruct (jp2_dir image_name) as [r|] eqn:Hr.
    + destruct (Hd r Hr) as [[img ->] Hsaved]. simpl in Hsaved.
      unfold bind at 1, lift at 1.
      rewrite (save_numbers_again _ _ _ _ _ _ Hsaved).
      destruct (IH (skipped + length numbers) w Hs) as (w' & -> & Hw').
      exists w'. split; [|done]. unfold covered. by rewrite Nat.add_assoc.
    + unfold bind at 1, print at 1, ret at 1.
      set (w1 := World (files w) (stdout w ++ [WarningJp2NotFound image_name])).
      assert (Hs1 : Forall (image_done output_dir book_name jp2_dir w1) d).
      { eapply Forall_impl; [done|]. intros item. apply image_done_keeps.
        by intros p. }
      destruct (IH skipped w1 Hs1) as (w' & -> & Hw').
      exists w'. split; [|done]. done.
Qed.

End ExtractorFacts.

(** C5.  A candidate whose artifact path exists is counted as skipped:
    the page image is not cropped, whatever cropping it would give or
    raise, and no file and no output is changed.  So after a run of
    [extract_and_save_numbers] that returned, a second run over the
    same hOCR file and the same raster files returns 0, leaves the files
    as the first run left them, also where cropping would now give
    something else or fail, and reports as skipped every candidate the
    first run created or skipped. *)
Theorem second_run_skips_all
    (word_to_num : string -> result w2n_value) (region : Type)
    (hocr_path : hocr_file) (jp2_dir jp2_dir' : jp2_directory region)
    (output_dir : path) (book_name : string)
    (w0 w1 : world region) (count : nat) :
  extract_and_save_numbers word_to_num hocr_path jp2_dir output_dir book_name w0
  = (w1, Ok count) ->
  same_rasters jp2_dir jp2_dir' ->
  (exists skipped w2,
     last (stdout w1) = Some (Completed book_name count skipped) /\
     extract_and_save_numbers word_to_num hocr_path jp2_dir' output_dir book_name w1
     = (w2, Ok 0) /\
     files w2 = files w1 /\
     last (stdout w2) = Some (Completed book_name 0 (count + skipped))) /\
  (forall (image_name : string) (img : bbox -> result region) (n s : nat)
          (c : candidate) (w : world region),
     is_Some (files w !! output_path output_dir book_name image_name (number c)) ->
     save_number output_dir book_name image_name img (n, s) c w
     = (w, Ok (n, S s))).
Proof.
  intros Hrun Hsame. split.
  2:{ intros image_name img n s c w Hthere.
      rewrite save_number_eq. by rewrite bool_decide_true. }
  revert Hrun.
  unfold extract_and_save_numbers, bind, print, lift, ret.
  destruct (let! html := hocr_path in extract_numbers_from_hocr word_to_num html)
    as [d|e]; [|done].
  destruct (for_each_io (save_image jp2_dir output_dir book_name) (0, 0) d
              (World (files w0) (stdout w0 ++ [Processing book_name])))
    as [wb [[c s]|e]] eqn:Hfirst; [|done].
  intros [= <- <-]. cbn [fst snd files stdout].
  apply save_images_first in Hfirst as (_ & Hdone & Hn).
  set (wa := World (files wb)
               ((stdout wb ++ [Completed book_name c s]) ++ [Processing book_name])).
  assert (Hdone' : Forall (image_done output_dir book_name jp2_dir' wa) d).
  { eapply Forall_impl; [done|]. intros item Hitem r' Hr'.
    specialize (Hsame item.1). rewrite Hr' in Hsame.
    destruct (jp2_dir item.1) as [r|] eqn:Hr; [|done].
    destruct (Hitem r Hr) as [[img ->] Hsaved].
    destruct r' as [img'|e']; [|done]. split; [by eexists|].
    eapply Forall_impl; [done|]. by intros cand. }
  assert (Hcov : covered jp2_dir' d = covered jp2_dir d).
  { unfold covered. f_equal. apply list_fmap_ext. intros _ item _.
    specialize (Hsame item.1).
    destruct (jp2_dir item.1) as [[?|?]|], (jp2_dir' item.1) as [[?|?]|]; done. }
  destruct (save_images_again region output_dir book_name jp2_dir' d 0 0 wa Hdone')
    as (w' & -> & Hfiles).
  exists s. eexists. split; [by rewrite last_snoc|].
  split; [reflexivity|]. cbn [fst snd files stdout]. split; [done|].
  rewrite last_snoc, Hcov. simpl in Hn. do 2 f_equal. lia.
Qed.

Lemma example_main :
  stdout (main w2n_excerpt example_books (World ∅ [])).1
  = [ FoundBooks 3;
      Processing "book1"; WarningJp2NotFound "p2.jp2"; Completed "book1" 1 0;
      Processing "book2"; ErrorProcessing "book2" ValueError;
      NoHocrFound "book3";
      TotalExtracted 1 ].
Proof. vm_compute. reflexivity. Qed.

Lemma second_run_skips_all_witness :
  let w1 := (example_run (World ∅ [])).1 in
  example_run (World ∅ []) = (w1, Ok 1) /\
  (exists skipped w2,
     last (stdout w1) = Some (Completed "book1" 1 skipped) /\
     extract_and_save_numbers w2n_excerpt (Ok example_html) example_jp2_uncroppable
       ["data"; "numbers"] "book1" w1
     = (w2, Ok 0) /\
     files w2 = files w1 /\
     last (stdout w2) = Some (Completed "book1" 0 (1 + skipped))) /\
  save_number ["data"; "numbers"] "book1" "p1.jp2" (fun _ => Raise OtherError)
    (0, 0) (Candidate 12 (10, 10, 50, 30)%Z) w1
  = (w1, Ok (0, 1)).
Proof.
  intros w1.
  assert (Hrun : example_run (World ∅ []) = (w1, Ok 1))
    by (subst w1; vm_compute; reflexivity).
  split; [exact Hrun|].
  assert (Hsame : same_rasters example_jp2 example_jp2_uncroppable).
  { intros image_name. unfold example_jp2, example_jp2_uncroppable.
    by destruct (String.eqb image_name "p1.jp2"). }
  pose proof (second_run_skips_all w2n_excerpt bbox (Ok example_html) example_jp2
                example_jp2_uncroppable ["data"; "numbers"] "book1" (World ∅ [])
                w1 1 Hrun Hsame) as [Hsecond Hskip].
  split; [exact Hsecond|]. apply Hskip. subst w1. vm_compute. by eexists.
Defined.

(** ** C8: the file name of an artifact and the height the consumer reads *)

Lemma has_char_app (c : ascii) (a b : string) :
  PyStr.has_char c (a +:+ b) = PyStr.has_char c a || PyStr.has_char c b.
Proof.
  induction a as [|c' a IH]; [done|].
  rewrite string_app_cons. cbn [PyStr.has_char]. by rewrite IH, orb_assoc.
Qed.

Lemma decimal_no_underscore (s : string) :
  PyStr.all_chars PyStr.is_decimal s = true -> PyStr.has_char "_" s = false.
Proof.
  induction s as [|c s IH]; [done|]. cbn [PyStr.all_chars PyStr.has_char].
  intros [Hc Hs]%andb_true_iff. rewrite (IH Hs), orb_false_r.
  destruct (Ascii.eqb_spec c "_") as [->|]; [done|done].
Qed.

(** A match of the height pattern runs to the end of the string and has
    no underscore after its first character. *)
Lemma match_height_tail (c : ascii) (t : string) (z : Z) :
  match_height (String c t) = Some z -> PyStr.has_char "_" t = false.
Proof.
  unfold match_height, Re.lit. intros H.
  destruct (PyStr.strip_prefix "_h" (String c t)) as [r|] eqn:H0; [|done].
  cbn [mbind option_bind] in H.
  destruct (Re.digits1 r) as [[h r1]|] eqn:Hh; [|done]. cbn [mbind option_bind] in H.
  destruct (PyStr.strip_prefix ".png" r1) as [r2|] eqn:H1; [|done].
  cbn [mbind option_bind] in H.
  destruct (at_end r2) eqn:He; [|done].
  apply strip_prefix_app in H0, H1. subst r1.
  apply digits1_app in Hh as [-> Hd].
  rewrite string_app_cons in H0. injection H0 as -> ->.
  rewrite !has_char_app.
  rewrite (decimal_no_underscore h) by (by destruct h).
  destruct r2 as [|c2 [|c3 r2]]; [done| |done].
  unfold at_end in He. apply Ascii.eqb_eq in He as ->. done.
Qed.

Lemma search_height_prefix (pre rest : string) :
  Re.search match_height (pre +:+ String "_" rest)
  = Re.search match_height (String "_" rest).
Proof.
  induction pre as [|c pre IH]; [done|].
  rewrite string_app_cons. cbn [Re.search].
  destruct (match_height (String c (pre +:+ String "_" rest))) as [z|] eqn:Hm; [|done].
  apply match_height_tail in Hm.
  rewrite has_char_app in Hm. cbn [PyStr.has_char] in Hm.
  rewrite Ascii.eqb_refl in Hm. simpl in Hm. by rewrite orb_true_r in Hm.
Qed.

Lemma string_app_assoc (a b c : string) : (a +:+ b) +:+ c = a +:+ (b +:+ c).
Proof.
  induction a as [|x a IH]; [done|]. by rewrite !string_app_cons, IH.
Qed.

(** C8, as stated, fails on the artifact of the end-to-end example: its
    file name has no height in it, and the consumer raises. *)
Lemma artifact_name_without_height :
  output_path ["data"; "numbers"] "book1" "p1.jp2" 12
  = ["data"; "numbers"; "12"; "12_book1_p1.png"] /\
  height_of_name "12_book1_p1.png" = Raise ValueError /\
  get_image_for_number
    (fun number_dir =>
       if decide (number_dir = ["data"; "numbers"; "12"])
       then ["12_book1_p1.png"] else [])
    12 ["data"; "numbers"]
  = Raise ValueError.
Proof. repeat split. Qed.

(** C8, amended.  The file name of an artifact is the value, the
    document name and the raster file name with [.jp2] replaced by
    [.png], joined by underscores; the extractor puts no height into it:
    the consumer reads from it the height it would read from the
    underscore and the converted raster file name alone. *)
Theorem artifact_height_from_raster_name
    (output_dir : path) (book_name image_name : string) (number : Z) :
  let converted := PyStr.replace ".jp2" ".png" image_name in
  let file_name :=
    PyStr.str_of_int number +:+ "_" +:+ book_name +:+ "_" +:+ converted in
  last (output_path output_dir book_name image_name number) = Some file_name /\
  height_of_name file_name = height_of_name ("_" +:+ converted).
Proof.
  intros converted file_name. split.
  - unfold output_path. by rewrite last_snoc.
  - assert (Hname : file_name
                    = (PyStr.str_of_int number +:+ "_" +:+ book_name)
                        +:+ String "_" converted).
    { unfold file_name. by rewrite !string_app_assoc. }
    unfold height_of_name. by rewrite Hname, search_height_prefix.
Qed.

(** * Further properties of the code *)

(** ** Decimal strings: [str] and [int] *)

Lemma uint_all_decimal (d : Decimal.uint) :
  PyStr.all_chars PyStr.is_decimal (NilEmpty.string_of_uint d) = true.
Proof. induction d; simpl; auto. Qed.

Lemma uint_value_acc (d : Decimal.uint) (acc : positive) :
  PyStr.decimal_value_from (Z.pos acc) (NilEmpty.string_of_uint d)
  = Z.pos (Pos.of_uint_acc d acc).
Proof.
  revert acc. induction d; intros acc; cbn [NilEmpty.string_of_uint
    PyStr.decimal_value_from Pos.of_uint_acc]; [done|..];
    rewrite <- IHd; f_equal; unfold PyStr.digit_value; simpl; lia.
Qed.

Lemma uint_value (d : Decimal.uint) :
  PyStr.decimal_value_from 0 (NilEmpty.string_of_uint d) = Z.of_N (Pos.of_uint d).
Proof.
  induction d; cbn [NilEmpty.string_of_uint PyStr.decimal_value_from Pos.of_uint];
    [done | done | ..];
    change (Z.of_N (N.pos ?p)) with (Z.pos p); rewrite <- uint_value_acc; f_equal.
Qed.

Lemma nzhead_no_zero (d d' : Decimal.uint) : Decimal.nzhead d <> Decimal.D0 d'.
Proof. induction d; simpl; try done. Qed.

Lemma to_uint_no_leading_zero (p : positive) (d : Decimal.uint) :
  Pos.to_uint p <> Decimal.D0 d.
Proof.
  intros H.
  pose proof (Unsigned.to_of (Pos.to_uint p)) as Hn.
  rewrite Unsigned.of_to in Hn. simpl in Hn. rewrite H in Hn.
  unfold Decimal.unorm in Hn. simpl in Hn.
  destruct (Decimal.nzhead d) eqn:Hd; try done.
  - injection Hn as Hnil. subst d. by apply (Unsigned.to_uint_nonzero p).
  - by eapply nzhead_no_zero.
Qed.

Lemma str_of_pos (p : positive) :
  PyStr.str_of_int (Z.pos p) = NilEmpty.string_of_uint (Pos.to_uint p).
Proof.
  unfold PyStr.str_of_int. simpl.
  pose proof (Unsigned.to_uint_nonnil p). by destruct (Pos.to_uint p).
Qed.

Lemma str_of_int_isdecimal (n : Z) :
  (0 <= n)%Z -> PyStr.isdecimal (PyStr.str_of_int n) = true.
Proof.
  destruct n as [|p|p]; [done | | lia]. intros _. rewrite str_of_pos.
  pose proof (Unsigned.to_uint_nonnil p). pose proof (uint_all_decimal (Pos.to_uint p)).
  by destruct (Pos.to_uint p).
Qed.

Lemma str_of_int_value (n : Z) :
  (0 <= n)%Z -> PyStr.decimal_value (PyStr.str_of_int n) = n.
Proof.
  destruct n as [|p|p]; [done | | lia]. intros _. rewrite str_of_pos.
  unfold PyStr.decimal_value. by rewrite uint_value, Unsigned.of_to.
Qed.

Lemma str_of_int_leading (n : Z) :
  (0 < n)%Z -> PyStr.startswith "0" (PyStr.str_of_int n) = false.
Proof.
  destruct n as [|p|p]; [lia | | lia]. intros _. rewrite str_of_pos.
  pose proof (to_uint_no_leading_zero p).
  destruct (Pos.to_uint p); try done. by exfalso; eapply H.
Qed.

(** A run of decimal digits is worth at least what stands before it,
    shifted by its length. *)
Lemma decimal_value_from_shift (acc : Z) (s : string) :
  PyStr.all_chars PyStr.is_decimal s = true -> (0 <= acc)%Z ->
  (acc * 10 ^ Z.of_nat (String.length s) <= PyStr.decimal_value_from acc s)%Z.
Proof.
  revert acc. induction s as [|c s IH]; intros acc.
  - intros _ Hacc. simpl. lia.
  - cbn [PyStr.all_chars PyStr.decimal_value_from String.length].
    intros [Hc Hs]%andb_true_iff Hacc. apply digit_value_range in Hc.
    specialize (IH (10 * acc + PyStr.digit_value c)%Z Hs ltac:(lia)).
    rewrite Nat2Z.inj_succ, Z.pow_succ_r by lia.
    assert (0 < 10 ^ Z.of_nat (String.length s))%Z by (apply Z.pow_pos_nonneg; lia).
    nia.
Qed.

(** [str(n)] of a positive integer below [10 ^ k] has at most [k] digits. *)
Lemma str_of_int_length (n : Z) (k : nat) :
  (0 < n < 10 ^ Z.of_nat k)%Z -> String.length (PyStr.str_of_int n) <= k.
Proof.
  intros Hn.
  pose proof (str_of_int_isdecimal n ltac:(lia)) as Hd.
  pose proof (str_of_int_value n ltac:(lia)) as Hv.
  pose proof (str_of_int_leading n ltac:(lia)) as Hl.
  destruct (PyStr.str_of_int n) as [|c s]; [done|].
  unfold PyStr.isdecimal in Hd. cbn [PyStr.all_chars] in Hd.
  apply andb_true_iff in Hd as [Hc Hs].
  unfold PyStr.decimal_value in Hv. cbn [PyStr.decimal_value_from] in Hv.
  pose proof (digit_value_range c Hc) as Hr.
  assert (Hone : (1 <= PyStr.digit_value c)%Z).
  { destruct (decide (PyStr.digit_value c = 0%Z)) as [Hzero|]; [|lia].
    exfalso. assert (c = "0"%char) as ->.
    { unfold PyStr.digit_value, PyStr.code in Hzero.
      rewrite <- (ascii_N_embedding c).
      replace (N_of_ascii c) with 48%N by lia. done. }
    done. }
  pose proof (decimal_value_from_shift (10 * 0 + PyStr.digit_value c) s Hs
                ltac:(lia)) as Hshift.
  cbn [String.length].
  destruct (decide (String.length s < k)) as [|Hge]; [lia|]. exfalso.
  assert (10 ^ Z.of_nat k <= 10 ^ Z.of_nat (String.length s))%Z
    by (apply Z.pow_le_mono_r; lia).
  nia.
Qed.

(** ** Trimming and lower-casing *)

Lemma decimal_not_space (c : ascii) :
  PyStr.is_decimal c = true -> PyStr.is_space c = false /\ PyStr.lower_char c = c.
Proof.
  destruct c as [[] [] [] [] [] [] [] []]; vm_compute; intros H;
    first [discriminate H | split; reflexivity].
Qed.

Lemma lower_char_idem (c : ascii) :
  PyStr.lower_char (PyStr.lower_char c) = PyStr.lower_char c.
Proof. destruct c as [[] [] [] [] [] [] [] []]; reflexivity. Qed.

Lemma lower_char_space (c : ascii) :
  PyStr.is_space (PyStr.lower_char c) = PyStr.is_space c.
Proof. destruct c as [[] [] [] [] [] [] [] []]; reflexivity. Qed.

Opaque PyStr.is_space PyStr.lower_char PyStr.is_decimal PyStr.is_digit.

Lemma lower_idem (s : string) : PyStr.lower (PyStr.lower s) = PyStr.lower s.
Proof. induction s as [|c s IH]; simpl; [done|]. by rewrite lower_char_idem, IH. Qed.

Lemma lstrip_lower (s : string) :
  PyStr.lstrip (PyStr.lower s) = PyStr.lower (PyStr.lstrip s).
Proof.
  induction s as [|c s IH]; simpl; [done|].
  rewrite lower_char_space. by destruct (PyStr.is_space c).
Qed.

Lemma rstrip_lower (s : string) :
  PyStr.rstrip (PyStr.lower s) = PyStr.lower (PyStr.rstrip s).
Proof.
  induction s as [|c s IH]; simpl; [done|].
  rewrite IH, lower_char_space.
  destruct (PyStr.rstrip s); simpl; [by destruct (PyStr.is_space c)|done].
Qed.

Lemma strip_lower (s : string) :
  PyStr.strip (PyStr.lower s) = PyStr.lower (PyStr.strip s).
Proof. unfold PyStr.strip. by rewrite lstrip_lower, rstrip_lower. Qed.


Lemma lstrip_front (s : string) : no_blank_in_front (PyStr.lstrip s) = true.
Proof.
  induction s as [|c s IH]; simpl; [done|].
  destruct (PyStr.is_space c) eqn:Hc; [done|]. simpl. by rewrite Hc.
Qed.

Lemma lstrip_id (s : string) : no_blank_in_front s = true -> PyStr.lstrip s = s.
Proof. destruct s as [|c s]; simpl; [done|]. by destruct (PyStr.is_space c). Qed.

Lemma rstrip_front (s : string) :
  no_blank_in_front s = true -> no_blank_in_front (PyStr.rstrip s) = true.
Proof.
  destruct s as [|c s]; simpl; [done|]. intros Hc.
  destruct (PyStr.rstrip s); simpl; [|done].
  destruct (PyStr.is_space c) eqn:E; simpl in *; [done | by rewrite E].
Qed.

Lemma rstrip_cons (c : ascii) (s : string) :
  PyStr.rstrip (String c s)
  = match PyStr.rstrip s with
    | EmptyString => if PyStr.is_space c then EmptyString else String c EmptyString
    | r => String c r
    end.
Proof. reflexivity. Qed.

Lemma rstrip_idem (s : string) : PyStr.rstrip (PyStr.rstrip s) = PyStr.rstrip s.
Proof.
  induction s as [|c s IH]; [done|]. rewrite (rstrip_cons c s).
  destruct (PyStr.rstrip s) as [|c' r] eqn:Hr.
  - destruct (PyStr.is_space c) eqn:Hc; [done|].
    rewrite rstrip_cons. simpl. by rewrite Hc.
  - by rewrite rstrip_cons, IH.
Qed.

Lemma strip_idem (s : string) : PyStr.strip (PyStr.strip s) = PyStr.strip s.
Proof.
  unfold PyStr.strip.
  rewrite (lstrip_id (PyStr.rstrip (PyStr.lstrip s)))
    by apply rstrip_front, lstrip_front.
  apply rstrip_idem.
Qed.

Lemma lower_strip_idem (s : string) :
  PyStr.lower (PyStr.strip (PyStr.lower (PyStr.strip s))) = PyStr.lower (PyStr.strip s).
Proof. by rewrite strip_lower, strip_idem, lower_idem. Qed.

Lemma decimal_lower_strip (s : string) :
  PyStr.all_chars PyStr.is_decimal s = true -> PyStr.lower (PyStr.strip s) = s.
Proof.
  intros H. rewrite <- strip_lower.
  assert (Hl : PyStr.lower s = s).
  { induction s as [|c s IH]; simpl in *; [done|].
    apply andb_true_iff in H as [Hc Hs].
    by rewrite (proj2 (decimal_not_space c Hc)), (IH Hs). }
  rewrite Hl. unfold PyStr.strip.
  assert (Hr : PyStr.rstrip s = s).
  { clear Hl. induction s as [|c s IH]; simpl in *; [done|].
    apply andb_true_iff in H as [Hc Hs]. rewrite (IH Hs).
    destruct s; [|done]. by rewrite (proj1 (decimal_not_space c Hc)). }
  rewrite lstrip_id; [done|].
  destruct s as [|c s]; simpl in *; [done|].
  apply andb_true_iff in H as [Hc Hs]. by rewrite (proj1 (decimal_not_space c Hc)).
Qed.

Lemma decimal_is_digit (s : string) :
  PyStr.all_chars PyStr.is_decimal s = true -> PyStr.all_chars PyStr.is_digit s = true.
Proof.
  induction s as [|c s IH]; simpl; [done|].
  intros [Hc Hs]%andb_true_iff. rewrite (IH Hs).
  Transparent PyStr.is_digit. unfold PyStr.is_digit. by rewrite Hc.
Qed.

Transparent PyStr.is_space PyStr.lower_char PyStr.is_decimal PyStr.is_digit.

(** ** The normalizer on decimal tokens *)

Section NormalizerMore.

Variable word_to_num : string -> result w2n_value.

(** X1.  The token is trimmed and put in lower case once: doing it beforehand
    changes nothing. *)
Theorem normalizer_trims_and_lowers (text : string) :
  extract_number_from_text word_to_num (PyStr.lower (PyStr.strip text))
  = extract_number_from_text word_to_num text.
Proof. unfold extract_number_from_text. by rewrite lower_strip_idem. Qed.

(** X2.  Every integer of 0..50000, written in decimal, is normalized to
    itself, whatever [word2number] does. *)
Theorem normalizer_reads_decimal (n : Z) :
  (0 <= n <= 50000)%Z ->
  extract_number_from_text word_to_num (PyStr.str_of_int n) = Ok (Some n).
Proof.
  intros Hn. unfold extract_number_from_text.
  pose proof (str_of_int_isdecimal n (proj1 Hn)) as Hd.
  pose proof (str_of_int_value n (proj1 Hn)) as Hv.
  assert (Ha : PyStr.all_chars PyStr.is_decimal (PyStr.str_of_int n) = true).
  { by destruct (PyStr.str_of_int n). }
  rewrite (decimal_lower_strip _ Ha). cbv zeta.
  destruct (String.eqb_spec (PyStr.str_of_int n) "zero") as [Hz|_].
  { by rewrite Hz in Ha. }
  assert (PyStr.isdigit (PyStr.str_of_int n) = true) as ->.
  { pose proof (decimal_is_digit _ Ha). by destruct (PyStr.str_of_int n). }
  assert (PyStr.startswith "0" (PyStr.str_of_int n)
          && (1 <? String.length (PyStr.str_of_int n))%nat = false) as ->.
  { destruct (decide (n = 0%Z)) as [->|]; [done|].
    rewrite str_of_int_leading by lia. done. }
  assert (PyStr.int (PyStr.str_of_int n) = Ok n) as ->.
  { rewrite (int_decimal _ Hd), Hv.
    destruct (Z.ltb_spec PyStr.int_max_str_digits
                (Z.of_nat (String.length (PyStr.str_of_int n)))) as [Hlong|];
      [|done].
    exfalso. unfold PyStr.int_max_str_digits in Hlong.
    destruct (decide (n = 0%Z)) as [->|]; [by vm_compute in Hlong|].
    pose proof (str_of_int_length n 5 ltac:(change (10 ^ Z.of_nat 5)%Z with 100000%Z; lia)).
    lia. }
  cbn [rbind].
  destruct Hn as [H0%Z.leb_le H1%Z.leb_le]. by rewrite H0, H1.
Qed.

(** X3.  A token of digits with a zero in front and at least one more digit
    gives no match, and [word2number] is not asked. *)
Theorem normalizer_rejects_leading_zero (digits : string) :
  PyStr.isdecimal digits = true ->
  extract_number_from_text word_to_num ("0" +:+ digits) = Ok None.
Proof.
  intros Hd. unfold extract_number_from_text.
  assert (Ha : PyStr.all_chars PyStr.is_decimal ("0" +:+ digits) = true).
  { simpl. by destruct digits. }
  rewrite (decimal_lower_strip _ Ha). cbv zeta.
  destruct (String.eqb_spec ("0" +:+ digits) "zero") as [Hz|_].
  { by rewrite Hz in Ha. }
  assert (PyStr.isdigit ("0" +:+ digits) = true) as ->.
  { by apply decimal_is_digit in Ha. }
  by destruct digits.
Qed.

End NormalizerMore.

(** ** The attribute parsers: when they match *)

Lemma strip_prefix_of_app (p r : string) : PyStr.strip_prefix p (p +:+ r) = Some r.
Proof.
  induction p as [|a p IH]; [done|].
  rewrite string_app_cons. cbn [PyStr.strip_prefix]. by rewrite Ascii.eqb_refl.
Qed.

Lemma search_found {A : Type} (m : string -> option A) (pre suf : string) :
  is_Some (m suf) -> is_Some (Re.search m (pre +:+ suf)).
Proof.
  intros Hm. induction pre as [|c pre IH].
  - change (EmptyString +:+ suf) with suf.
    destruct Hm as [a Ha]. destruct suf; simpl; by rewrite Ha.
  - rewrite string_app_cons. cbn [Re.search].
    by destruct (m (String c (pre +:+ suf))).
Qed.

Lemma search_head {A : Type} (m : string -> option A) (s : string) (a : A) :
  m s = Some a -> Re.search m s = Some a.
Proof. intros H. destruct s; simpl; by rewrite H. Qed.

Lemma search_is_Some {A : Type} (m : string -> option A) (s : string) :
  is_Some (Re.search m s) <-> exists pre suf, s = pre +:+ suf /\ is_Some (m suf).
Proof.
  split.
  - intros [a (pre & suf & -> & Hm)%search_app]. exists pre, suf. by rewrite Hm.
  - intros (pre & suf & -> & Hm). by apply search_found.
Qed.

Lemma digits1_is_Some (s : string) :
  is_Some (Re.digits1 s) <-> Re.starts_with_digit s = true.
Proof.
  destruct s as [|c s]; unfold Re.digits1; simpl.
  - split; [by intros [? ?] | done].
  - destruct (PyStr.is_decimal c); [|split; [by intros [? ?] | done]].
    destruct (Re.span_digits s). split; [done | by eexists].
Qed.

Lemma all_chars_app (p : ascii -> bool) (a b : string) :
  PyStr.all_chars p (a +:+ b) = PyStr.all_chars p a && PyStr.all_chars p b.
Proof.
  induction a as [|c a IH]; [done|].
  rewrite string_app_cons. cbn [PyStr.all_chars]. by rewrite IH, andb_assoc.
Qed.

Lemma isdecimal_app (a b : string) :
  PyStr.isdecimal a = true -> PyStr.isdecimal b = true ->
  PyStr.isdecimal (a +:+ b) = true.
Proof.
  destruct a as [|c a]; [done|]. destruct b as [|c' b]; [done|].
  unfold PyStr.isdecimal. rewrite string_app_cons. intros Ha Hb.
  rewrite <- string_app_cons, all_chars_app. by rewrite Ha, Hb.
Qed.

(** A marker followed by a run of digits whose value is read: the shape
    of [ppageno] and of the head of [x_wconf]. *)
Lemma marker_digits_is_Some {A : Type} (marker : string)
      (k : string -> string -> option A) (s : string) :
  (forall d r, is_Some (k d r)) ->
  is_Some (r ← Re.lit marker s; '(d, r) ← Re.digits1 r; k d r)
  <-> exists rest, s = marker +:+ rest /\ Re.starts_with_digit rest = true.
Proof.
  intros Hk. unfold Re.lit. split.
  - destruct (PyStr.strip_prefix marker s) as [r|] eqn:Hr; cbn [mbind option_bind];
      [|by intros [? ?]].
    apply strip_prefix_app in Hr as ->. intros H. exists r. split; [done|].
    apply digits1_is_Some. destruct (Re.digits1 r); [by eexists | by destruct H].
  - intros (rest & -> & Hd). rewrite strip_prefix_of_app. cbn [mbind option_bind].
    apply digits1_is_Some in Hd as [[d r] ->]. cbn [mbind option_bind]. apply Hk.
Qed.

(** X4.  [parse_confidence] resolves a confidence exactly when the marker
    occurs somewhere with a digit right after it; the literal it reads
    is not negative. *)
Theorem parse_confidence_resolves (title : string) :
  (is_Some (parse_confidence title)
   <-> exists pre rest,
         title = pre +:+ "x_wconf " +:+ rest /\ Re.starts_with_digit rest = true) /\
  (forall c, parse_confidence title = Some c -> (0 <= coefficient c)%Z).
Proof.
  split.
  - unfold parse_confidence. rewrite search_is_Some. unfold match_confidence.
    split.
    + intros (pre & suf & -> & Hm). exists pre.
      apply (marker_digits_is_Some "x_wconf "
               (fun i r => match Re.lit "." r ≫= Re.digits1 with
                           | Some (f, _) => Some (Confidence (PyStr.decimal_value (i +:+ f)) (String.length f))
                           | None => Some (Confidence (PyStr.decimal_value i) 0)
                           end)) in Hm.
      * destruct Hm as (rest & -> & Hd). by exists rest.
      * intros d r. by destruct (Re.lit "." r ≫= Re.digits1) as [[? ?]|].
    + intros (pre & rest & -> & Hd). exists pre, ("x_wconf " +:+ rest). split; [done|].
      apply (marker_digits_is_Some "x_wconf "
               (fun i r => match Re.lit "." r ≫= Re.digits1 with
                           | Some (f, _) => Some (Confidence (PyStr.decimal_value (i +:+ f)) (String.length f))
                           | None => Some (Confidence (PyStr.decimal_value i) 0)
                           end)).
      * intros d r. by destruct (Re.lit "." r ≫= Re.digits1) as [[? ?]|].
      * by exists rest.
  - intros c (pre & suf & -> & Hm)%search_app. revert Hm.
    unfold match_confidence, Re.lit.
    destruct (PyStr.strip_prefix "x_wconf " suf) as [r0|]; cbn [mbind option_bind]; [|done].
    destruct (Re.digits1 r0) as [[i r1]|] eqn:Hi; cbn [mbind option_bind]; [|done].
    apply digits1_app in Hi as [_ Hi].
    destruct (PyStr.strip_prefix "." r1) as [r2|]; cbn [mbind option_bind].
    + destruct (Re.digits1 r2) as [[f r3]|] eqn:Hf; intros [= <-]; simpl.
      * apply digits1_app in Hf as [_ Hf]. apply decimal_value_nonneg.
        by apply isdecimal_app.
      * by apply decimal_value_nonneg.
    + intros [= <-]. simpl. by apply decimal_value_nonneg.
Qed.

Lemma span_digits_rest (s d r : string) :
  Re.span_digits s = (d, r) -> Re.starts_with_digit r = false.
Proof.
  revert d r. induction s as [|c s IH]; intros d r; simpl.
  - by intros [= <- <-].
  - destruct (PyStr.is_decimal c) eqn:Hc.
    + destruct (Re.span_digits s) as [d' r']. intros [= <- <-]. by eapply IH.
    + intros [= <- <-]. simpl. by rewrite Hc.
Qed.

Lemma match_ppageno_app (s digits : string) :
  match_ppageno s = Some digits ->
  exists rest,
    s = "ppageno " +:+ digits +:+ rest /\ PyStr.isdecimal digits = true
    /\ Re.starts_with_digit rest = false.
Proof.
  unfold match_ppageno, Re.lit.
  destruct (PyStr.strip_prefix "ppageno " s) as [r0|] eqn:H0;
    cbn [mbind option_bind]; [|done].
  destruct (Re.digits1 r0) as [[d r1]|] eqn:Hd; cbn [mbind option_bind]; [|done].
  intros [= <-]. apply strip_prefix_app in H0 as ->.
  assert (Hrest : Re.starts_with_digit r1 = false).
  { revert Hd. unfold Re.digits1.
    destruct (Re.span_digits r0) as [d' r'] eqn:Hs.
    apply span_digits_rest in Hs. destruct d'; [done|]. by intros [= <- <-]. }
  apply digits1_app in Hd as [-> Hd]. by exists r1.
Qed.

(** X5.  [parse_ppageno] gives [None] exactly when no marker has a digit
    right after it.  A page number it gives is the value, not negative,
    of the whole run of digits after a marker, a run of no more digits
    than [int] converts; and it raises only [ValueError], and only on a
    marker followed by a longer run. *)
Theorem parse_ppageno_resolves (title : string) :
  (parse_ppageno title = Ok None
   <-> ~ exists pre rest,
           title = pre +:+ "ppageno " +:+ rest
           /\ Re.starts_with_digit rest = true) /\
  (forall n,
     parse_ppageno title = Ok (Some n) ->
     (0 <= n)%Z /\
     exists pre digits rest,
       title = pre +:+ "ppageno " +:+ digits +:+ rest
       /\ PyStr.isdecimal digits = true /\ Re.starts_with_digit rest = false
       /\ (Z.of_nat (String.length digits) <= PyStr.int_max_str_digits)%Z
       /\ n = PyStr.decimal_value digits) /\
  (forall e,
     parse_ppageno title = Raise e ->
     e = ValueError /\
     exists pre digits rest,
       title = pre +:+ "ppageno " +:+ digits +:+ rest
       /\ PyStr.isdecimal digits = true /\ Re.starts_with_digit rest = false
       /\ (PyStr.int_max_str_digits < Z.of_nat (String.length digits))%Z).
Proof.
  assert (Hmatch : is_Some (Re.search match_ppageno title)
                   <-> exists pre rest,
                         title = pre +:+ "ppageno " +:+ rest
                         /\ Re.starts_with_digit rest = true).
  { rewrite search_is_Some. unfold match_ppageno. split.
    - intros (pre & suf & -> & Hm). exists pre.
      apply (marker_digits_is_Some "ppageno " (fun n _ => Some n)) in Hm; [|done].
      destruct Hm as (rest & -> & Hd). by exists rest.
    - intros (pre & rest & -> & Hd). exists pre, ("ppageno " +:+ rest).
      split; [done|].
      apply (marker_digits_is_Some "ppageno " (fun n _ => Some n));
        [done | by exists rest]. }
  unfold parse_ppageno.
  destruct (Re.search match_ppageno title) as [digits|] eqn:Hs.
  - apply search_app in Hs as (pre & suf & -> & Hm).
    apply match_ppageno_app in Hm as (rest & -> & Hd & Hrest).
    split; [|split].
    + split.
      * by destruct (PyStr.int digits).
      * intros Hno. exfalso. apply Hno, Hmatch. by eexists.
    + intros n. destruct (PyStr.int digits) as [v|] eqn:Hint; [|done].
      cbn [rbind]. intros [= <-].
      apply int_decimal_Ok in Hint as (-> & Hn & Hlen); [|done].
      split; [done|]. by exists pre, digits, rest.
    + intros e. destruct (PyStr.int digits) as [v|e'] eqn:Hint; [done|].
      cbn [rbind]. intros [= <-].
      apply int_decimal_Raise in Hint as [-> Hlen]; [|done].
      split; [done|]. by exists pre, digits, rest.
  - split; [|by split].
    split; [|done]. intros _ Hex. apply Hmatch in Hex. by destruct Hex.
Qed.

(** ** The confidence threshold *)

(** X6.  With at most 14 digits after the point, comparing the double with 90
    is comparing the literal with 90: the token is let through exactly
    when the literal is above 90. *)
Theorem float_le_90_exact (c : confidence) :
  (exponent c <= 14)%nat ->
  (float_le_90 c = false <-> above 90 c).
Proof.
  destruct c as [m e]. unfold float_le_90, above. cbn [exponent coefficient].
  intros He. rewrite Z.leb_gt. change (2 ^ 47)%Z with 140737488355328%Z.
  do 15 (destruct e as [|e];
         [match goal with
          | |- context [(10 ^ Z.of_nat ?k)%Z] =>
              let v := eval vm_compute in (10 ^ Z.of_nat k)%Z in
              change (10 ^ Z.of_nat k)%Z with v
          end; lia|]).
  lia.
Qed.

(** ** [parse_image_path]: only the file name *)

Lemma split_on_pieces (sep : ascii) (s : string) :
  Forall (fun piece => PyStr.has_char sep piece = false) (split_on sep s).
Proof.
  induction s as [|c s IH]; simpl; [by repeat constructor|].
  destruct (Ascii.eqb c sep) eqn:Hc; [by constructor|].
  destruct (split_on sep s) as [|h t]; [repeat constructor; simpl; by rewrite Hc|].
  apply Forall_cons in IH as [Hh Ht]. constructor; [|done]. simpl. by rewrite Hc, Hh.
Qed.

Lemma last_Forall {A : Type} (P : A -> Prop) (l : list A) (d : A) :
  P d -> Forall P l -> P (List.last l d).
Proof.
  intros Hd. induction 1 as [|x l Hx Hl IH]; [done|].
  simpl. by destruct l.
Qed.

Lemma path_name_plain (s : string) :
  PyStr.has_char "/" (path_name s) = false /\ path_name s <> ".".
Proof.
  unfold path_name.
  apply (last_Forall (fun n => PyStr.has_char "/" n = false /\ n <> ".")); [done|].
  pose proof (split_on_pieces "/" s) as H.
  induction H as [|x l Hx Hl IH]; simpl; [constructor|].
  destruct (String.eqb_spec x "."); simpl.
  - by rewrite orb_true_r.
  - rewrite orb_false_r. destruct (String.eqb x EmptyString); simpl; [done|].
    by constructor.
Qed.

(** X7.  The name [parse_image_path] returns holds no slash and is not the
    dot: no directory of the path in the OCR file comes with it. *)
Theorem parse_image_path_file_name (title name : string) :
  parse_image_path title = Some name ->
  PyStr.has_char "/" name = false /\ name <> ".".
Proof.
  unfold parse_image_path.
  destruct (Re.search match_image title) as [p|]; [|done].
  intros [= <-]. apply path_name_plain.
Qed.

Lemma split_on_nonempty (sep : ascii) (s : string) : split_on sep s <> [].
Proof.
  destruct s as [|c s]; simpl; [done|].
  destruct (Ascii.eqb c sep); [done|]. by destruct (split_on sep s).
Qed.

Lemma split_on_app (sep : ascii) (a b : string) :
  split_on sep (a +:+ String sep b) = split_on sep a ++ split_on sep b.
Proof.
  induction a as [|c a IH].
  - change (EmptyString +:+ String sep b) with (String sep b). simpl.
    by rewrite Ascii.eqb_refl.
  - rewrite string_app_cons. cbn [split_on]. rewrite IH.
    destruct (Ascii.eqb c sep); [done|].
    pose proof (split_on_nonempty sep a). by destruct (split_on sep a).
Qed.

Lemma split_on_plain (sep : ascii) (s : string) :
  PyStr.has_char sep s = false -> split_on sep s = [s].
Proof.
  induction s as [|c s IH]; simpl; [done|].
  intros [Hc Hs]%orb_false_iff. by rewrite Hc, (IH Hs).
Qed.

Lemma path_name_of_join (dir name : string) :
  PyStr.has_char "/" name = false -> name <> EmptyString -> name <> "." ->
  path_name (dir +:+ "/" +:+ name) = name.
Proof.
  intros Hs He Hd. unfold path_name.
  change ("/" +:+ name) with (String "/" name).
  rewrite split_on_app, (split_on_plain "/" name Hs), List.filter_app. simpl.
  destruct (String.eqb_spec name EmptyString); [done|].
  destruct (String.eqb_spec name "."); [done|]. simpl.
  by rewrite List.last_last.
Qed.

Lemma span_unquoted_app (p r : string) :
  PyStr.has_char dquote p = false ->
  span_unquoted (p +:+ String dquote r) = (p, String dquote r).
Proof.
  induction p as [|c p IH].
  - intros _. change (EmptyString +:+ String dquote r) with (String dquote r).
    cbn [span_unquoted]. by rewrite Ascii.eqb_refl.
  - rewrite string_app_cons. cbn [PyStr.has_char span_unquoted].
    intros [Hc Hp]%orb_false_iff. by rewrite Hc, (IH Hp).
Qed.

(** X8.  A title that begins with the image reference of a file in a
    directory gives the file name, whatever the directory and whatever
    follows the closing quote. *)
Theorem parse_image_path_of_reference (dir name rest : string) :
  PyStr.has_char dquote dir = false ->
  PyStr.has_char dquote name = false ->
  PyStr.has_char "/" name = false ->
  name <> EmptyString -> name <> "." ->
  parse_image_path ("image " +:+ quoted (dir +:+ "/" +:+ name) +:+ rest) = Some name.
Proof.
  intros Hqd Hqn Hs He Hd. unfold parse_image_path, quoted.
  set (p := dir +:+ "/" +:+ name).
  assert (Hp : PyStr.has_char dquote p = false).
  { unfold p. by rewrite !has_char_app, Hqd, Hqn. }
  assert (Hm : match_image ("image " +:+ (String dquote p +:+ String dquote EmptyString) +:+ rest)
               = Some p).
  { unfold match_image, Re.lit.
    replace ("image " +:+ (String dquote p +:+ String dquote EmptyString) +:+ rest)
      with (("image " +:+ String dquote EmptyString) +:+ (p +:+ String dquote rest)).
    2:{ by rewrite !string_app_assoc. }
    rewrite strip_prefix_of_app. cbn [mbind option_bind].
    rewrite (span_unquoted_app p rest Hp).
    assert (p <> EmptyString) by (unfold p; destruct dir; done).
    by destruct p. }
  assert (Re.search match_image
            ("image " +:+ (String dquote p +:+ String dquote EmptyString) +:+ rest)
          = Some p) as ->.
  { by apply search_head. }
  simpl. f_equal. by apply path_name_of_join.
Qed.

(** ** The scanner: its exceptions and the shape of its result *)

Section ScannerMore.

Variable word_to_num : string -> result w2n_value.

Lemma scan_event_outcome (before : list (string * word)) (st : scan_state)
      (e : string * word) :
  scan_inv word_to_num before st ->
  match word_error word_to_num before e with
  | Some err => scan_event word_to_num st e = Raise err
  | None => exists st', scan_event word_to_num st e = Ok st'
  end.
Proof.
  destruct st as [d seen], e as [i w]. intros [Hseen _ _ _].
  unfold word_error, scan_event, scan_word. cbn [fst snd] in *.
  destruct (truthy (Some (w_text w))) as [text|]; cbn [mbind option_bind];
    [|by eexists].
  destruct (extract_number_from_text word_to_num text) as [[n|]|err]; cbn [rbind];
    [|by eexists|done].
  destruct (decide (n ∈ seen)) as [Hn|Hn].
  { apply Hseen in Hn as [r ->]. by eexists. }
  destruct (first_qualifying word_to_num n before) as [r|] eqn:Hq.
  { exfalso. apply Hn, Hseen. by rewrite Hq. }
  destruct (truthy (w_title w)) as [t|]; cbn [mbind option_bind]; [|by eexists].
  destruct (parse_confidence t) as [c|]; cbn [mbind option_bind]; [|by eexists].
  destruct (float_le_90 c); [by eexists|].
  destruct (parse_bbox t) as [[b|]|err]; cbn [rbind]; [by eexists..|done].
Qed.

Lemma scan_events_outcome (es before : list (string * word)) (st : scan_state) :
  scan_inv word_to_num before st ->
  match first_error word_to_num before es with
  | Some err => for_each (scan_event word_to_num) st es = Raise err
  | None => exists st', for_each (scan_event word_to_num) st es = Ok st'
  end.
Proof.
  revert before st. induction es as [|e es IH]; intros before st Hinv;
    [by eexists|].
  cbn [first_error for_each].
  pose proof (scan_event_outcome before st e Hinv) as He.
  destruct (word_error word_to_num before e) as [err|].
  - by rewrite He.
  - destruct He as [st' He]. rewrite He. cbn [rbind].
    apply IH. by eapply scan_event_inv.
Qed.

(** X9.  The scan raises exactly when a word token of a page with a raster
    name makes the normalizer raise, or gets as far as its bounding box
    and makes [parse_bbox] raise; it then raises the exception of the
    first such token in document order, and otherwise it returns. *)
Theorem scan_raises_first_error (html : list page) :
  match first_error word_to_num [] (traversal html) with
  | Some err => extract_numbers_from_hocr word_to_num html = Raise err
  | None => exists d, extract_numbers_from_hocr word_to_num html = Ok d
  end.
Proof.
  unfold extract_numbers_from_hocr. rewrite scan_pages_events.
  pose proof (scan_events_outcome (traversal html) [] ([], ∅)
                (scan_inv_init word_to_num)) as H.
  destruct (first_error word_to_num [] (traversal html)) as [err|].
  - by rewrite H.
  - destruct H as [st' ->]. by eexists.
Qed.


Lemma dict_append_nonempty (k : string) (c : candidate) (d : image_dict) :
  lists_nonempty d -> lists_nonempty (dict_append k c d).
Proof.
  unfold lists_nonempty. induction 1 as [|[k' l] d Hl Hd IH]; simpl.
  - by repeat constructor.
  - destruct (String.eqb k k'); constructor; try done. simpl. by destruct l.
Qed.

Lemma scan_event_nonempty (st st' : scan_state) (e : string * word) :
  lists_nonempty st.1 -> scan_event word_to_num st e = Ok st' -> lists_nonempty st'.1.
Proof.
  destruct st as [d seen], e as [i w]. unfold scan_event, scan_word. cbn [fst snd].
  intros Hd.
  destruct (truthy (Some (w_text w))) as [text|]; [|by intros [= <-]].
  destruct (extract_number_from_text word_to_num text) as [[n|]|err]; cbn [rbind];
    [|by intros [= <-]|done].
  destruct (decide (n ∈ seen)); [by intros [= <-]|].
  destruct (truthy (w_title w)) as [t|]; [|by intros [= <-]].
  destruct (parse_confidence t) as [c|]; [|by intros [= <-]].
  destruct (float_le_90 c); [by intros [= <-]|].
  destruct (parse_bbox t) as [[b|]|err]; cbn [rbind]; [| |done];
    intros [= <-]; [|done]. by apply dict_append_nonempty.
Qed.

Lemma scan_events_nonempty (es : list (string * word)) (st st' : scan_state) :
  lists_nonempty st.1 ->
  for_each (scan_event word_to_num) st es = Ok st' -> lists_nonempty st'.1.
Proof.
  revert st. induction es as [|e es IH]; intros st Hd; simpl; [by intros [= <-]|].
  destruct (scan_event word_to_num st e) as [st1|] eqn:He; [|done]. simpl.
  apply IH. by eapply scan_event_nonempty.
Qed.

Lemma dict_get_item (i : string) (l : list candidate) (d : image_dict) :
  NoDup d.*1 -> (i, l) ∈ d -> dict_get i d = l.
Proof.
  induction d as [|[k l'] d IH]; csimpl; [by intros _ ?%elem_of_nil|].
  intros [Hk Hd]%NoDup_cons [[= -> ->]|Hin]%elem_of_cons.
  - by rewrite String.eqb_refl.
  - destruct (String.eqb_spec i k) as [->|]; [|by apply IH].
    exfalso. apply Hk. apply list_elem_of_fmap. by exists (k, l).
Qed.

(** X10.  What a returned dictionary looks like: the keys are distinct and
    are raster names of pages of the document, no key has an empty
    list, and every candidate has a value of 0..50000 and a box of
    non-negative coordinates. *)
Theorem scan_result_shape (html : list page) (d : image_dict) :
  extract_numbers_from_hocr word_to_num html = Ok d ->
  NoDup d.*1 /\
  forall i l, (i, l) ∈ d ->
    l <> [] /\
    (exists p, p ∈ html /\ resolved_image p = Some i) /\
    forall c, c ∈ l ->
      (0 <= number c <= 50000)%Z /\
      (0 <= (box c).1.1.1 /\ 0 <= (box c).1.1.2 /\ 0 <= (box c).1.2 /\ 0 <= (box c).2)%Z.
Proof.
  intros Hscan.
  assert (Hne : lists_nonempty d).
  { revert Hscan. unfold extract_numbers_from_hocr. rewrite scan_pages_events.
    destruct (for_each (scan_event word_to_num) ([], ∅) (traversal html))
      as [st|] eqn:Hs; [|done].
    intros [= <-]. eapply scan_events_nonempty; [|done]. constructor. }
  destruct (scan_result_inv word_to_num html d Hscan) as [seen [Hs Hd Hk Hv]].
  simpl in *. split; [done|]. intros i l Hil.
  assert (Hc : forall c, c ∈ l ->
            exists w, (i, w) ∈ traversal html
                      /\ qualifies word_to_num (number c) (i, w) = Some (i, box c)).
  { intros [v b] Hin. rewrite <- (dict_get_item i l d Hk Hil) in Hin.
    apply Hd, first_qualifying_elem in Hin as ([i' w] & Hin & Hq).
    pose proof (qualifies_gates word_to_num v i' i w b Hq) as [-> _]. by exists w. }
  split; [|split].
  - by apply (proj1 (Forall_forall _ _) Hne (i, l)).
  - destruct l as [|c l];
      [by destruct (proj1 (Forall_forall _ _) Hne (i, []) Hil)|].
    destruct (Hc c) as (w & Hin & _); [left|].
    apply traversal_elem in Hin as (p & Hp & Hi & _). by exists p.
  - intros c Hin. destruct (Hc c Hin) as (w & _ & Hq).
    apply qualifies_gates in Hq as (_ & Hn & t & cf & _ & _ & _ & Hb).
    split; [by eapply extract_number_from_text_range|].
    destruct (box c) as [[[x0 y0] x1] y1].
    by apply parse_bbox_nonneg in Hb.
Qed.

End ScannerMore.

(** ** The region extractor only adds files *)

Section ExtractorMore.

Variable word_to_num : string -> result w2n_value.
Variable region : Type.

Lemma created_trans (w w1 w2 : world region) (p : path) (x : region) :
  files w1 ⊆ files w2 -> created w w2 p x ->
  created w w1 p x \/ created w1 w2 p x.
Proof.
  intros Hsub [H2 H0]. destruct (files w1 !! p) as [y|] eqn:H1.
  - left. split; [|done]. rewrite H1.
    by rewrite (lookup_weaken _ _ _ _ H1 Hsub) in H2.
  - by right.
Qed.

Section OneBook.

Variable output_dir : path.
Variable book_name : string.

Lemma save_number_adds (image_name : string) (img : bbox -> result region)
      (acc : nat * nat) (c : candidate) (w w' : world region)
      (r : result (nat * nat)) :
  save_number output_dir book_name image_name img acc c w = (w', r) ->
  files w ⊆ files w' /\ stdout w' = stdout w /\
  (forall p x, created w w' p x ->
     p = output_path output_dir book_name image_name (number c)
     /\ img (box c) = Ok x) /\
  match r with
  | Ok acc' => size (files w') + acc.1 = size (files w) + acc'.1
  | Raise _ => True
  end.
Proof.
  destruct acc as [count skipped]. rewrite save_number_eq. unfold saved.
  case_bool_decide as Hc.
  - intros [= <- <-]. split; [done|]. split; [done|]. split; [|done].
    intros p x [H1 H2]. congruence.
  - apply eq_None_not_Some in Hc.
    destruct (img (box c)) as [x0|e] eqn:Himg; intros [= <- <-]; cbn [files stdout].
    + split; [by apply insert_subseteq|]. split; [done|]. split.
      * intros p x [H1 H2]. cbn [files] in H1.
        apply lookup_insert_Some in H1 as [[<- <-]|[_ H1]]; [done|congruence].
      * rewrite map_size_insert_None by done. simpl. lia.
    + split; [done|]. split; [done|]. split; [|done].
      intros p x [H1 H2]. congruence.
Qed.

Lemma save_numbers_adds (image_name : string) (img : bbox -> result region)
      (numbers : list candidate) (acc : nat * nat) (w w' : world region)
      (r : result (nat * nat)) :
  for_each_io (save_number output_dir book_name image_name img) acc numbers w
  = (w', r) ->
  files w ⊆ files w' /\ stdout w' = stdout w /\
  (forall p x, created w w' p x ->
     exists c, c ∈ numbers
       /\ p = output_path output_dir book_name image_name (number c)
       /\ img (box c) = Ok x) /\
  match r with
  | Ok acc' => size (files w') + acc.1 = size (files w) + acc'.1
  | Raise _ => True
  end.
Proof.
  revert acc w. induction numbers as [|c numbers IH]; intros acc w.
  - intros [= <- <-]. split; [done|]. split; [done|]. split; [|done].
    intros p x [H1 H2]. congruence.
  - cbn [for_each_io]. unfold bind at 1.
    destruct (save_number output_dir book_name image_name img acc c w)
      as [w1 [acc1|e]] eqn:H1.
    + apply save_number_adds in H1 as (Hs1 & Ho1 & Hn1 & Hc1).
      intros (Hs & Ho & Hn & Hc)%IH. split; [by etrans|]. split; [congruence|].
      split.
      * intros p x Hp.
        destruct (created_trans w w1 w' p x Hs Hp) as [Hq|Hq]; clear Hp; rename Hq into Hp.
        -- apply Hn1 in Hp as [-> Hx]. exists c. split; [left|done].
        -- apply Hn in Hp as (c' & Hin & Hp). exists c'. split; [by right|done].
      * destruct r as [acc'|]; [lia|done].
    + apply save_number_adds in H1 as (Hs1 & Ho1 & Hn1 & _).
      intros [= <- <-]. split; [done|]. split; [done|]. split; [|done].
      intros p x Hp. apply Hn1 in Hp as [-> Hx]. exists c. split; [left|done].
Qed.

Variable jp2_dir : jp2_directory region.

Lemma save_images_adds (d : image_dict) (acc : nat * nat) (w w' : world region)
      (r : result (nat * nat)) :
  for_each_io (save_image jp2_dir output_dir book_name) acc d w = (w', r) ->
  files w ⊆ files w' /\
  (forall p x, created w w' p x ->
     exists i l c img, (i, l) ∈ d /\ c ∈ l /\ jp2_dir i = Some (Ok img)
       /\ img (box c) = Ok x
       /\ p = output_path output_dir book_name i (number c)) /\
  match r with
  | Ok acc' =>
      size (files w') + acc.1 = size (files w) + acc'.1
      /\ stdout w' = stdout w ++ missing_warnings jp2_dir d
  | Raise _ => True
  end.
Proof.
  revert acc w. induction d as [|[i l] d IH]; intros acc w.
  - intros [= <- <-]. split; [done|]. split.
    + intros p x [H1 H2]. congruence.
    + split; [done|]. unfold missing_warnings. csimpl. by rewrite app_nil_r.
  - cbn [for_each_io]. unfold bind at 1, save_image at 1.
    unfold missing_warnings. csimpl. fold (missing_warnings jp2_dir d).
    destruct (jp2_dir i) as [[img|e]|] eqn:Hi.
    + unfold bind at 1, lift at 1.
      destruct (for_each_io (save_number output_dir book_name i img) acc l w)
        as [w1 [acc1|e1]] eqn:H1;
        apply save_numbers_adds in H1 as (Hs1 & Ho1 & Hn1 & Hc1).
      * intros (Hs & Hn & Hc)%IH. split; [by etrans|]. split.
        -- intros p x Hp.
           destruct (created_trans w w1 w' p x Hs Hp) as [Hq|Hq]; clear Hp; rename Hq into Hp.
           ++ apply Hn1 in Hp as (c & Hin & -> & Hx).
              exists i, l, c, img. split; [left|done].
           ++ apply Hn in Hp as (i' & l' & c & img' & Hin & Hp).
              exists i', l', c, img'. split; [by right|done].
        -- destruct r as [acc'|]; [|done]. destruct Hc as [Hc Ho].
           split; [lia|]. by rewrite Ho, Ho1.
      * intros [= <- <-]. split; [done|]. split; [|done].
        intros p x Hp. apply Hn1 in Hp as (c & Hin & -> & Hx).
        exists i, l, c, img. split; [left|done].
    + unfold bind at 1, lift at 1. intros [= <- <-]. split; [done|].
      split; [|done]. intros p x [H1 H2]. congruence.
    + unfold bind at 1, print at 1, ret at 1.
      intros (Hs & Hn & Hc)%IH. cbn [files stdout] in *. split; [done|]. split.
      * intros p x Hp. apply Hn in Hp as (i' & l' & c & img' & Hin & Hp).
        exists i', l', c, img'. split; [by right|done].
      * destruct r as [acc'|]; [|done]. destruct Hc as [Hc Ho].
        split; [done|]. by rewrite Ho, <- app_assoc.
Qed.

Variable hocr_path : hocr_file.

Lemma extract_and_save_numbers_adds (w w' : world region) (r : result nat) :
  extract_and_save_numbers word_to_num hocr_path jp2_dir output_dir book_name w
  = (w', r) ->
  files w ⊆ files w' /\
  (forall p x, created w w' p x ->
     exists html d i l c img,
       hocr_path = Ok html /\ extract_numbers_from_hocr word_to_num html = Ok d
       /\ (i, l) ∈ d /\ c ∈ l /\ jp2_dir i = Some (Ok img)
       /\ img (box c) = Ok x
       /\ p = output_path output_dir book_name i (number c)) /\
  match r with
  | Ok count =>
      size (files w') = size (files w) + count /\
      exists html d skipped,
        hocr_path = Ok html /\ extract_numbers_from_hocr word_to_num html = Ok d
        /\ count + skipped = covered jp2_dir d
        /\ stdout w'
           = stdout w ++ [Processing book_name] ++ missing_warnings jp2_dir d
               ++ [Completed book_name count skipped]
  | Raise _ => True
  end.
Proof.
  unfold extract_and_save_numbers. unfold bind at 1, print at 1.
  unfold bind at 1, lift at 1.
  destruct hocr_path as [html|e] eqn:Hh; cbn [rbind].
  2:{ intros [= <- <-]. split; [done|]. split; [|done].
      intros p x [H1 H2]. cbn [files] in H1. congruence. }
  destruct (extract_numbers_from_hocr word_to_num html) as [d|e] eqn:Hd.
  2:{ intros [= <- <-]. split; [done|]. split; [|done].
      intros p x [H1 H2]. cbn [files] in H1. congruence. }
  unfold bind at 1.
  set (w0 := World (files w) (stdout w ++ [Processing book_name])).
  destruct (for_each_io (save_image jp2_dir output_dir book_name) (0, 0) d w0)
    as [w1 [acc|e]] eqn:Hloop.
  - pose proof Hloop as Hcov. apply save_images_first in Hcov as (_ & _ & Hcov).
    apply save_images_adds in Hloop as (Hs & Hn & Hc & Ho).
    unfold bind at 1, print at 1, ret. intros [= <- <-]. subst w0.
    cbn [files stdout fst snd] in *. split; [done|]. split.
    + intros p x Hp. apply (Hn p x) in Hp as (i & l & c & img & Hp).
      by exists html, d, i, l, c, img.
    + split; [lia|]. exists html, d, acc.2. split; [done|]. split; [done|].
      split; [lia|]. rewrite Ho. by rewrite <- !app_assoc.
  - apply save_images_adds in Hloop as (Hs & Hn & _).
    intros [= <- <-]. subst w0. cbn [files] in *. split; [done|]. split; [|done].
    intros p x Hp. apply (Hn p x) in Hp as (i & l & c & img & Hp).
    by exists html, d, i, l, c, img.
Qed.

(** X11.  Whatever a run does, also when it ends in an exception, it only
    adds files: every file that was there is still there with the same
    content, and every file that is new is the artifact path of a
    candidate of the scan and holds the crop of its box from the raster
    of its image. *)
Theorem extract_and_save_numbers_only_adds (w w' : world region) (r : result nat) :
  extract_and_save_numbers word_to_num hocr_path jp2_dir output_dir book_name w
  = (w', r) ->
  files w ⊆ files w' /\
  forall p x, created w w' p x ->
    exists html d i l c img,
      hocr_path = Ok html /\ extract_numbers_from_hocr word_to_num html = Ok d
      /\ (i, l) ∈ d /\ c ∈ l /\ jp2_dir i = Some (Ok img)
      /\ img (box c) = Ok x
      /\ p = output_path output_dir book_name i (number c).
Proof.
  intros (Hs & Hn & _)%extract_and_save_numbers_adds. by split.
Qed.

(** X12.  A run that returns has created as many files as the count it
    returns; what it printed is the line of the start, one warning for
    each image without raster file in the order of the dictionary, and
    the line of the end, whose two numbers add up to the candidates of
    the images that have a raster file. *)
Theorem extract_and_save_numbers_report (w w' : world region) (count : nat) :
  extract_and_save_numbers word_to_num hocr_path jp2_dir output_dir book_name w
  = (w', Ok count) ->
  size (files w') = size (files w) + count /\
  exists html d skipped,
    hocr_path = Ok html /\ extract_numbers_from_hocr word_to_num html = Ok d
    /\ count + skipped = covered jp2_dir d
    /\ stdout w'
       = stdout w ++ [Processing book_name] ++ missing_warnings jp2_dir d
           ++ [Completed book_name count skipped].
Proof.
  by intros (_ & _ & H)%extract_and_save_numbers_adds.
Qed.

End OneBook.

End ExtractorMore.

(** ** The consumer: the height in a file name *)

Lemma span_digits_of (d r : string) :
  PyStr.all_chars PyStr.is_decimal d = true ->
  Re.starts_with_digit r = false ->
  Re.span_digits (d +:+ r) = (d, r).
Proof.
  intros Hd Hr. induction d as [|c d IH].
  - change (EmptyString +:+ r) with r. destruct r as [|c r]; [done|].
    simpl in *. by rewrite Hr.
  - rewrite string_app_cons. cbn [PyStr.all_chars] in Hd.
    apply andb_prop in Hd as [Hc Hd]. cbn [Re.span_digits]. by rewrite Hc, IH.
Qed.

Lemma digits1_of (d r : string) :
  PyStr.isdecimal d = true ->
  Re.starts_with_digit r = false ->
  Re.digits1 (d +:+ r) = Some (d, r).
Proof.
  intros Hd Hr. unfold Re.digits1. destruct d as [|c d]; [done|].
  by rewrite span_digits_of.
Qed.

Lemma at_end_cases (s : string) :
  at_end s = true -> s = EmptyString \/ s = String (ascii_of_N 10) EmptyString.
Proof.
  destruct s as [|c [|c' s]]; simpl; [by left| |done].
  intros ->%Ascii.eqb_eq. by right.
Qed.

Lemma match_height_app (s : string) (h : Z) :
  match_height s = Some h ->
  exists digits tail,
    s = "_h" +:+ digits +:+ ".png" +:+ tail /\ PyStr.isdecimal digits = true
    /\ at_end tail = true /\ h = PyStr.decimal_value digits.
Proof.
  unfold match_height, Re.lit.
  destruct (PyStr.strip_prefix "_h" s) as [r|] eqn:H0; [|done].
  cbn [mbind option_bind].
  destruct (Re.digits1 r) as [[d r1]|] eqn:Hd; [|done]. cbn [mbind option_bind].
  destruct (PyStr.strip_prefix ".png" r1) as [r2|] eqn:H1; [|done].
  cbn [mbind option_bind].
  destruct (at_end r2) eqn:He; [|done]. intros [= <-].
  apply strip_prefix_app in H0, H1. subst.
  apply digits1_app in Hd as [-> Hd]. by exists d, r2.
Qed.

(** Any stem followed by the suffix of a height gives that height. *)
Lemma height_of_name_suffix (stem : string) (h : Z) :
  (0 <= h)%Z ->
  height_of_name (stem +:+ "_h" +:+ PyStr.str_of_int h +:+ ".png") = Ok h.
Proof.
  intros Hh. unfold height_of_name.
  change ("_h" +:+ PyStr.str_of_int h +:+ ".png")
    with (String "_" ("h" +:+ PyStr.str_of_int h +:+ ".png")).
  rewrite search_height_prefix.
  rewrite (search_head _ _ h); [done|].
  unfold match_height, Re.lit.
  change (String "_" ("h" +:+ PyStr.str_of_int h +:+ ".png"))
    with ("_h" +:+ (PyStr.str_of_int h +:+ ".png")).
  rewrite strip_prefix_of_app. cbn [mbind option_bind].
  rewrite digits1_of; [|by apply str_of_int_isdecimal|done].
  cbn [mbind option_bind].
  change (PyStr.strip_prefix ".png" ".png") with (Some EmptyString).
  cbn [mbind option_bind at_end]. by rewrite str_of_int_value.
Qed.

(** A height that is read comes from such a suffix, the name ending
    there or in one newline. *)
Lemma height_of_name_shape (image_name : string) (h : Z) :
  height_of_name image_name = Ok h ->
  (0 <= h)%Z /\
  exists stem digits tail,
    image_name = stem +:+ "_h" +:+ digits +:+ ".png" +:+ tail
    /\ PyStr.isdecimal digits = true /\ h = PyStr.decimal_value digits
    /\ (tail = EmptyString \/ tail = String (ascii_of_N 10) EmptyString).
Proof.
  unfold height_of_name.
  destruct (Re.search match_height image_name) as [z|] eqn:Hs; [|done].
  intros [= ->].
  apply search_app in Hs as (stem & suf & -> & Hm).
  apply match_height_app in Hm as (digits & tail & -> & Hd & He & ->).
  split; [by apply decimal_value_nonneg|].
  exists stem, digits, tail. split; [done|]. split; [done|]. split; [done|].
  by apply at_end_cases.
Qed.

(** X14.  [get_image_for_number] looks at the first file the listing gives
    and at no other.  With an empty listing it raises
    [FileNotFoundError]; with a first file named by the convention
    (any stem, then the height suffix) it returns that file and the
    height, whatever follows in the listing; and whenever it returns,
    the file is the first listed, its name ends in a height suffix (or
    in one newline after it) and the height is the value of its digits. *)
Theorem get_image_for_number_first_listed
    (glob_png : path -> list string) (number : Z) (numbers_dir : path) :
  let number_dir := numbers_dir ++ [PyStr.str_of_int number] in
  (glob_png number_dir = [] ->
   get_image_for_number glob_png number numbers_dir = Raise FileNotFoundError) /\
  (forall stem h more,
     (0 <= h)%Z ->
     glob_png number_dir
     = (stem +:+ "_h" +:+ PyStr.str_of_int h +:+ ".png") :: more ->
     get_image_for_number glob_png number numbers_dir
     = Ok (number_dir ++ [stem +:+ "_h" +:+ PyStr.str_of_int h +:+ ".png"], h)) /\
  (forall image_path h,
     get_image_for_number glob_png number numbers_dir = Ok (image_path, h) ->
     (0 <= h)%Z /\
     exists stem digits tail,
       head (glob_png number_dir)
       = Some (stem +:+ "_h" +:+ digits +:+ ".png" +:+ tail)
       /\ image_path = number_dir ++ [stem +:+ "_h" +:+ digits +:+ ".png" +:+ tail]
       /\ PyStr.isdecimal digits = true /\ h = PyStr.decimal_value digits
       /\ (tail = EmptyString \/ tail = String (ascii_of_N 10) EmptyString)).
Proof.
  intros number_dir. unfold get_image_for_number. fold number_dir.
  split; [by intros ->|]. split.
  - intros stem h more Hh ->. by rewrite (height_of_name_suffix stem h Hh).
  - intros image_path h. destruct (glob_png number_dir) as [|image_name more]; [done|].
    destruct (height_of_name image_name) as [z|] eqn:Hz; [|done].
    intros [= <- <-].
    apply height_of_name_shape in Hz as (Hz & stem & digits & tail & -> & Hd).
    split; [done|]. by exists stem, digits, tail.
Qed.

(** ** The columns of a page *)


Section Layout.

Variable num_columns target_height : Z.

Lemma heights_snoc (items : list (Z * Z * path)) (item : Z * Z * path) :
  heights (items ++ [item]) = (heights items + height_of item)%Z.
Proof. induction items as [|i items IH]; simpl; [lia|]. rewrite IH. lia. Qed.

Lemma concat_without_heights (runs : list (list (Z * Z * path))) :
  concat (without_heights <$> runs) = without_heights (concat runs).
Proof.
  induction runs as [|run runs IH]; [done|]. csimpl. rewrite IH.
  unfold without_heights. by rewrite fmap_app.
Qed.


Lemma layout_init :
  (1 <= num_columns)%Z ->
  layout num_columns target_height [] (Distribution (replicate (Z.to_nat num_columns) []) 0 0 0) [] []
         (Z.to_nat num_columns - 1).
Proof.
  intros HN. split; simpl; try done.
  - change ([] :: replicate (Z.to_nat num_columns - 1) [])
      with (replicate (S (Z.to_nat num_columns - 1)) ([] : list (Z * path))).
    f_equal. lia.
  - lia.
  - constructor; [right; simpl; lia | constructor].
Qed.

Lemma place_layout (placed : list (Z * Z * path)) (st : distribution)
      (filled : list (list (Z * Z * path))) (current : list (Z * Z * path))
      (free : nat) (item : Z * Z * path) :
  layout num_columns target_height placed st filled current free ->
  match place num_columns target_height st item with
  | Ok (Next st') =>
      exists filled' current' free',
        layout num_columns target_height (placed ++ [item]) st' filled' current' free'
  | Ok (Break st') =>
      st' = st /\ free = 0
      /\ (target_height < heights current + height_of item)%Z
  | Raise _ => False
  end.
Proof.
  intros [Hc Hi Hn Hh Hu Hp Hf Hg]. destruct item as [[number height] image_path].
  unfold place. rewrite Hh, Hi.
  destruct (Z.ltb_spec target_height (heights current + height)) as [Hover|Hfit].
  - destruct (Z.leb_spec (num_columns - 1) (Z.of_nat (length filled))) as [Hlast|Hmore].
    + split; [done|]. split; [lia|done].
    + destruct free as [|free]; [lia|].
      rewrite Hc.
      assert (Hlook : ((without_heights <$> filled)
                         ++ without_heights current :: replicate (S free) [])
                        !! S (length filled) = Some []).
      { rewrite lookup_app_r; rewrite length_fmap; [|lia].
        by replace (S (length filled) - length filled) with 1 by lia. }
      rewrite Hlook.
      exists (filled ++ [current]), [(number, height, image_path)], free.
      split; cbn [columns current_column_idx current_height numbers_used].
      * rewrite insert_app_r_alt; rewrite length_fmap; [|lia].
        replace (S (length filled) - length filled) with 1 by lia.
        rewrite fmap_app. simpl. by rewrite <- app_assoc.
      * rewrite length_app. simpl. lia.
      * rewrite length_app. simpl. lia.
      * simpl. unfold height_of. simpl. lia.
      * rewrite length_app. simpl. lia.
      * rewrite concat_app. simpl. rewrite app_nil_r. by rewrite Hp.
      * apply Forall_app. split; [done|].
        constructor; [right; simpl; lia | constructor].
      * intros k run run' Hk Hk'.
        destruct (decide (S k < length (filled ++ [current]))) as [Hlt|Hge].
        -- rewrite lookup_app_l in Hk by lia. rewrite lookup_app_l in Hk' by lia.
           by apply (Hg k).
        -- assert (Hlen : length (filled ++ [current]) = S (length filled))
             by (rewrite length_app; simpl; lia).
           assert (k = length filled) as ->.
           { apply lookup_lt_Some in Hk'. rewrite length_app in Hk'. simpl in Hk'. lia. }
           rewrite lookup_app_l in Hk by lia.
           rewrite lookup_app_r in Hk by (rewrite length_fmap || idtac; lia).
           replace (length filled - length filled) with 0 in Hk by lia.
           injection Hk as <-.
           rewrite lookup_app_r in Hk' by lia.
           replace (S (length filled) - length (filled ++ [current])) with 0 in Hk' by lia.
           injection Hk' as <-. exists (number, height, image_path), []. by split.
  - rewrite Hc.
    assert (Hlook : ((without_heights <$> filled)
                       ++ without_heights current :: replicate free [])
                      !! length filled = Some (without_heights current)).
    { rewrite lookup_app_r; rewrite length_fmap; [|lia].
      by replace (length filled - length filled) with 0 by lia. }
    rewrite Hlook.
    exists filled, (current ++ [(number, height, image_path)]), free.
    split; cbn [columns current_column_idx current_height numbers_used].
    + rewrite insert_app_r_alt; rewrite length_fmap; [|lia].
      replace (length filled - length filled) with 0 by lia.
      simpl. unfold without_heights. by rewrite fmap_app.
    + done.
    + done.
    + by rewrite heights_snoc.
    + rewrite length_app. simpl. lia.
    + by rewrite app_assoc, Hp.
    + apply Forall_app in Hf as [Hf1 Hf2]. apply Forall_app. split; [done|].
      constructor; [left | constructor].
      rewrite heights_snoc. unfold height_of. simpl. lia.
    + intros k run run' Hk Hk'.
      destruct (decide (S k < length filled)) as [Hlt|Hge].
      * rewrite lookup_app_l in Hk by lia. rewrite lookup_app_l in Hk' by lia.
        apply (Hg k); by rewrite lookup_app_l by lia.
      * assert (S k = length filled) as Hk1.
        { apply lookup_lt_Some in Hk'. rewrite length_app in Hk'. simpl in Hk'. lia. }
        rewrite lookup_app_l in Hk by lia.
        rewrite lookup_app_r in Hk' by lia.
        replace (S k - length filled) with 0 in Hk' by lia. injection Hk' as <-.
        destruct (Hg k run current) as (item & rest & -> & Hlt).
        -- by rewrite lookup_app_l by lia.
        -- rewrite lookup_app_r by lia. by replace (S k - length filled) with 0 by lia.
        -- exists item, (rest ++ [(number, height, image_path)]). by split.
Qed.

Lemma for_each_break_layout (l placed : list (Z * Z * path)) (st : distribution)
      (filled : list (list (Z * Z * path))) (current : list (Z * Z * path))
      (free : nat) :
  layout num_columns target_height placed st filled current free ->
  exists st' k filled' current' free',
    for_each_break (place num_columns target_height) st l = Ok st' /\
    k <= length l /\
    layout num_columns target_height (placed ++ take k l) st' filled' current' free' /\
    forall item, l !! k = Some item ->
      free' = 0 /\ (target_height < heights current' + height_of item)%Z.
Proof.
  revert placed st filled current free.
  induction l as [|item l IH]; intros placed st filled current free Hl.
  - exists st, 0, filled, current, free. split; [done|]. split; [done|].
    split; [by rewrite app_nil_r|]. done.
  - cbn [for_each_break].
    pose proof (place_layout placed st filled current free item Hl) as Hstep.
    destruct (place num_columns target_height st item) as [[st1|st1]|e];
      cbn [rbind]; [| |done].
    + destruct Hstep as (filled1 & current1 & free1 & Hl1).
      destruct (IH _ _ _ _ _ Hl1) as (st' & k & filled' & current' & free' & Hr & Hk & Hl' & Hstop).
      exists st', (S k), filled', current', free'. split; [done|].
      split; [simpl; lia|]. split; [|done].
      by rewrite <- app_assoc in Hl'.
    + destruct Hstep as (-> & Hfree & Hover).
      exists st, 0, filled, current, free. split; [done|]. split; [simpl; lia|].
      split; [by rewrite app_nil_r|]. by intros ? [= <-].
Qed.

End Layout.

Section Distribution.

Variable num_columns target_height : Z.

Lemma distribute_layout (numbers_with_heights : list (Z * Z * path)) :
  (1 <= num_columns)%Z ->
  exists st k filled current free,
    distribute_numbers_to_columns numbers_with_heights num_columns target_height
    = Ok (columns st, numbers_used st) /\
    k <= length numbers_with_heights /\
    layout num_columns target_height (take k numbers_with_heights) st
           filled current free /\
    (forall item, numbers_with_heights !! k = Some item ->
       free = 0 /\ (target_height < heights current + height_of item)%Z) /\
    ((2 <= num_columns)%Z -> numbers_with_heights <> [] -> 1 <= k).
Proof.
  intros HN. unfold distribute_numbers_to_columns.
  destruct (for_each_break_layout num_columns target_height numbers_with_heights
              [] _ _ _ _ (layout_init num_columns target_height HN))
    as (st & k & filled & current & free & -> & Hk & Hl & Hstop).
  exists st, k, filled, current, free. split; [done|]. split; [done|].
  split; [done|]. split; [done|].
  intros HN2 Hne. destruct k as [|k]; [|lia]. exfalso.
  destruct numbers_with_heights as [|item more]; [done|].
  destruct Hl as [_ _ Hn _ _ Hp _ Hg].
  destruct (Hstop item eq_refl) as [-> _]. simpl in Hp.
  destruct filled as [|run filled]; [simpl in Hn; lia|].
  destruct (Hg 0 run (default current (head filled))) as (i & rest & Hrun & _);
    [done|by destruct filled|].
  apply app_eq_nil in Hp as [Hp ->]. simpl in Hp.
  apply app_eq_nil in Hp as [-> Hp].
  destruct filled as [|run' filled]; [done|]. simpl in *.
  by apply app_eq_nil in Hp as [-> _].
Qed.

(** Without a column, nothing can be placed: the loop stops at a first
    item that is too high and fails on one that is not. *)
Lemma distribute_no_columns (numbers_with_heights : list (Z * Z * path)) :
  (num_columns <= 0)%Z ->
  distribute_numbers_to_columns numbers_with_heights num_columns target_height
  = match numbers_with_heights with
    | [] => Ok ([], 0)
    | item :: _ =>
        if (target_height <? height_of item)%Z then Ok ([], 0)
        else Raise IndexError
    end.
Proof.
  intros HN. unfold distribute_numbers_to_columns.
  replace (Z.to_nat num_columns) with 0 by lia.
  destruct numbers_with_heights as [|[[number height] image_path] l]; [done|].
  cbn [for_each_break]. unfold place. cbn [current_height current_column_idx columns].
  unfold height_of. cbn [fst snd]. rewrite Z.add_0_l.
  destruct (Z.ltb_spec target_height height); [|done].
  by destruct (Z.leb_spec (num_columns - 1) (Z.of_nat 0)); [|lia].
Qed.

(** X15.  With at least one column the distribution never fails: it returns
    as many columns as asked for and a count that is at most the number
    of items. *)
Theorem distribute_returns_columns (numbers_with_heights : list (Z * Z * path)) :
  (1 <= num_columns)%Z ->
  exists columns used,
    distribute_numbers_to_columns numbers_with_heights num_columns target_height
    = Ok (columns, used) /\
    length columns = Z.to_nat num_columns /\
    used <= length numbers_with_heights.
Proof.
  intros (st & k & filled & current & free & -> & Hk & [Hc _ Hn _ Hu _ _ _] & _)%(distribute_layout numbers_with_heights).
  exists (columns st), (numbers_used st). split; [done|]. split.
  - rewrite Hc, length_app, length_fmap. simpl. rewrite length_replicate. lia.
  - rewrite Hu, length_take. lia.
Qed.

(** X16.  Called without a column (a count of 0 or below), the distribution
    raises [IndexError] as soon as the first item is not higher than
    the target. *)
Theorem distribute_no_column_raises
    (number height : Z) (image_path : path) (more : list (Z * Z * path)) :
  (num_columns <= 0)%Z -> (height <= target_height)%Z ->
  distribute_numbers_to_columns ((number, height, image_path) :: more)
    num_columns target_height
  = Raise IndexError.
Proof.
  intros HN Hh. rewrite distribute_no_columns by done. unfold height_of. simpl.
  by destruct (Z.ltb_spec target_height height); [lia|].
Qed.

(** X17.  The columns, read one after the other, hold the first [used] items
    in the order they were given: none is left out, repeated or moved. *)
Theorem distribute_keeps_order (numbers_with_heights : list (Z * Z * path))
        (columns : list (list (Z * path))) (used : nat) :
  distribute_numbers_to_columns numbers_with_heights num_columns target_height
  = Ok (columns, used) ->
  used <= length numbers_with_heights /\
  concat columns = without_heights (take used numbers_with_heights).
Proof.
  destruct (Z.le_gt_cases 1 num_columns) as [HN|HN].
  - destruct (distribute_layout numbers_with_heights HN)
      as (st & k & filled & current & free & -> & Hk & [Hc _ _ _ Hu Hp _ _] & _).
    intros [= <- <-]. rewrite length_take in Hu.
    replace (numbers_used st) with k by lia. split; [done|].
    rewrite Hc, concat_app. simpl.
    assert (Hempty : forall n, concat (replicate n ([] : list (Z * path))) = []).
    { induction n; [done|]. simpl. done. }
    rewrite Hempty, app_nil_r, <- Hp, concat_without_heights.
    unfold without_heights. by rewrite fmap_app.
  - rewrite distribute_no_columns by lia.
    destruct numbers_with_heights as [|item l]; [by intros [= <- <-]|].
    destruct (target_height <? height_of item)%Z; [|done].
    intros [= <- <-]. split; [simpl; lia|done].
Qed.

(** X18.  The distribution is greedy.  The columns are consecutive runs of
    the items, then columns left empty.  A run is within the target
    height unless it is a single item (an item higher than the target
    is put into a column of its own); every run after the first starts
    with an item that would have brought the run before it over the
    target; and when items are left over, no column is left empty and
    the first item left over would bring the last one over the target. *)
Theorem distribute_fills_greedily (numbers_with_heights : list (Z * Z * path))
        (columns : list (list (Z * path))) (used : nat) :
  (1 <= num_columns)%Z ->
  distribute_numbers_to_columns numbers_with_heights num_columns target_height
  = Ok (columns, used) ->
  exists filled current free,
    columns = (without_heights <$> filled)
                ++ without_heights current :: replicate free [] /\
    concat filled ++ current = take used numbers_with_heights /\
    Forall (fun run => (heights run <= target_height)%Z \/ length run <= 1)
           (filled ++ [current]) /\
    (forall k run run',
       (filled ++ [current]) !! k = Some run ->
       (filled ++ [current]) !! S k = Some run' ->
       exists item rest,
         run' = item :: rest
         /\ (target_height < heights run + height_of item)%Z) /\
    (forall item,
       numbers_with_heights !! used = Some item ->
       free = 0 /\ (target_height < heights current + height_of item)%Z).
Proof.
  intros HN.
  destruct (distribute_layout numbers_with_heights HN)
    as (st & k & filled & current & free & -> & Hk & [Hc _ _ _ Hu Hp Hf Hg] & Hstop & _).
  intros [= <- <-]. rewrite length_take in Hu.
  replace (numbers_used st) with k by lia.
  by exists filled, current, free.
Qed.

(** X19.  With two columns or more the first item is always placed, however
    high it is; with a single column (or none) a first item higher than
    the target stops the distribution before anything is placed. *)
Theorem distribute_places_first
    (item : Z * Z * path) (more : list (Z * Z * path)) :
  ((2 <= num_columns)%Z ->
   exists columns used,
     distribute_numbers_to_columns (item :: more) num_columns target_height
     = Ok (columns, used) /\ 1 <= used) /\
  ((num_columns <= 1)%Z -> (target_height < height_of item)%Z ->
   distribute_numbers_to_columns (item :: more) num_columns target_height
   = Ok (replicate (Z.to_nat num_columns) [], 0)).
Proof.
  split.
  - intros HN.
    destruct (distribute_layout (item :: more) ltac:(lia))
      as (st & k & filled & current & free & -> & Hk & Hl & _ & Hfirst).
    exists (columns st), (numbers_used st). split; [done|].
    destruct Hl as [_ _ _ _ Hu _ _ _]. rewrite Hu, length_take.
    specialize (Hfirst HN ltac:(done)). lia.
  - intros HN Hh. unfold distribute_numbers_to_columns.
    destruct item as [[number height] image_path]. unfold height_of in Hh.
    cbn [for_each_break]. unfold place.
    cbn [current_height current_column_idx columns fst snd] in *.
    rewrite Z.add_0_l.
    destruct (Z.ltb_spec target_height height); [|lia].
    by destruct (Z.leb_spec (num_columns - 1) (Z.of_nat 0)); [|lia].
Qed.

End Distribution.

(** ** The pages *)


Section PagesFacts.

Variable glob_png : path -> list string.
Variable absolute : path -> string.
Variable numbers_dir : path.


Lemma collect_heights (numbers : list Z) (acc : list (Z * Z * path)) :
  match first_image_error glob_png numbers_dir numbers with
  | Some e => for_each (collect_height glob_png numbers_dir) acc numbers = Raise e
  | None =>
      exists items,
        for_each (collect_height glob_png numbers_dir) acc numbers
        = Ok (acc ++ items)
        /\ collected glob_png numbers_dir numbers items
  end.
Proof.
  revert acc. induction numbers as [|number numbers IH]; intros acc.
  - exists []. split; [by rewrite app_nil_r | constructor].
  - cbn [first_image_error].
    destruct (get_image_for_number glob_png number numbers_dir)
      as [[image_path height]|e] eqn:Hg.
    + assert (Hstep :
        for_each (collect_height glob_png numbers_dir) acc (number :: numbers)
        = for_each (collect_height glob_png numbers_dir)
            (acc ++ [(number, height, image_path)]) numbers).
      { cbn [for_each]. unfold collect_height at 1. by rewrite Hg. }
      rewrite Hstep. specialize (IH (acc ++ [(number, height, image_path)])).
      destruct (first_image_error glob_png numbers_dir numbers) as [e|]; [done|].
      destruct IH as (items & -> & Hitems).
      exists ((number, height, image_path) :: items).
      split; [by rewrite <- app_assoc|]. by constructor.
    + cbn [for_each]. unfold collect_height at 1. by rewrite Hg.
Qed.

Lemma length_range (start stop : Z) :
  length (range start stop) = Z.to_nat (stop - start).
Proof. unfold range. by rewrite length_fmap, length_seq. Qed.

Lemma build_page_parts_outcome (start_number max_count : Z) :
  match first_image_error glob_png numbers_dir
          (range start_number (start_number + max_count)) with
  | Some e =>
      build_page_parts glob_png absolute numbers_dir start_number max_count
      = Raise e
  | None =>
      exists items filled current free parts used,
        collected glob_png numbers_dir (range start_number (start_number + max_count)) items /\
        build_page_parts glob_png absolute numbers_dir start_number max_count
        = Ok (parts, used) /\
        parts
        = foldl (column_html absolute)
            (get_html_style ++ ["    <div class=" +:+ quoted "container" +:+ ">"])
            ((without_heights <$> filled)
               ++ without_heights current :: replicate free [])
            ++ ["    </div>"; "</body>"; "</html>"] /\
        concat filled ++ current = take used items /\
        used <= Z.to_nat max_count /\
        ((1 <= max_count)%Z -> 1 <= used)
  end.
Proof.
  unfold build_page_parts.
  pose proof (collect_heights (range start_number (start_number + max_count)) [])
    as Hc.
  destruct (first_image_error glob_png numbers_dir
              (range start_number (start_number + max_count))) as [e|];
    [by rewrite Hc|].
  destruct Hc as (items & -> & Hitems). cbn [rbind]. rewrite app_nil_l.
  destruct (distribute_layout GRID_COLUMNS COLUMN_TARGET_HEIGHT_PX items)
    as (st & k & filled & current & free & -> & Hk & [Hcol _ _ _ Hu Hp _ _] & _ & Hfirst);
    [done|].
  cbn [rbind]. rewrite length_take in Hu.
  assert (Hlen : length items = Z.to_nat max_count).
  { rewrite <- (Forall2_length _ _ _ Hitems), length_range. f_equal. lia. }
  exists items, filled, current, free. eexists _, (numbers_used st).
  split; [done|]. split; [done|]. rewrite Hcol. split; [done|].
  replace (numbers_used st) with k by lia. split; [done|]. split; [lia|].
  intros Hmax. apply Hfirst; [done|]. intros ->. simpl in Hlen. lia.
Qed.

(** X20.  A page needs the image of every number it was asked to try, also of
    those that will not fit: [build_page_html] raises the exception of
    the first number of the range whose image cannot be taken, and
    otherwise returns a page and a count that is at most [max_count]
    and, when [max_count] is positive, at least 1. *)
Theorem build_page_html_outcome (start_number max_count : Z) :
  match first_image_error glob_png numbers_dir
          (range start_number (start_number + max_count)) with
  | Some e =>
      build_page_html glob_png absolute numbers_dir start_number max_count
      = Raise e
  | None =>
      exists html_content numbers_used,
        build_page_html glob_png absolute numbers_dir start_number max_count
        = Ok (html_content, numbers_used) /\
        numbers_used <= Z.to_nat max_count /\
        ((1 <= max_count)%Z -> 1 <= numbers_used)
  end.
Proof.
  unfold build_page_html.
  pose proof (build_page_parts_outcome start_number max_count) as H.
  destruct (first_image_error glob_png numbers_dir
              (range start_number (start_number + max_count))) as [e|];
    [by rewrite H|].
  destruct H as (items & filled & current & free & parts & used & _ & -> & _ & _ & Hu).
  cbn [rbind fst snd]. by eexists _, used.
Qed.

Lemma style_has_no_image_line :
  filter (fun line => is_image_line line = true)
         (get_html_style ++ ["    <div class=" +:+ quoted "container" +:+ ">"])
  = [].
Proof. vm_compute. reflexivity. Qed.

Lemma item_html_images (column : list (Z * Z * path)) (parts : list string) :
  filter (fun line => is_image_line line = true)
         (foldl (item_html absolute) parts (without_heights column))
  = filter (fun line => is_image_line line = true) parts
      ++ (image_line absolute <$> column).
Proof.
  revert parts. induction column as [|[[number height] image_path] column IH];
    intros parts; [by rewrite app_nil_r|].
  cbn [without_heights fmap list_fmap foldl]. fold (without_heights column).
  rewrite IH. unfold item_html, without_height. cbn [fst snd].
  rewrite filter_app, <- app_assoc. f_equal.
Qed.

Lemma column_html_filled (column : list (Z * path)) (parts : list string) :
  column <> [] ->
  column_html absolute parts column
  = foldl (item_html absolute)
      (parts ++ ["        <div class=" +:+ quoted "column" +:+ ">"]) column
      ++ ["        </div>"].
Proof. by destruct column. Qed.

Lemma column_html_images (runs : list (list (Z * Z * path))) (parts : list string) :
  filter (fun line => is_image_line line = true)
         (foldl (column_html absolute) parts (without_heights <$> runs))
  = filter (fun line => is_image_line line = true) parts
      ++ (image_line absolute <$> concat runs).
Proof.
  revert parts. induction runs as [|run runs IH]; intros parts;
    [by rewrite app_nil_r|].
  cbn [fmap list_fmap foldl concat]. fold (fmap without_heights runs). rewrite IH.
  rewrite fmap_app, app_assoc. f_equal.
  destruct run as [|item run]; [by rewrite app_nil_r|].
  rewrite column_html_filled by done.
  by rewrite filter_app, item_html_images, filter_app, !app_nil_r.
Qed.

Lemma column_html_empty (free : nat) (parts : list string) :
  foldl (column_html absolute) parts (replicate free []) = parts.
Proof. induction free as [|free IH]; [done|]. simpl. apply IH. Qed.

(** X21.  The image lines of a page, from top to bottom, are those of the
    numbers [start_number], [start_number + 1], ... up to the count the
    page reports, each with the first image listed for it: the page
    shows exactly the numbers it counts, in order. *)
Theorem build_page_html_images (start_number max_count : Z)
        (html_content : string) (numbers_used : nat) :
  build_page_html glob_png absolute numbers_dir start_number max_count
  = Ok (html_content, numbers_used) ->
  exists parts items,
    html_content = join (String (ascii_of_N 10) EmptyString) parts /\
    collected glob_png numbers_dir (range start_number (start_number + max_count)) items /\
    filter (fun line => is_image_line line = true) parts
    = image_line absolute <$> take numbers_used items.
Proof.
  unfold build_page_html.
  pose proof (build_page_parts_outcome start_number max_count) as H.
  destruct (first_image_error glob_png numbers_dir
              (range start_number (start_number + max_count))) as [e|];
    [by rewrite H|].
  destruct H as (items & filled & current & free & parts & used
                 & Hitems & -> & -> & Hp & _).
  cbn [rbind fst snd]. intros [= <- <-]. eexists _, items.
  split; [done|]. split; [done|].
  assert (Hcols : (without_heights <$> filled)
                    ++ without_heights current :: replicate free []
                  = (without_heights <$> (filled ++ [current]))
                      ++ replicate free []).
  { rewrite fmap_app. simpl. by rewrite <- app_assoc. }
  rewrite Hcols, filter_app, foldl_app, column_html_empty, column_html_images.
  match goal with
  | |- (filter _ ?style ++ _) ++ _ = _ =>
      change style
        with (get_html_style ++ ["    <div class=" +:+ quoted "container" +:+ ">"])
  end.
  rewrite style_has_no_image_line, concat_app. simpl.
  by rewrite !app_nil_r, Hp.
Qed.

End PagesFacts.

(** ** The book *)


Section BookLoop.

Variable glob_png : path -> list string.
Variable absolute : path -> string.
Variable pdf : Type.
Variable chromium : string -> result pdf.
Variable pypdf : list pdf -> result pdf.
Variable max_number numbers_per_page : Z.
Variable numbers_dir : path.

Lemma build_page_html_count (start_number max_count : Z) (html_content : string)
      (numbers_used : nat) :
  build_page_html glob_png absolute numbers_dir start_number max_count
  = Ok (html_content, numbers_used) ->
  numbers_used <= Z.to_nat max_count /\ ((1 <= max_count)%Z -> 1 <= numbers_used).
Proof.
  unfold build_page_html.
  pose proof (build_page_parts_outcome glob_png absolute numbers_dir
                start_number max_count) as H.
  destruct (first_image_error glob_png numbers_dir
              (range start_number (start_number + max_count))) as [e|];
    [by rewrite H|].
  destruct H as (items & filled & current & free & parts & used & _ & -> & _ & _ & Hu).
  cbn [rbind fst snd]. by intros [= <- <-].
Qed.

Lemma html_to_pdf_printed (page : nat) (w w' : book_world pdf) (r : result unit) :
  html_to_pdf pdf chromium page w = (w', r) -> printed pdf w' = printed pdf w.
Proof.
  unfold html_to_pdf. destruct (html_pages pdf w !! page) as [html|];
    [|by intros [= <- <-]].
  destruct (chromium html); by intros [= <- <-].
Qed.

Lemma page_loop_enough (fuel : nat) (st : pagination) (w : book_world pdf) :
  Z.to_nat (max_number + 1 - current_number st) <= fuel ->
  is_Some (page_loop glob_png absolute pdf chromium max_number numbers_per_page
    numbers_dir fuel st w).
Proof.
  revert st w. induction fuel as [|fuel IH]; intros st w Hfuel.
  - simpl. destruct (Z.leb_spec (current_number st) max_number); [lia|by eexists].
  - cbn [page_loop].
    destruct (Z.leb_spec (current_number st) max_number); [|by eexists].
    destruct (build_page_html glob_png absolute numbers_dir (current_number st) _)
      as [[html_content numbers_used]|e]; [|by eexists].
    destruct (Nat.eqb_spec numbers_used 0); [by eexists|].
    destruct (html_to_pdf pdf chromium (page_num st) _) as [w1 [[]|e]]; [|by eexists].
    apply IH. cbn [current_number]. lia.
Qed.

Lemma page_loop_more_fuel (fuel fuel' : nat) (st : pagination) (w : book_world pdf)
      (res : book_world pdf * result pagination) :
  page_loop glob_png absolute pdf chromium max_number numbers_per_page
    numbers_dir fuel st w = Some res ->
  fuel <= fuel' ->
  page_loop glob_png absolute pdf chromium max_number numbers_per_page
    numbers_dir fuel' st w = Some res.
Proof.
  revert fuel' st w. induction fuel as [|fuel IH]; intros fuel' st w.
  - simpl. destruct (Z.leb_spec (current_number st) max_number); [done|].
    intros <- _. destruct fuel'; simpl;
      by destruct (Z.leb_spec (current_number st) max_number); [lia|].
  - intros H Hle. destruct fuel' as [|fuel']; [lia|]. revert H. cbn [page_loop].
    destruct (current_number st <=? max_number)%Z; [|done].
    destruct (build_page_html glob_png absolute numbers_dir (current_number st) _)
      as [[html_content numbers_used]|e]; [|done].
    destruct (Nat.eqb numbers_used 0); [done|].
    destruct (html_to_pdf pdf chromium (page_num st) _) as [w1 [[]|e]]; [|done].
    intros H. apply IH; [done|lia].
Qed.

Lemma page_ranges_app (out out' : list book_message) :
  page_ranges (out ++ out') = page_ranges out ++ page_ranges out'.
Proof. apply omap_app. Qed.

(** What a run of the loop prints, however it ends. *)
Lemma page_loop_pages (fuel : nat) (st : pagination) (w w' : book_world pdf)
      (r : result pagination) :
  page_loop glob_png absolute pdf chromium max_number numbers_per_page
    numbers_dir fuel st w = Some (w', r) ->
  exists out next,
    printed pdf w' = printed pdf w ++ out /\
    consecutive (page_num st + 1) (current_number st) (page_ranges out) next /\
    (current_number st <= next <= Z.max (current_number st) (max_number + 1))%Z /\
    (forall n, NoNumbersFit n ∈ out -> (numbers_per_page <= 0)%Z) /\
    (forall m, m ∈ out ->
       (exists n, m = NoNumbersFit n) \/ (exists p a b, m = PageNumbers p a b)) /\
    (forall st', r = Ok st' ->
       length (page_pdfs st') = length (page_pdfs st) + length (page_ranges out)
       /\ ((1 <= numbers_per_page)%Z -> (max_number < next)%Z)).
Proof.
  revert st w. induction fuel as [|fuel IH]; intros st w.
  - simpl. destruct (Z.leb_spec (current_number st) max_number); [done|].
    intros [= <- <-]. exists [], (current_number st).
    split; [by rewrite app_nil_r|]. split; [done|]. split; [lia|].
    split; [by intros n ?%elem_of_nil|]. split; [by intros m ?%elem_of_nil|].
    intros st' [= <-]. simpl. split; lia.
  - cbn [page_loop].
    destruct (Z.leb_spec (current_number st) max_number) as [Hle|Hgt].
    2:{ intros [= <- <-]. exists [], (current_number st).
        split; [by rewrite app_nil_r|]. split; [done|]. split; [lia|].
        split; [by intros n ?%elem_of_nil|]. split; [by intros m ?%elem_of_nil|].
        intros st' [= <-]. simpl. split; lia. }
    destruct (build_page_html glob_png absolute numbers_dir (current_number st) _)
      as [[html_content numbers_used]|e] eqn:Hpage.
    2:{ intros [= <- <-]. exists [], (current_number st).
        split; [by rewrite app_nil_r|]. split; [done|]. split; [lia|].
        split; [by intros n ?%elem_of_nil|]. split; [by intros m ?%elem_of_nil|].
        done. }
    apply build_page_html_count in Hpage as [Hmost Hleast].
    destruct (Nat.eqb_spec numbers_used 0) as [->|Hused].
    { intros [= <- <-]. exists [NoNumbersFit (current_number st)], (current_number st).
      split; [done|]. split; [done|]. split; [lia|]. split; [intros; lia|].
      split; [intros m ->%list_elem_of_singleton; left; by eexists|].
      intros st' [= <-]. simpl. split; lia. }
    set (line := PageNumbers (page_num st + 1) (current_number st)
                   (current_number st + Z.of_nat numbers_used - 1)).
    destruct (html_to_pdf pdf chromium (page_num st) _) as [w1 [[]|e]] eqn:Hpdf;
      apply html_to_pdf_printed in Hpdf; cbn [printed write_text book_print] in Hpdf.
    + intros (out & next & Hout & Hcons & Hnext & Hwarn & Hkind & Hend)%IH.
      cbn [page_num current_number page_pdfs] in *.
      exists (line :: out), next. split; [by rewrite Hout, Hpdf, <- app_assoc|].
      split.
      { cbn [page_ranges omap line]. fold (page_ranges out). simpl.
        split; [done|]. split; [done|]. split; [lia|].
        replace (S (page_num st + 1)) with (page_num st + 1 + 1) by lia.
        by replace (current_number st + Z.of_nat numbers_used - 1 + 1)%Z
          with (current_number st + Z.of_nat numbers_used)%Z by lia. }
      split; [lia|]. split.
      { intros n [Hn|Hn]%elem_of_cons; [done|by eapply Hwarn]. }
      split.
      { intros m [->|Hm]%elem_of_cons; [right; by eexists _, _, _|by apply Hkind]. }
      intros st' Hst. destruct (Hend st' Hst) as [Hlen Hmax]. split; [|done].
      rewrite Hlen, length_app. simpl. lia.
    + intros [= <- <-].
      exists [line], (current_number st + Z.of_nat numbers_used)%Z.
      split; [done|]. split.
      { simpl. split; [done|]. split; [done|]. split; lia. }
      split; [lia|]. split.
      { by intros n ?%list_elem_of_singleton. }
      split; [|done].
      intros m ->%list_elem_of_singleton. right. by eexists _, _, _.
Qed.

Lemma html_to_pdf_written (page : nat) (html_content : string)
      (w w' : book_world pdf) :
  html_to_pdf pdf chromium page (write_text pdf page html_content w) = (w', Ok tt) ->
  exists document,
    chromium html_content = Ok document /\
    w' = BookWorld pdf (<[page := html_content]> (html_pages pdf w))
           (<[page := document]> (pdf_pages pdf w)) (the_numbers pdf w)
           (printed pdf w).
Proof.
  unfold html_to_pdf, write_text. cbn [html_pages pdf_pages the_numbers printed].
  rewrite lookup_insert_eq. destruct (chromium html_content) as [document|e]; [|done].
  intros [= <-]. by exists document.
Qed.

(** The files of a run of the loop that ended without exception. *)
Lemma page_loop_files (fuel : nat) (st st' : pagination) (w w' : book_world pdf) :
  page_loop glob_png absolute pdf chromium max_number numbers_per_page
    numbers_dir fuel st w = Some (w', Ok st') ->
  exists out,
    printed pdf w' = printed pdf w ++ out /\
    the_numbers pdf w' = the_numbers pdf w /\
    page_pdfs st' = page_pdfs st ++ seq (page_num st) (length (page_ranges out)) /\
    (forall n, n < page_num st ->
       html_pages pdf w' !! n = html_pages pdf w !! n
       /\ pdf_pages pdf w' !! n = pdf_pages pdf w !! n) /\
    (forall i p a b,
       page_ranges out !! i = Some (p, a, b) ->
       exists html_content document,
         build_page_html glob_png absolute numbers_dir a
           (Z.min numbers_per_page (max_number - a + 1))
         = Ok (html_content, Z.to_nat (b - a + 1))
         /\ html_pages pdf w' !! (page_num st + i) = Some html_content
         /\ chromium html_content = Ok document
         /\ pdf_pages pdf w' !! (page_num st + i) = Some document).
Proof.
  revert st w. induction fuel as [|fuel IH]; intros st w.
  - simpl. destruct (Z.leb_spec (current_number st) max_number); [done|].
    intros [= <- <-]. exists []. rewrite !app_nil_r. by repeat split.
  - cbn [page_loop].
    destruct (Z.leb_spec (current_number st) max_number) as [Hle|Hgt].
    2:{ intros [= <- <-]. exists []. rewrite !app_nil_r. by repeat split. }
    destruct (build_page_html glob_png absolute numbers_dir (current_number st) _)
      as [[html_content numbers_used]|e] eqn:Hpage; [|done].
    destruct (Nat.eqb_spec numbers_used 0) as [->|Hused].
    { intros [= <- <-]. exists [NoNumbersFit (current_number st)].
      simpl. rewrite app_nil_r. by repeat split. }
    set (line := PageNumbers (page_num st + 1) (current_number st)
                   (current_number st + Z.of_nat numbers_used - 1)).
    destruct (html_to_pdf pdf chromium (page_num st) _) as [w1 [[]|e]] eqn:Hpdf;
      [|done].
    apply html_to_pdf_written in Hpdf as (document & Hdoc & ->).
    cbn [html_pages pdf_pages the_numbers printed book_print].
    intros (out & Hout & Hbook & Hpdfs & Hkeep & Hpages)%IH.
    cbn [html_pages pdf_pages the_numbers printed page_pdfs page_num] in *.
    exists (line :: out). split; [by rewrite Hout, <- app_assoc|].
    split; [done|]. split.
    { rewrite Hpdfs, <- app_assoc. cbn [page_ranges omap line].
      fold (page_ranges out). simpl. by rewrite Nat.add_1_r. }
    split.
    { intros n Hn. destruct (Hkeep n ltac:(lia)) as [-> ->].
      by rewrite !lookup_insert_ne by lia. }
    intros i p a b. cbn [page_ranges omap line]. fold (page_ranges out).
    destruct i as [|i]; simpl.
    + intros [= <- <- <-]. exists html_content, document.
      replace (current_number st + Z.of_nat numbers_used - 1 - current_number st + 1)%Z
        with (Z.of_nat numbers_used) by lia.
      rewrite Nat2Z.id, Nat.add_0_r. split; [done|].
      destruct (Hkeep (page_num st) ltac:(lia)) as [-> ->].
      by rewrite !lookup_insert_eq.
    + intros Hi. destruct (Hpages i p a b Hi) as (h & d & Hh).
      exists h, d. by replace (page_num st + S i) with (page_num st + 1 + i) by lia.
Qed.

End BookLoop.

Section BookMain.

Variable glob_png : path -> list string.
Variable absolute : path -> string.
Variable pdf : Type.
Variable chromium : string -> result pdf.
Variable pypdf : list pdf -> result pdf.
Variable max_number numbers_per_page : Z.

(** X22.  The loop of [main] ends: [max_number] rounds are enough, whatever
    the images, the browser and the arguments are, and more rounds give
    the same result. *)
Theorem book_main_terminates (fuel : nat) (w : book_world pdf) :
  Z.to_nat max_number <= fuel ->
  is_Some (book_main glob_png absolute pdf chromium pypdf max_number
             numbers_per_page fuel w) /\
  book_main glob_png absolute pdf chromium pypdf max_number numbers_per_page
    fuel w
  = book_main glob_png absolute pdf chromium pypdf max_number numbers_per_page
      (Z.to_nat max_number) w.
Proof.
  intros Hfuel. unfold book_main.
  set (w0 := book_print pdf (Generating numbers_per_page) w).
  destruct (page_loop_enough glob_png absolute pdf chromium max_number
              numbers_per_page ["data"; "numbers"] (Z.to_nat max_number)
              (Pagination [] 1 0) w0)
    as [res Hres]; [simpl; lia|].
  rewrite (page_loop_more_fuel _ _ _ _ _ _ _ _ fuel _ _ _ Hres Hfuel), Hres.
  split; [|done]. destruct res as [w1 [st|e]]; [|by eexists].
  destruct (merge_pdfs pdf pypdf (page_pdfs st) _) as [w2 [[]|e]]; by eexists.
Qed.

Lemma merge_pdfs_printed (pdf_paths : list nat) (w w' : book_world pdf)
      (r : result unit) :
  merge_pdfs pdf pypdf pdf_paths w = (w', r) -> printed pdf w' = printed pdf w.
Proof.
  unfold merge_pdfs. destruct (mapM _ pdf_paths) as [documents|];
    [|by intros [= <- <-]].
  destruct (pypdf documents); by intros [= <- <-].
Qed.

(** X23.  The pages of the book follow one another.  However a run ends, the
    page lines it printed are numbered 1, 2, ..., the first page starts
    at number 1, no page is empty and each starts right after the end
    of the one before; no page goes beyond [max_number].  The warning
    that no number fits is printed only for a [numbers_per_page] of 0 or
    below.  A run that ends without exception printed the number of its
    pages in the merge line, and with a positive [numbers_per_page] its
    pages reach [max_number]. *)
Theorem book_pages_consecutive (fuel : nat) (w w' : book_world pdf)
        (r : result unit) :
  book_main glob_png absolute pdf chromium pypdf max_number numbers_per_page
    fuel w = Some (w', r) ->
  exists out next,
    printed pdf w' = printed pdf w ++ out /\
    consecutive 1 1 (page_ranges out) next /\
    (1 <= next <= Z.max 1 (max_number + 1))%Z /\
    (forall n, NoNumbersFit n ∈ out -> (numbers_per_page <= 0)%Z) /\
    (r = Ok tt ->
     Merging (length (page_ranges out)) ∈ out /\
     ((1 <= numbers_per_page)%Z -> next = Z.max 1 (max_number + 1))).
Proof.
  unfold book_main.
  set (w0 := book_print pdf (Generating numbers_per_page) w).
  destruct (page_loop glob_png absolute pdf chromium max_number numbers_per_page
              ["data"; "numbers"] fuel (Pagination [] 1 0) w0)
    as [[w1 r1]|] eqn:Hloop; [|done].
  apply page_loop_pages in Hloop
    as (out & next & Hout & Hcons & Hnext & Hwarn & Hkind & Hend).
  cbn [page_num current_number page_pdfs printed book_print w0] in *.
  assert (Hranges : forall before after,
            (forall m, m ∈ before ++ after -> page_ranges [m] = []) ->
            page_ranges (before ++ out ++ after) = page_ranges out).
  { intros before after Hnone. rewrite !page_ranges_app.
    assert (Hnil : forall l, (forall m, m ∈ l -> page_ranges [m] = []) ->
                             page_ranges l = []).
    { induction l as [|m l IHl]; [done|]. intros Hl.
      change (m :: l) with ([m] ++ l). rewrite page_ranges_app.
      rewrite (Hl m) by left. apply IHl. intros m' Hm'. apply Hl. by right. }
    rewrite (Hnil before); [|intros m Hm; apply Hnone, elem_of_app; by left].
    rewrite (Hnil after); [|intros m Hm; apply Hnone, elem_of_app; by right].
    by rewrite app_nil_r. }
  destruct r1 as [st|e].
  - destruct (Hend st eq_refl) as [Hlen Hmax]. simpl in Hlen.
    destruct (merge_pdfs pdf pypdf (page_pdfs st) _) as [w2 [[]|e]] eqn:Hmerge;
      apply merge_pdfs_printed in Hmerge; cbn [printed book_print] in Hmerge.
    + intros [= <- <-]. cbn [printed book_print].
      exists ([Generating numbers_per_page] ++ out
                ++ [Merging (length (page_pdfs st)); CleaningUp; PdfCreated; HtmlKept]),
        next.
      split; [by rewrite Hmerge, Hout, <- !app_assoc|].
      rewrite Hranges.
      2:{ intros m Hm. repeat (apply elem_of_cons in Hm as [->|Hm]; [done|]).
          by apply elem_of_nil in Hm. }
      split; [done|]. split; [lia|]. split.
      { intros n [Hn|[Hn|Hn]%elem_of_app]%elem_of_app.
        - by apply list_elem_of_singleton in Hn.
        - by eapply Hwarn.
        - repeat (apply elem_of_cons in Hn as [?|Hn]; [done|]).
          by apply elem_of_nil in Hn. }
      intros _. split; [|intros Hnpp; specialize (Hmax Hnpp); lia].
      rewrite Hlen. apply elem_of_app. right. apply elem_of_app. right. left.
    + intros [= <- <-].
      exists ([Generating numbers_per_page] ++ out
                ++ [Merging (length (page_pdfs st))]), next.
      split; [by rewrite Hmerge, Hout, <- !app_assoc|].
      rewrite Hranges.
      2:{ intros m Hm. repeat (apply elem_of_cons in Hm as [->|Hm]; [done|]).
          by apply elem_of_nil in Hm. }
      split; [done|]. split; [lia|]. split; [|done].
      intros n [Hn|[Hn|Hn]%elem_of_app]%elem_of_app.
      * by apply list_elem_of_singleton in Hn.
      * by eapply Hwarn.
      * by apply list_elem_of_singleton in Hn.
  - intros [= <- <-]. exists ([Generating numbers_per_page] ++ out ++ []), next.
    split; [by rewrite Hout, app_nil_r, <- app_assoc|].
    rewrite Hranges.
    2:{ intros m Hm. repeat (apply elem_of_cons in Hm as [->|Hm]; [done|]).
        by apply elem_of_nil in Hm. }
    split; [done|]. split; [lia|]. split; [|done].
    intros n [Hn|[Hn|Hn]%elem_of_app]%elem_of_app.
    + by apply list_elem_of_singleton in Hn.
    + by eapply Hwarn.
    + by apply elem_of_nil in Hn.
Qed.

(** X24.  The book of a run that ended without exception: it is what [pypdf]
    makes of the page documents in the order of the pages, one for each
    page line; the document of a page is what the browser made of its
    HTML page, which is kept and is the page built from the first
    number of its range; and no page document is left in [temp_pages]. *)
Theorem book_made_of_pages (fuel : nat) (w w' : book_world pdf) :
  book_main glob_png absolute pdf chromium pypdf max_number numbers_per_page
    fuel w = Some (w', Ok tt) ->
  exists out documents book,
    printed pdf w' = printed pdf w ++ out /\
    pdf_pages pdf w' = ∅ /\
    the_numbers pdf w' = Some book /\
    pypdf documents = Ok book /\
    length documents = length (page_ranges out) /\
    forall i p a b,
      page_ranges out !! i = Some (p, a, b) ->
      exists html_content document,
        build_page_html glob_png absolute ["data"; "numbers"] a
          (Z.min numbers_per_page (max_number - a + 1))
        = Ok (html_content, Z.to_nat (b - a + 1))
        /\ html_pages pdf w' !! i = Some html_content
        /\ chromium html_content = Ok document
        /\ documents !! i = Some document.
Proof.
  unfold book_main.
  set (w0 := book_print pdf (Generating numbers_per_page) w).
  destruct (page_loop glob_png absolute pdf chromium max_number numbers_per_page
              ["data"; "numbers"] fuel (Pagination [] 1 0) w0)
    as [[w1 [st|e]]|] eqn:Hloop; [|done..].
  apply page_loop_files in Hloop as (out & Hout & Hbook & Hpdfs & _ & Hpages).
  cbn [page_num current_number page_pdfs printed book_print w0 app] in *.
  unfold merge_pdfs. cbn [pdf_pages html_pages the_numbers printed book_print].
  destruct (mapM (fun page => pdf_pages pdf w1 !! page) (page_pdfs st))
    as [documents|] eqn:Hdocs; [|done].
  destruct (pypdf documents) as [book|e] eqn:Hmerge; [|done].
  intros [= <-]. cbn [pdf_pages html_pages the_numbers printed book_print].
  apply mapM_Some in Hdocs. rewrite Hpdfs in Hdocs.
  exists ([Generating numbers_per_page] ++ out
            ++ [Merging (length (page_pdfs st)); CleaningUp; PdfCreated; HtmlKept]),
    documents, book.
  assert (Hranges :
    page_ranges ([Generating numbers_per_page] ++ out
                   ++ [Merging (length (page_pdfs st)); CleaningUp; PdfCreated;
                       HtmlKept])
    = page_ranges out).
  { rewrite !page_ranges_app. simpl. by rewrite app_nil_r. }
  rewrite Hranges.
  split; [by rewrite Hout, <- !app_assoc|]. split; [done|]. split; [done|].
  split; [done|]. split.
  { by rewrite <- (Forall2_length _ _ _ Hdocs), length_seq. }
  intros i p a b Hi. destruct (Hpages i p a b Hi) as (h & d & Hh & Hhtml & Hd & Hpdf).
  exists h, d. split; [done|]. split; [done|]. split; [done|].
  assert (Hseq : seq 0 (length (page_ranges out)) !! i = Some i).
  { apply lookup_lt_Some in Hi. by rewrite lookup_seq_lt. }
  destruct (Forall2_lookup_l _ _ _ _ _ Hdocs Hseq) as (d' & Hd' & Hlook).
  simpl in Hpdf. congruence.
Qed.

End BookMain.

(** ** The properties on the examples *)

Lemma normalizer_reads_decimal_witness :
  (0 <= 1984 <= 50000)%Z /\
  extract_number_from_text w2n_excerpt (PyStr.str_of_int 1984) = Ok (Some 1984%Z).
Proof.
  split; [lia|]. apply (normalizer_reads_decimal w2n_excerpt 1984). lia.
Defined.

Lemma normalizer_rejects_leading_zero_witness :
  PyStr.isdecimal "07" = true /\
  extract_number_from_text w2n_excerpt ("0" +:+ "07") = Ok None.
Proof.
  split; [reflexivity|].
  apply (normalizer_rejects_leading_zero w2n_excerpt "07"). reflexivity.
Defined.

Lemma float_le_90_exact_witness :
  (exponent (Confidence 9000000000001 11) <= 14)%nat /\
  (float_le_90 (Confidence 9000000000001 11) = false
   <-> above 90 (Confidence 9000000000001 11)).
Proof.
  split; [simpl; lia|].
  apply (float_le_90_exact (Confidence 9000000000001 11)). simpl. lia.
Defined.

Lemma parse_image_path_file_name_witness :
  parse_image_path ("image " +:+ quoted "/scans/p1.jp2" +:+ "; ppageno 0")
  = Some "p1.jp2" /\
  PyStr.has_char "/" "p1.jp2" = false /\ "p1.jp2" <> ".".
Proof.
  split; [reflexivity|].
  apply (parse_image_path_file_name
           ("image " +:+ quoted "/scans/p1.jp2" +:+ "; ppageno 0") "p1.jp2").
  reflexivity.
Defined.

Lemma parse_image_path_of_reference_witness :
  PyStr.has_char dquote "/scans/book1_jp2" = false /\
  PyStr.has_char dquote "p1.jp2" = false /\
  PyStr.has_char "/" "p1.jp2" = false /\
  parse_image_path
    ("image " +:+ quoted ("/scans/book1_jp2" +:+ "/" +:+ "p1.jp2") +:+ "; ppageno 0")
  = Some "p1.jp2".
Proof.
  split; [reflexivity|]. split; [reflexivity|]. split; [reflexivity|].
  apply (parse_image_path_of_reference "/scans/book1_jp2" "p1.jp2" "; ppageno 0");
    [reflexivity | reflexivity | reflexivity | discriminate | discriminate].
Defined.

Lemma scan_result_shape_witness :
  extract_numbers_from_hocr w2n_excerpt example_html = Ok example_dict /\
  NoDup example_dict.*1 /\
  forall i l, (i, l) ∈ example_dict ->
    l <> [] /\
    (exists p, p ∈ example_html /\ resolved_image p = Some i) /\
    forall c, c ∈ l ->
      (0 <= number c <= 50000)%Z /\
      (0 <= (box c).1.1.1 /\ 0 <= (box c).1.1.2 /\ 0 <= (box c).1.2
       /\ 0 <= (box c).2)%Z.
Proof.
  split; [vm_compute; reflexivity|].
  apply (scan_result_shape w2n_excerpt example_html example_dict).
  vm_compute. reflexivity.
Defined.

Lemma extract_and_save_numbers_only_adds_witness :
  let w := World {[ ["data"; "numbers"; "7"; "7_book0_p9.png"] := (1, 1, 9, 9)%Z ]} [] in
  let w' := (example_run w).1 in
  example_run w = (w', Ok 1) /\
  files w ⊆ files w' /\
  forall p x, created w w' p x ->
    exists html d i l c img,
      Ok example_html = Ok html
      /\ extract_numbers_from_hocr w2n_excerpt html = Ok d
      /\ (i, l) ∈ d /\ c ∈ l /\ example_jp2 i = Some (Ok img)
      /\ img (box c) = Ok x
      /\ p = output_path ["data"; "numbers"] "book1" i (number c).
Proof.
  intros w w'. split; [vm_compute; reflexivity|].
  apply (extract_and_save_numbers_only_adds w2n_excerpt bbox ["data"; "numbers"]
           "book1" example_jp2 (Ok example_html) w w' (Ok 1)).
  vm_compute. reflexivity.
Defined.

Lemma extract_and_save_numbers_report_witness :
  let w := World ∅ [] in
  let w' := (example_run w).1 in
  example_run w = (w', Ok 1) /\
  size (files w') = size (files w) + 1 /\
  exists html d skipped,
    Ok example_html = Ok html
    /\ extract_numbers_from_hocr w2n_excerpt html = Ok d
    /\ 1 + skipped = covered example_jp2 d
    /\ stdout w'
       = stdout w ++ [Processing "book1"] ++ missing_warnings example_jp2 d
           ++ [Completed "book1" 1 skipped].
Proof.
  intros w w'. split; [vm_compute; reflexivity|].
  apply (extract_and_save_numbers_report w2n_excerpt bbox ["data"; "numbers"]
           "book1" example_jp2 (Ok example_html) w w' 1).
  vm_compute. reflexivity.
Defined.

Lemma distribute_returns_columns_witness :
  (1 <= 2)%Z /\
  exists columns used,
    distribute_numbers_to_columns example_items 2 672 = Ok (columns, used) /\
    length columns = Z.to_nat 2 /\
    used <= length example_items.
Proof.
  split; [lia|]. apply (distribute_returns_columns 2 672 example_items). lia.
Defined.

Lemma distribute_no_column_raises_witness :
  (0 <= 0)%Z /\ (300 <= 672)%Z /\
  distribute_numbers_to_columns ((1, 300, ["1"; "a.png"])%Z :: []) 0 672
  = Raise IndexError.
Proof.
  split; [lia|]. split; [lia|].
  apply (distribute_no_column_raises 0 672 1 300 ["1"; "a.png"] []); lia.
Defined.

Lemma distribute_keeps_order_witness :
  distribute_numbers_to_columns example_items 2 672
  = Ok ([[(1, ["1"; "a.png"]); (2, ["2"; "b.png"])]; [(3, ["3"; "c.png"])]]%Z, 3) /\
  3 <= length example_items /\
  concat [[(1, ["1"; "a.png"]); (2, ["2"; "b.png"])]; [(3, ["3"; "c.png"])]]%Z
  = without_heights (take 3 example_items).
Proof.
  split; [vm_compute; reflexivity|].
  apply (distribute_keeps_order 2 672 example_items
           [[(1, ["1"; "a.png"]); (2, ["2"; "b.png"])]; [(3, ["3"; "c.png"])]]%Z 3).
  vm_compute. reflexivity.
Defined.

Lemma distribute_fills_greedily_witness :
  (1 <= 2)%Z /\
  exists filled current free,
    [[(1, ["1"; "a.png"]); (2, ["2"; "b.png"])]; [(3, ["3"; "c.png"])]]%Z
    = (without_heights <$> filled)
        ++ without_heights current :: replicate free [] /\
    concat filled ++ current = take 3 example_items /\
    Forall (fun run => (heights run <= 672)%Z \/ length run <= 1)
           (filled ++ [current]) /\
    (forall k run run',
       (filled ++ [current]) !! k = Some run ->
       (filled ++ [current]) !! S k = Some run' ->
       exists item rest,
         run' = item :: rest /\ (672 < heights run + height_of item)%Z) /\
    (forall item,
       example_items !! 3 = Some item ->
       free = 0 /\ (672 < heights current + height_of item)%Z).
Proof.
  split; [lia|].
  apply (distribute_fills_greedily 2 672 example_items
           [[(1, ["1"; "a.png"]); (2, ["2"; "b.png"])]; [(3, ["3"; "c.png"])]]%Z 3);
    [lia | vm_compute; reflexivity].
Defined.

Lemma build_page_html_images_witness :
  let page := build_page_html example_listing example_absolute
                ["data"; "numbers"] 1 4 in
  exists html_content,
    page = Ok (html_content, 4) /\
    exists parts items,
      html_content = join (String (ascii_of_N 10) EmptyString) parts /\
      collected example_listing ["data"; "numbers"] (range 1 (1 + 4)) items /\
      filter (fun line => is_image_line line = true) parts
      = image_line example_absolute <$> take 4 items.
Proof.
  intros page.
  exists (match page with Ok (html_content, _) => html_content | Raise _ => EmptyString end).
  split; [vm_compute; reflexivity|].
  apply (build_page_html_images example_listing example_absolute
           ["data"; "numbers"] 1 4).
  vm_compute. reflexivity.
Defined.

Lemma book_main_terminates_witness :
  Z.to_nat 4 <= 9 /\
  is_Some (example_book 9) /\ example_book 9 = example_book (Z.to_nat 4).
Proof.
  split; [simpl; lia|].
  apply (book_main_terminates example_listing example_absolute (list string)
           example_chromium example_pypdf 4 3 9 example_book_world).
  simpl. lia.
Defined.

Lemma book_pages_consecutive_witness :
  example_book 4 = Some (example_book_end, Ok tt) /\
  exists out next,
    printed (list string) example_book_end
    = printed (list string) example_book_world ++ out /\
    consecutive 1 1 (page_ranges out) next /\
    (1 <= next <= Z.max 1 (4 + 1))%Z /\
    (forall n, NoNumbersFit n ∈ out -> (3 <= 0)%Z) /\
    (Ok tt = Ok tt ->
     Merging (length (page_ranges out)) ∈ out /\
     ((1 <= 3)%Z -> next = Z.max 1 (4 + 1))).
Proof.
  split; [vm_compute; reflexivity|].
  apply (book_pages_consecutive example_listing example_absolute (list string)
           example_chromium example_pypdf 4 3 4 example_book_world
           example_book_end (Ok tt)).
  vm_compute. reflexivity.
Defined.

Lemma book_made_of_pages_witness :
  example_book 4 = Some (example_book_end, Ok tt) /\
  exists out documents book,
    printed (list string) example_book_end
    = printed (list string) example_book_world ++ out /\
    pdf_pages (list string) example_book_end = ∅ /\
    the_numbers (list string) example_book_end = Some book /\
    example_pypdf documents = Ok book /\
    length documents = length (page_ranges out) /\
    forall i p a b,
      page_ranges out !! i = Some (p, a, b) ->
      exists html_content document,
        build_page_html example_listing example_absolute ["data"; "numbers"] a
          (Z.min 3 (4 - a + 1))
        = Ok (html_content, Z.to_nat (b - a + 1))
        /\ html_pages (list string) example_book_end !! i = Some html_content
        /\ example_chromium html_content = Ok document
        /\ documents !! i = Some document.
Proof.
  split; [vm_compute; reflexivity|].
  apply (book_made_of_pages example_listing example_absolute (list string)
           example_chromium example_pypdf 4 3 4 example_book_world
           example_book_end).
  vm_compute. reflexivity.
Defined.
